(* ===== verification/_CoqProject ===== *)
-Q . S2P
Prelude.v
JsString.v
Lexer.v
Shape.v
Detector.v
Transform.v
Decode.v
Bounds.v
Emitters.v
Graph.v
GraphEmitters.v
Visitor.v
Traces.v
Target.v
Parse.v
Balance.v
JsValue.v
Semantics.v
TextSemantics.v
Faults.v
Typing.v
Codec.v
