(* ===== verification/Prelude.v ===== *)
(** * Verification of graphql-codegen-fetcher: the JSON transformer generator

    ** The program

    The repository is a GraphQL code-generation plugin.  For every query or
    mutation of a document set it emits TypeScript source text: a key maker,
    an _input transformer_, an _output transformer_ and a fetcher.  Two
    source files are under [src/]:

    - [src/dist/transformer-generator.js] (the compiled transformer module):
      [hasJsonFields] walks a field shape tree and says whether some leaf
      has the scalar type [AWSJSON]; [transformJsonFields] walks the same
      tree and returns the lines of an object literal that override exactly
      those leaves with [JSON.parse] or [JSON.stringify];
      [generateOutputTransformer] and [generateInputTransformer] wrap the
      lines into the text of an exported arrow function;
      [generateQueryVariablesSignature] formats the parameter.
    - [src/unnamed/part_000] (the visitor class [ReactQueryVisitor]):
      the constructor reads the configuration and merges the fields of
      the query type and of the mutation type of the schema;
      [buildOperation] calls the generators in a fixed order for queries
      and mutations and emits nothing for subscriptions; [_getHookSuffix]
      computes the suffix of a name; [getImports] adds to a set of
      identifiers in use and returns the import lines.

    The field shape tree comes from a type resolver that is not under
    [src/]; the generators only read it.

    ** The files of this development, in dependency order

    - [Prelude] (this file): the completion type that carries a thrown
      JavaScript exception as a value, its bind notation in [js_scope],
      the traversals [mapM], [foldM], [someM] and [filterM] of a list by
      a function that may throw,
      the hint databases [str] (rewriting of string expressions) and
      [jsgen] (resolution), the tactics [inv] and [destr_bool],
      and the lemmas on strings and lists every component shares.
    - [JsString]: the JavaScript string and array primitives the generators
      call, with the semantics of ECMAScript on the inputs that occur:
      [String.prototype.includes], [String.prototype.substring] on
      integers (negative bounds are clamped to 0, large ones to the
      length, swapped bounds are exchanged), [Array.prototype.join] and
      the conversion of an array inside a template literal, which joins
      with a comma.  Integers are [Z], as [fieldName.length - 1] may be
      negative.
    - [Lexer]: the tokens of an emitted line ([lex]: a run of letters,
      digits and underscores is a name, every other character a
      symbol), the tokens of a concatenation, and [unlex], which shows
      that a text is determined by its tokens.
    - [Shape]: the field shape tree, [FieldValue], either [Scalar] (a type
      name) or [Object] (an association list from annotated field names to
      trees, in the order of [Object.entries]), its induction principle,
      the declarations of fields ([Declaration]: a name, the
      two flags and a tree) with the well-formedness predicate [wf] (the
      record of every object is the record of a list of declarations
      whose names have no marker character and differ from one another),
      and the abstract specification [JsonLeaf]: the tree has a leaf of
      type [AWSJSON], and the two measures [size] (nodes) and [depth]
      (nested objects).
    - [Detector]: [hasJsonFields], written as the source writes it (map,
      filter by truthiness, compare the length with 0), proved equal to a
      short-circuit search [hasJsonLeafb], equivalent to [JsonLeaf], and
      invariant under the equivalence [shapeEquiv] of trees that differ
      in the order of fields ([Proper] instances).
    - [Transform]: [transformJsonFields] with its loop body
      [transformField]; the decoding of an annotated name ([isMandatory],
      [isArray], [fieldNameOf], [fieldNameSingular]); theorems: the
      decoding of well-formed names, the emitted lines case by case, their
      order and number, and that the two directions emit the same lines
      exactly when the tree has no JSON leaf.
    - [Decode]: the decoding of a key, once, into the declaration of
      its field ([decode]), which inverts [declare] on well-formed
      records, and the checker [wfb] that decides [wf] (an instance of
      [Decidable]), so that well-formedness of a given tree is proved
      by evaluation.
    - [Bounds]: the index arithmetic of the name decoding (the ends of
      the cuts are never negative, the length of the field name), the
      number of lines against the size of the tree, and the number of
      characters, which is quadratic in the nesting depth.
    - [Emitters]: [generateQueryVariablesSignature],
      [generateOutputTransformer] and [generateInputTransformer] with the
      documentation comment they emit; theorems: the pass-through forms,
      the zero-argument form, the thrown [TypeError] when the variables
      mapping is undefined, and the comma-joined lines of the input
      transformer.
    - [Graph]: the two recursive functions on what they are really given:
      references to objects in a heap ([Ref], [Heap]), where objects may
      be shared and may form cycles, with the number of nested calls the
      stack allows ([hasJsonFieldsOn], [transformJsonFieldsOn]); the
      relation [unfolds] between a graph and the tree of [Shape] it
      unfolds to; theorems: on a graph that unfolds to a tree the
      functions return, with a stack of the depth of the tree, what
      [Detector] and [Transform] define on the tree (termination and
      refinement); the stack they need is that depth exactly; on a graph
      with a reachable cycle they throw a [RangeError] whatever the
      stack.
    - [GraphEmitters]: the two emitters on the same heap, with the order
      of their calls: every call starts with the stack the emitter has
      left, [some] stops at the first variable with a JSON field,
      [filter] and [map] visit every variable; theorems: on graphs that
      unfold to trees the emitters return the texts of [Emitters], and a
      cycle below a variable makes the input transformer throw whatever
      the other variables are.
    - [Visitor]: the fields of the class as the record
      [ReactQueryVisitor], the constant [queryMethodMap], [constructor],
      [createFetcher], the getters [imports] and [hasOperations],
      [getImports] (a function from a state to its result and the state
      it leaves), [getFetcherImplementation], [_getHookSuffix] and
      [buildOperation],
      over a type class [Collaborators] that states what the visitor
      calls but does not define (name conversion, key makers, fetcher,
      type resolver).  The relation [step] lists what changes the state
      after construction; theorems: the invariant [wfVisitor] of every
      reachable state, what no step changes and what only grows, that
      [getImports] is idempotent, which definition a name common to the
      query type and the mutation type gets, and when [buildOperation]
      throws.
    - [Traces]: the runs of a visitor as sequences of calls ([Call],
      [perform], [stateAt]; a position without a call is one where
      nothing happens), the properties [always], [eventually] and
      [leadsTo] of the positions of a run, and the assumption
      [endsWithGetImports] on the caller; theorems: the states of the
      runs are the states [step] reaches, an identifier that comes into
      use is eventually named by a returned import, and with infinite
      queries [QueryFunctionContext] is eventually in use for good.
    - [Target]: the emitted entries as a tree ([Path], [Entry]), the
      tree of a record ([entriesOf]), its rendering as lines, and the
      bodies of the two transformers; theorems: the lines and the texts
      the source's functions return are the renderings of the trees, and
      no object literal of the tree of a well-formed record defines a
      property twice.
    - [Parse]: the lines by kind ([Line], [lineText], [entryLines]),
      the reader of a line from its tokens ([parseLine]), the reader of
      a block of lines with a stack of the entries that are open
      ([parseBlock]) and their composition [parseEntries]; theorems:
      the reader is the inverse of the printer of [Target] on the trees
      whose names are names ([parseEntries_iff]), so the lines determine
      the tree, and the lines [transformJsonFields] returns for a shape
      whose field names are GraphQL names are read back as the tree of
      the shape.
    - [Balance]: a scanner of parentheses and braces with a stack, and
      the theorems that the lines of a tree and the texts of the two
      transformers are well bracketed when the names that occur in them
      have no bracket.
    - [JsValue]: the values of JavaScript the emitted code computes on
      (objects are finite maps of stdpp), truthiness, member access,
      spread, and the class [JsonCodec] of [JSON.parse] and
      [JSON.stringify].
    - [Semantics]: an evaluator of the trees on these values, the
      transformation of values a record denotes ([transformEntryValue],
      [transformObject], [transformVariables]), and the theorems on what
      the transformers compute: evaluation is the transformation of
      values, for both transformers; the output transformer is
      null-safe; encoding then decoding restores an object; a [null]
      nested object is replaced by an object; the input transformer
      throws on an absent variable and keeps only the overridden fields
      of a variable.
    - [TextSemantics]: the meaning of the lines themselves
      ([evalLines]: read, then evaluate; a text that is not read is a
      syntax error); theorems: the lines [transformJsonFields] returns
      compute the transformation of values the shape denotes, and lines
      that no tree prints to do not evaluate.
    - [Faults]: the converse of null-safety: the exceptions the output
      transformer can throw are the [TypeError] of destructuring data
      that is [undefined] or [null], [map] on a value that is not an
      array, and what [JSON.parse] throws; the ones of the input
      transformer are [map] on a value that is not an array and the
      [TypeError] of reading the fields of a variable with a JSON leaf
      that is [undefined] or [null].
    - [Typing]: the typing [Typed] of data against a shape tree, with
      the values of the JSON leaves as a parameter (JSON texts on the
      wire, parsed values once decoded); theorems: the object literal of
      a well-formed record preserves the typing in both directions, and
      the output transformer takes data typed on the wire to data typed
      in decoded form, which is what its cast claims.
    - [Codec]: the class [CodecLaws] of what the theorems ask of
      [JSON.parse] and [JSON.stringify] on the values a codec
      represents, its consequences for the leaves of the data, and the
      instance of the codec of the examples.

    ** Correspondence of data

    A JavaScript string is a [string] (field names and type names are
    GraphQL names, so one character is one UTF-16 code unit); a JavaScript
    number used as an index is a [Z]; an array of strings is a
    [list string]; an object used as an ordered record of fields is an
    association list (GraphQL names never look like array indices, so
    [Object.entries] returns insertion order); [undefined] is [None]; a
    thrown exception is [Throw e] of [completion].  The [transformer]
    argument, one of the strings ['parse'] and ['stringify'], is the
    two-constructor type [Transformer].

    ** Recursion, fuel and bounds

    In [Detector], [Transform], [Target] and [Semantics] the recursions
    are structural on the tree, so no fuel is needed: the tree is finite
    by construction, which is the precondition the type resolver is said
    to guarantee.  [Graph] does without that precondition.  Its functions
    recurse on [stack], the number of nested calls the call stack still
    allows, and throw the [RangeError] of the engine at 0; this is the
    behaviour of the program, not a device of the model.  One call
    costs one unit, where an engine spends a fixed number of frames (the
    function, [map] and its callback), so the bounds hold of an engine up
    to that factor.  That the functions return is proved in the form
    "a stack of [max 1 (depth t)] gives the result"
    ([hasJsonFieldsOn_terminates], [transformJsonFieldsOn_terminates]),
    that no smaller stack does in [hasJsonFieldsOn_stack_bound], and that
    no stack does on a cycle in [cyclic_overflow].  The emitters of
    [GraphEmitters] make their calls one after the other, so they need
    the stack of the deepest tree among the fields they are given.

    The data the emitted code runs on is a [Value] of [JsValue]; its
    objects are finite maps, so the order of properties is not kept.  The
    evaluator does not model the properties of strings, numbers, booleans
    and arrays (an access to one is [undefined]) nor function values (a
    [map] on a value that is not an array, [undefined] or [null] throws).
    The paths the generators build have a plain access only on the root
    variable and optional accesses below, so the evaluation of a path
    access by access agrees with the short-circuit of optional chains.

    ** The three levels and how the theorems connect them

    The text ([Transform], [Emitters]) is the rendering of a tree
    ([Target]: [transformJsonFields_refines] and the two
    [generate..._refines]), and the lines are read back as that tree
    ([Parse]: [parseEntries_iff]), so that the lines have the meaning
    of the tree ([TextSemantics]); the evaluation of the tree is a
    transformation of values defined by recursion on the shape
    ([Semantics]: [evalEntries_entriesOf], [evalOutputBody_refines] and
    [evalInputBody_refines]); the properties of what the transformers
    compute are proved of that transformation.  The codec of
    [JSON.parse] and [JSON.stringify] is a parameter: the round trip
    asks of it that a truthy leaf is sent as a nonempty text that parses
    back to the leaf, and null-safety that the truthy leaves received
    parse.

    ** What is not modelled

    The type resolver, the key makers, the fetcher renderer and the base
    visitor class are not under [src/]: [Visitor] treats them as
    parameters, and the actions of theirs that change the state of the
    visitor (an operation is collected, an import or an identifier is
    added to a set) are steps of [step].  The reader of
    [Parse] reads the lines [transformJsonFields] returns, whose names
    are letters, digits and underscores; the text around them (the
    comment, the declaration, the spread and the cast) and the
    comma-joined lines of the input transformer are related to their
    trees by rendering only, as a parser of TypeScript is not
    modelled.  There is
    no type checker of TypeScript ([Typing] types the data, not the
    text) and no codec that implements JSON (the examples use a codec
    for [null], the booleans and the natural numbers, which [Codec]
    proves to meet the laws the theorems need).  The values of a
    heap of [Graph] are strings and objects: the other values a shape
    never holds.  The generators are synchronous functions, so what
    they owe is an answer, which is termination; the liveness
    properties are the ones of the visitor, whose calls the plugin
    makes one after the other.  The order of these calls is the
    plugin's, which is not under [src/]: [Traces] assumes of it only
    that it does not stop before a call of [getImports]. *)

From Stdlib Require Import String Ascii List ZArith Lia Bool Permutation.
Import ListNotations.
Local Open Scope string_scope.

(** ** Completions: a value or a thrown exception *)

Inductive JsError : Type :=
| TypeError (msg : string)
| ReferenceError (msg : string)
| SyntaxError (msg : string)
| RangeError (msg : string).

Inductive completion (A : Type) : Type :=
| Normal (a : A)
| Throw (e : JsError).

Arguments Normal {A} a.
Arguments Throw {A} e.

Definition bind {A B : Type} (c : completion A) (k : A -> completion B) : completion B :=
  match c with
  | Normal a => k a
  | Throw e => Throw e
  end.

Definition is_normal {A : Type} (c : completion A) : bool :=
  match c with
  | Normal _ => true
  | Throw _ => false
  end.

Declare Scope js_scope.
Delimit Scope js_scope with js.

Notation "x <- c ;; k" := (bind c (fun x => k))
  (at level 60, c at next level, right associativity) : js_scope.

(** Mapping a function that may throw over a list, left to right. *)
Fixpoint mapM {A B : Type} (f : A -> completion B) (l : list A) : completion (list B) :=
  match l with
  | [] => Normal []
  | x :: l' =>
      bind (f x) (fun y => bind (mapM f l') (fun ys => Normal (y :: ys)))
  end.

(** [Array.prototype.some] with a function that may throw: the elements
    after the first [true] are not visited. *)
Fixpoint someM {A : Type} (f : A -> completion bool) (l : list A) : completion bool :=
  match l with
  | [] => Normal false
  | x :: l' => bind (f x) (fun b => if b then Normal true else someM f l')
  end.

(** [Array.prototype.filter] with a function that may throw: every
    element is visited. *)
Fixpoint filterM {A : Type} (f : A -> completion bool) (l : list A) : completion (list A) :=
  match l with
  | [] => Normal []
  | x :: l' =>
      bind (f x) (fun b => bind (filterM f l') (fun r => Normal (if b then x :: r else r)))
  end.

(** Folding a function that may throw over a list, left to right. *)
Fixpoint foldM {A B : Type} (f : B -> A -> completion B) (l : list A) (b : B) : completion B :=
  match l with
  | [] => Normal b
  | x :: l' => bind (f b x) (foldM f l')
  end.

(** The newline character of a template literal. *)
Definition nl : string := String "010"%char "".

(** ** Hint databases and tactics *)

Create HintDb jsgen discriminated.
Create Rewrite HintDb str.

Ltac inv H := inversion H; subst; clear H.

Ltac destr_bool :=
  repeat match goal with
  | H : _ && _ = true |- _ => apply andb_true_iff in H; destruct H
  | H : _ || _ = false |- _ => apply orb_false_iff in H; destruct H
  | H : negb _ = true |- _ => apply negb_true_iff in H
  | H : negb _ = false |- _ => apply negb_false_iff in H
  end.

(** ** Strings *)

Lemma append_nil_r (s : string) : s ++ "" = s.
Proof. induction s as [|c s IH]; simpl; congruence. Qed.

Lemma append_assoc (a b c : string) : (a ++ b) ++ c = a ++ b ++ c.
Proof. induction a as [|x a IH]; simpl; congruence. Qed.

Lemma length_append (a b : string) :
  String.length (a ++ b) = String.length a + String.length b.
Proof. induction a as [|x a IH]; simpl; congruence. Qed.

Lemma append_inv_head (a b c : string) : a ++ b = a ++ c -> b = c.
Proof. induction a as [|x a IH]; simpl; intros H; [assumption | inv H; auto]. Qed.

Lemma substring_0_0 (s : string) : substring 0 0 s = "".
Proof. destruct s; reflexivity. Qed.

Lemma substring_0_append (a b : string) :
  substring 0 (String.length a) (a ++ b) = a.
Proof.
  induction a as [|x a IH]; simpl; [apply substring_0_0 | congruence].
Qed.

Lemma substring_0_all (s : string) (n : nat) :
  String.length s <= n -> substring 0 n s = s.
Proof.
  revert n; induction s as [|c s IH]; intros [|n] H; simpl in *;
    try reflexivity; try lia.
  f_equal; apply IH; lia.
Qed.

Lemma length_substring_0 (s : string) (n : nat) :
  String.length (substring 0 n s) = Nat.min n (String.length s).
Proof.
  revert n; induction s as [|c s IH]; intros [|n]; simpl; try reflexivity.
  now rewrite IH.
Qed.

#[export] Hint Rewrite append_nil_r append_assoc length_append
  substring_0_0 substring_0_append : str.

(** ** Lists *)

(** Counting the true entries of a mapped list and comparing with zero
    is an existential test: the idiom [xs.map(f).filter(Boolean).length > 0]. *)
Lemma count_true_existsb {A : Type} (f : A -> bool) (l : list A) :
  (0 <? List.length (filter (fun b : bool => b) (map f l)))%nat = existsb f l.
Proof.
  induction l as [|x l IH]; simpl; [reflexivity |].
  destruct (f x); simpl; [reflexivity | exact IH].
Qed.

Lemma existsb_false_iff {A : Type} (f : A -> bool) (l : list A) :
  existsb f l = false <-> Forall (fun x => f x = false) l.
Proof.
  induction l as [|x l IH]; simpl.
  - split; [constructor | reflexivity].
  - rewrite orb_false_iff, IH. split.
    + intros [H1 H2]; constructor; assumption.
    + intros H; inv H; auto.
Qed.

Lemma flat_map_nil_iff {A B : Type} (f : A -> list B) (l : list A) :
  flat_map f l = [] <-> Forall (fun x => f x = []) l.
Proof.
  induction l as [|x l IH]; simpl.
  - split; [constructor | reflexivity].
  - split.
    + intros H; apply app_eq_nil in H as [H1 H2]. constructor; [|apply IH]; assumption.
    + intros H; inv H. rewrite (proj2 IH) by assumption.
      rewrite app_nil_r; assumption.
Qed.

Lemma firstn_S_nth_error {A : Type} (l : list A) (n : nat) (x : A) :
  nth_error l n = Some x -> firstn (S n) l = (firstn n l ++ [x])%list.
Proof.
  revert n. induction l as [|y l IH]; intros [|n] H; try discriminate H.
  - now injection H as ->.
  - cbn [firstn app]. f_equal. now apply IH.
Qed.

Lemma list_sum_le {A : Type} (f g : A -> nat) (l : list A) :
  Forall (fun x => f x <= g x) l -> list_sum (map f l) <= list_sum (map g l).
Proof. induction 1 as [|x l Hx _ IH]; simpl; lia. Qed.

Lemma length_flat_map {A B : Type} (f : A -> list B) (l : list A) :
  List.length (flat_map f l) = list_sum (map (fun x => List.length (f x)) l).
Proof.
  induction l as [|x l IH]; simpl; [reflexivity |].
  rewrite length_app, IH; reflexivity.
Qed.

Lemma existsb_ext_Forall {A : Type} (f g : A -> bool) (l : list A) :
  Forall (fun x => f x = g x) l -> existsb f l = existsb g l.
Proof. induction 1 as [|x l Hx _ IH]; simpl; congruence. Qed.

Lemma flat_map_ext_Forall {A B : Type} (f g : A -> list B) (l : list A) :
  Forall (fun x => f x = g x) l -> flat_map f l = flat_map g l.
Proof. induction 1 as [|x l Hx _ IH]; simpl; congruence. Qed.

Lemma map_flat_map {A B C : Type} (f : B -> C) (g : A -> list B) (l : list A) :
  map f (flat_map g l) = flat_map (fun x => map f (g x)) l.
Proof. induction l as [|x l IH]; cbn; [reflexivity | now rewrite map_app, IH]. Qed.

Lemma forallb_flat_map {A B : Type} (f : B -> bool) (g : A -> list B) (l : list A) :
  forallb f (flat_map g l) = forallb (fun x => forallb f (g x)) l.
Proof. induction l as [|x l IH]; cbn; [reflexivity | now rewrite forallb_app, IH]. Qed.

Lemma forallb_impl_Forall {A : Type} (f g : A -> bool) (l : list A) :
  Forall (fun x => f x = true -> g x = true) l -> forallb f l = true -> forallb g l = true.
Proof.
  induction 1 as [|x l Hx _ IH]; cbn; [reflexivity |].
  intros H. apply andb_prop in H as [H1 H2]. now rewrite Hx, IH.
Qed.

Lemma flat_map_flat_map {A B C : Type} (f : A -> list B) (g : B -> list C) (l : list A) :
  flat_map g (flat_map f l) = flat_map (fun x => flat_map g (f x)) l.
Proof.
  induction l as [|x l IH]; simpl; [reflexivity |].
  now rewrite flat_map_app, IH.
Qed.

(** Two concatenations with first parts of the same length are equal part
    by part. *)
Lemma app_eq_length_inv {A : Type} (a a' b b' : list A) :
  List.length a = List.length a' -> (a ++ b = a' ++ b')%list -> a = a' /\ b = b'.
Proof.
  revert a'; induction a as [|x a IH]; intros [|x' a'] Hl H; simpl in *;
    try discriminate; [auto |].
  inv H. destruct (IH a') as [-> ->]; auto.
Qed.

(** When two functions return lists of the same length on every element,
    their [flat_map]s are equal only if they agree on every element. *)
Lemma flat_map_eq_inv {A B : Type} (f g : A -> list B) (l : list A) :
  Forall (fun x => List.length (f x) = List.length (g x)) l ->
  flat_map f l = flat_map g l -> Forall (fun x => f x = g x) l.
Proof.
  induction 1 as [|x l Hx _ IH]; simpl; intros H; [constructor |].
  apply app_eq_length_inv in H as [H1 H2]; auto.
Qed.

(** A search does not depend on the order of the list. *)
Lemma existsb_Permutation {A : Type} (f : A -> bool) (l l' : list A) :
  Permutation l l' -> existsb f l = existsb f l'.
Proof.
  intros H. apply eq_true_iff_eq. rewrite !existsb_exists.
  split; intros (x & Hin & Hx); exists x; split; trivial;
    [apply (Permutation_in _ H Hin) | apply (Permutation_in _ (Permutation_sym H) Hin)].
Qed.

(** A sublist selected by a test keeps images distinct. *)
Lemma NoDup_map_filter {A B : Type} (g : A -> B) (f : A -> bool) (l : list A) :
  NoDup (map g l) -> NoDup (map g (filter f l)).
Proof.
  induction l as [|a l IH]; simpl; [trivial |]. intros H.
  inversion H as [|? ? Hn Hl]; subst. destruct (f a); simpl; [| auto].
  constructor; [| auto]. intros Hin. apply Hn.
  apply in_map_iff in Hin as (x & Hx & Hin). apply in_map_iff.
  exists x. split; [exact Hx |]. now apply filter_In in Hin.
Qed.

(** ** Completions *)

Lemma bind_normal {A B : Type} (a : A) (k : A -> completion B) :
  bind (Normal a) k = k a.
Proof. reflexivity. Qed.

Lemma bind_throw {A B : Type} (e : JsError) (k : A -> completion B) :
  bind (Throw e) k = Throw e.
Proof. reflexivity. Qed.

(** [mapM] returns normally when the function does on every element. *)
Lemma mapM_normal {A B : Type} (f : A -> completion B) (l : list A) :
  Forall (fun x => exists y, f x = Normal y) l -> exists ys, mapM f l = Normal ys.
Proof.
  induction 1 as [|x l [y Hy] _ [ys IH]]; simpl; [eauto |].
  rewrite Hy, IH; simpl; eauto.
Qed.

Lemma mapM_Forall {A B : Type} (f : A -> completion B) (Q : B -> Prop) (l : list A) :
  Forall (fun x => exists y, f x = Normal y /\ Q y) l ->
  exists ys, mapM f l = Normal ys /\ Forall Q ys.
Proof.
  induction 1 as [|x l (y & Hy & HQ) _ (ys & IH & HQs)]; simpl; [eauto |].
  rewrite Hy, IH; simpl; eauto.
Qed.

Lemma foldM_map {A A' B : Type} (g : A -> A') (f : B -> A' -> completion B)
  (l : list A) (b : B) :
  foldM f (map g l) b = foldM (fun b x => f b (g x)) l b.
Proof.
  revert b; induction l as [|x l IH]; intros b; simpl; [reflexivity |].
  destruct (f b (g x)); simpl; [apply IH | reflexivity].
Qed.

Lemma foldM_ext_Forall {A B : Type} (f g : B -> A -> completion B) (l : list A) :
  Forall (fun x => forall b, f b x = g b x) l -> forall b, foldM f l b = foldM g l b.
Proof.
  induction 1 as [|x l Hx _ IH]; intros b; simpl; [reflexivity |].
  rewrite Hx. destruct (g b x); simpl; [apply IH | reflexivity].
Qed.

(** [mapM] returns normally exactly when the function does on every
    element, with the list of the results. *)
Lemma mapM_Forall2 {A B : Type} (f : A -> completion B) (l : list A) (ys : list B) :
  mapM f l = Normal ys <-> Forall2 (fun x y => f x = Normal y) l ys.
Proof.
  revert ys; induction l as [|x l IH]; intros ys; simpl.
  - split; [intros E; injection E as <-; constructor | intros H; now inversion H].
  - destruct (f x) as [y|e] eqn:Hx; simpl.
    + destruct (mapM f l) as [ys'|e] eqn:Hl; simpl.
      * split; [intros E; injection E as <-; constructor; [exact Hx | now apply IH] |].
        intros H; inversion H as [|? y' ? ys'' Hy Hys]; subst.
        apply IH in Hys. congruence.
      * split; [discriminate |]. intros H; inversion H as [|? y' ? ys'' Hy Hys]; subst.
        apply IH in Hys. discriminate Hys.
    + split; [discriminate |]. intros H; inversion H; congruence.
Qed.

(** When every exception the function throws is [e], so is every
    exception of [mapM], and it throws as soon as one element does. *)
Lemma mapM_throws {A B : Type} (f : A -> completion B) (l : list A) (e : JsError) :
  Forall (fun x => forall e', f x = Throw e' -> e' = e) l ->
  Exists (fun x => f x = Throw e) l ->
  mapM f l = Throw e.
Proof.
  induction 1 as [|x l Hx _ IH]; intros Hex; [inversion Hex |]. simpl.
  destruct (f x) as [y|e'] eqn:Ex; simpl; [| now rewrite (Hx e' eq_refl)].
  inversion Hex as [? ? H|? ? H]; subst; [congruence |]. now rewrite (IH H).
Qed.

Lemma mapM_error {A B : Type} (f : A -> completion B) (l : list A) (e e' : JsError) :
  Forall (fun x => forall e', f x = Throw e' -> e' = e) l ->
  mapM f l = Throw e' -> e' = e.
Proof.
  induction 1 as [|x l Hx _ IH]; simpl; [discriminate |].
  destruct (f x) as [y|e''] eqn:Ex; simpl; [| intros E; injection E as <-; now apply Hx].
  destruct (mapM f l) as [ys|e'']; simpl; [discriminate |].
  intros E; injection E as <-. now apply IH.
Qed.

(** A pure function of the key and of the result, after a function that
    may throw, under [mapM]: the results are paired with their keys
    first. *)
(** ** some and filter *)

Lemma someM_Forall2 {A B : Type} (f : A -> completion bool) (g : B -> bool)
  (l : list A) (l' : list B) :
  Forall2 (fun x y => f x = Normal (g y)) l l' -> someM f l = Normal (existsb g l').
Proof.
  induction 1 as [|x y l l' Hx _ IH]; simpl; [reflexivity |].
  rewrite Hx; simpl. now destruct (g y).
Qed.

(** What [filter] keeps of a list is related to what the pure filter
    keeps of a related list. *)
Lemma filterM_Forall2 {A B : Type} (f : A -> completion bool) (g : B -> bool)
  (R : A -> B -> Prop) (l : list A) (l' : list B) :
  Forall2 (fun x y => f x = Normal (g y) /\ R x y) l l' ->
  exists kept, filterM f l = Normal kept /\ Forall2 R kept (filter g l').
Proof.
  induction 1 as [|x y l l' [Hx HR] _ (kept & IH & Hkept)]; simpl; [eauto |].
  rewrite Hx, IH; simpl. destruct (g y); eauto.
Qed.

Lemma mapM_Forall2_map {A B C : Type} (f : A -> completion B) (g : C -> B)
  (l : list A) (l' : list C) :
  Forall2 (fun x y => f x = Normal (g y)) l l' -> mapM f l = Normal (map g l').
Proof.
  induction 1 as [|x y l l' Hx _ IH]; simpl; [reflexivity |]. now rewrite Hx, IH.
Qed.

(** When [e] is the only exception of [f] and some element throws it,
    [some] answers [true] or throws [e], and [filter] throws [e]. *)
Lemma someM_throws {A : Type} (f : A -> completion bool) (l : list A) (e : JsError) :
  Forall (fun x => forall e', f x = Throw e' -> e' = e) l ->
  Exists (fun x => f x = Throw e) l ->
  someM f l = Normal true \/ someM f l = Throw e.
Proof.
  induction 1 as [|x l Hx _ IH]; intros Hex; [inversion Hex |]. simpl.
  destruct (f x) as [[|]|e'] eqn:Ex; simpl; auto.
  - apply IH. inversion Hex as [? ? H|]; subst; [congruence | assumption].
  - right. now rewrite (Hx e' eq_refl).
Qed.

Lemma filterM_throws {A : Type} (f : A -> completion bool) (l : list A) (e : JsError) :
  Forall (fun x => forall e', f x = Throw e' -> e' = e) l ->
  Exists (fun x => f x = Throw e) l ->
  filterM f l = Throw e.
Proof.
  induction 1 as [|x l Hx _ IH]; intros Hex; [inversion Hex |]. simpl.
  destruct (f x) as [b|e'] eqn:Ex; simpl; [| now rewrite (Hx e' eq_refl)].
  rewrite IH; [reflexivity |]. inversion Hex; subst; [congruence | assumption].
Qed.

Lemma mapM_fmap {K V B C : Type} (g : K * V -> completion B) (f : K -> B -> C)
  (l : list (K * V)) :
  mapM (fun kv => bind (g kv) (fun y => Normal (f (fst kv) y))) l =
  bind (mapM (fun kv => bind (g kv) (fun y => Normal (fst kv, y))) l)
       (fun kys => Normal (map (fun ky => f (fst ky) (snd ky)) kys)).
Proof.
  induction l as [|x l IH]; simpl; [reflexivity |].
  destruct (g x) as [y|e]; simpl; [| reflexivity]. rewrite IH.
  destruct (mapM (fun kv => bind (g kv) (fun y => Normal (fst kv, y))) l); reflexivity.
Qed.

Lemma mapM_ext_Forall {A B : Type} (f g : A -> completion B) (l : list A) :
  Forall (fun x => f x = g x) l -> mapM f l = mapM g l.
Proof. induction 1 as [|x l Hx _ IH]; simpl; [reflexivity |]. now rewrite Hx, IH. Qed.

(** When [g] undoes [f] on every element, [mapM g] undoes [mapM f]. *)
Lemma mapM_roundtrip {A B : Type} (f : A -> completion B) (g : B -> completion A)
  (l : list A) :
  Forall (fun x => exists y, f x = Normal y /\ g y = Normal x) l ->
  exists ys, mapM f l = Normal ys /\ mapM g ys = Normal l.
Proof.
  induction 1 as [|x l (y & Hf & Hg) _ (ys & Hfs & Hgs)]; simpl; [eauto |].
  exists (y :: ys). rewrite Hf, Hfs; simpl. now rewrite Hg, Hgs.
Qed.

#[export] Hint Rewrite @bind_normal @bind_throw : str.
#[export] Hint Resolve append_nil_r append_assoc length_append : jsgen.
