(* ===== verification/JsString.v ===== *)
(** * JsString: the JavaScript string and array primitives the generators call

    [includes], [substring] and [length] are the methods of
    [String.prototype] with the semantics of ECMAScript on strings and
    integer arguments; [join] is [Array.prototype.join] on an array of
    strings and [toString] the conversion an array undergoes inside a
    template literal.  The lemmas are the facts the generators rely on:
    where a marker occurs in a name, and what cutting the last characters
    of a name returns. *)

From Stdlib Require Import String Ascii List ZArith Lia Bool.
From S2P Require Import Prelude.
Import ListNotations.
Local Open Scope string_scope.

Module JsString.

(** [s.length] *)
Definition length (s : string) : Z := Z.of_nat (String.length s).

(** [s.startsWith(sub)] *)
Fixpoint startsWith (s sub : string) : bool :=
  match sub, s with
  | EmptyString, _ => true
  | String a sub', String b s' => Ascii.eqb a b && startsWith s' sub'
  | String _ _, EmptyString => false
  end.

(** [s.includes(sub)]: [sub] occurs in [s] at some position. *)
Fixpoint includes (s sub : string) : bool :=
  startsWith s sub ||
  match s with
  | EmptyString => false
  | String _ s' => includes s' sub
  end.

(** The clamping of an index of [substring] to [0 .. len]. *)
Definition clamp (len i : Z) : Z := Z.min (Z.max i 0) len.

(** [s.substring(i, j)]: both bounds clamped, then ordered. *)
Definition substring (s : string) (i j : Z) : string :=
  let a := clamp (length s) i in
  let b := clamp (length s) j in
  String.substring (Z.to_nat (Z.min a b)) (Z.to_nat (Z.max a b - Z.min a b)) s.

(** [l.join(sep)] *)
Definition join (l : list string) (sep : string) : string := String.concat sep l.

(** An array of strings inside a template literal: [l.toString()],
    which is [l.join(",")]. *)
Definition toString (l : list string) : string := join l ",".

(** The characters of a string, for membership arguments. *)
Definition chars (s : string) : list ascii := list_ascii_of_string s.

(** ** Characters *)

Lemma chars_append (a b : string) : chars (a ++ b) = (chars a ++ chars b)%list.
Proof. induction a as [|x a IH]; simpl; [reflexivity | unfold chars in *; simpl; congruence]. Qed.

(** ** startsWith and includes *)

Lemma startsWith_append (a b : string) : startsWith (a ++ b) a = true.
Proof.
  induction a as [|x a IH]; simpl; [destruct b; reflexivity |].
  rewrite Ascii.eqb_refl; exact IH.
Qed.

Lemma startsWith_append_l (s sub t : string) :
  startsWith s sub = true -> startsWith (s ++ t) sub = true.
Proof.
  revert sub; induction s as [|c s IH]; intros [|d sub]; simpl; try easy.
  - destruct t; reflexivity.
  - intros H; destr_bool. rewrite H; simpl; auto.
Qed.

Lemma startsWith_head (s : string) (c : ascii) (sub : string) :
  startsWith s (String c sub) = true -> exists s', s = String c s'.
Proof.
  destruct s as [|d s]; simpl; [discriminate |].
  intros H; destr_bool. apply Ascii.eqb_eq in H; subst; eauto.
Qed.

Lemma includes_nil_r (s : string) : includes s "" = true.
Proof. destruct s; reflexivity. Qed.

Lemma includes_append_l (s t sub : string) :
  includes s sub = true -> includes (s ++ t) sub = true.
Proof.
  induction s as [|c s IH]; simpl.
  - rewrite orb_false_r. destruct sub; [intros _; apply includes_nil_r | discriminate].
  - intros H; apply orb_true_iff in H as [H|H]; apply orb_true_iff.
    + left. destruct sub as [|d sub]; [reflexivity |]. simpl in *; destr_bool.
      rewrite H; simpl; apply startsWith_append_l; assumption.
    + right; auto.
Qed.

Lemma includes_append_r (s t sub : string) :
  includes t sub = true -> includes (s ++ t) sub = true.
Proof.
  induction s as [|c s IH]; simpl; [trivial |].
  intros H; rewrite (IH H); apply orb_true_r.
Qed.

Lemma includes_suffix (s sub : string) : includes (s ++ sub) sub = true.
Proof.
  apply includes_append_r. destruct sub; simpl; [reflexivity |].
  rewrite Ascii.eqb_refl; simpl.
  now rewrite <- (append_nil_r sub) at 1; rewrite startsWith_append.
Qed.

Lemma startsWith_refl (s : string) : startsWith s s = true.
Proof. rewrite <- (append_nil_r s) at 1. apply startsWith_append. Qed.

Lemma includes_refl (s : string) : includes s s = true.
Proof. destruct s; simpl; [reflexivity |]. now rewrite Ascii.eqb_refl, startsWith_refl. Qed.

Lemma startsWith_includes (s sub : string) :
  startsWith s sub = true -> includes s sub = true.
Proof. destruct s; simpl; intros ->; reflexivity. Qed.

(** What stands between two strings occurs in the whole. *)
Lemma includes_middle (a b c : string) : includes (a ++ b ++ c) b = true.
Proof. apply includes_append_r, includes_append_l, includes_refl. Qed.

(** [startsWith] and [includes] as decompositions of the string. *)
Lemma startsWith_iff (s sub : string) :
  startsWith s sub = true <-> exists c, s = sub ++ c.
Proof.
  split; [| intros [c ->]; apply startsWith_append].
  revert s; induction sub as [|x sub IH]; intros s H; [exists s; reflexivity |].
  destruct s as [|y s]; simpl in H; [discriminate |]. destr_bool.
  apply Ascii.eqb_eq in H; subst. destruct (IH s H0) as [c ->]. exists c; reflexivity.
Qed.

Lemma includes_iff (s sub : string) :
  includes s sub = true <-> exists a c, s = a ++ sub ++ c.
Proof.
  split; [| intros (a & c & ->); apply includes_middle].
  induction s as [|x s IH]; cbn [includes]; intros H;
    apply orb_true_iff in H as [H|H]; try discriminate H.
  - apply startsWith_iff in H as [c E]. exists "", c; exact E.
  - apply startsWith_iff in H as [c E]. exists "", c; exact E.
  - destruct (IH H) as (a & c & ->). exists (String x a), c; reflexivity.
Qed.

Lemma includes_trans (s t u : string) :
  includes s t = true -> includes t u = true -> includes s u = true.
Proof.
  rewrite !includes_iff. intros (a & c & ->) (a' & c' & ->).
  exists (a ++ a'), (c' ++ c). now rewrite !append_assoc.
Qed.

(** A string that includes a nonempty string contains its first character. *)
Lemma includes_head_In (s : string) (c : ascii) (sub : string) :
  includes s (String c sub) = true -> In c (chars s).
Proof.
  induction s as [|d s IH]; [discriminate |].
  cbn [includes]. intros H; apply orb_true_iff in H as [H|H].
  - apply startsWith_head in H as [s' E]; inv E; left; reflexivity.
  - right; auto.
Qed.

Lemma not_In_includes (s : string) (c : ascii) (sub : string) :
  ~ In c (chars s) -> includes s (String c sub) = false.
Proof.
  intros H; destruct (includes s (String c sub)) eqn:E; [|reflexivity].
  elim H; eapply includes_head_In; eassumption.
Qed.

(** ** length and substring *)

Lemma length_nonneg (s : string) : (0 <= length s)%Z.
Proof. unfold length; lia. Qed.

Lemma length_app (a b : string) : length (a ++ b) = (length a + length b)%Z.
Proof. unfold length; rewrite length_append; lia. Qed.

Lemma substring_prefix (s : string) (j : Z) :
  substring s 0 j = String.substring 0 (Z.to_nat (clamp (length s) j)) s.
Proof.
  unfold substring, clamp. pose proof (length_nonneg s).
  replace (Z.min (Z.max 0 0) (length s)) with 0%Z by lia.
  f_equal; lia.
Qed.

(** Cutting the last [length b] characters returns what precedes them. *)
Lemma substring_drop_suffix (a b : string) :
  substring (a ++ b) 0 (length (a ++ b) - length b) = a.
Proof.
  rewrite substring_prefix, length_app. unfold clamp, length.
  replace (Z.to_nat _) with (String.length a) by lia.
  apply substring_0_append.
Qed.

(** The length of a prefix is its end, clamped. *)
Lemma substring_length (s : string) (j : Z) :
  length (substring s 0 j) = clamp (length s) j.
Proof.
  rewrite substring_prefix. unfold length at 1. rewrite length_substring_0.
  unfold clamp, length. lia.
Qed.

(** A string is as long as what it includes. *)
Lemma includes_length (s sub : string) :
  includes s sub = true -> (length sub <= length s)%Z.
Proof.
  rewrite includes_iff. intros (a & c & ->). rewrite !length_app.
  pose proof (length_nonneg a). pose proof (length_nonneg c). lia.
Qed.

Lemma In_chars_length (s : string) (c : ascii) : In c (chars s) -> (1 <= length s)%Z.
Proof. destruct s; [intros [] | unfold length; simpl; lia]. Qed.

(** ** join *)

Lemma join_singleton (x sep : string) : join [x] sep = x.
Proof. reflexivity. Qed.

Lemma join_cons (x y : string) (l : list string) (sep : string) :
  join (x :: y :: l) sep = x ++ sep ++ join (y :: l) sep.
Proof. reflexivity. Qed.

(** Every element of a list occurs in its join. *)
Lemma In_join_includes (x : string) (l : list string) (sep : string) :
  In x l -> includes (join l sep) x = true.
Proof.
  induction l as [|y l IH]; [intros [] |].
  intros [->|Hin]; destruct l as [|z l].
  - apply includes_refl.
  - rewrite join_cons. apply includes_append_l, includes_refl.
  - destruct Hin.
  - rewrite join_cons. apply includes_append_r, includes_append_r, IH, Hin.
Qed.

(** A join of two or more elements starts with the first element, the
    separator and the second element. *)
Lemma join_two_startsWith (x y : string) (l : list string) (sep : string) :
  startsWith (join (x :: y :: l) sep) (x ++ sep ++ y) = true.
Proof.
  rewrite join_cons. destruct l as [|z l].
  - rewrite join_singleton. apply startsWith_refl.
  - rewrite join_cons.
    replace (x ++ sep ++ y ++ sep ++ join (z :: l) sep)
      with ((x ++ sep ++ y) ++ sep ++ join (z :: l) sep)
      by (now rewrite !append_assoc).
    apply startsWith_append.
Qed.

End JsString.

(** Proves [includes (a ++ b ++ ...) sub = true] by searching the part in
    which [tac] finds [sub]. *)
Ltac includes_search tac :=
  first [ solve [tac]
        | apply JsString.includes_append_l; includes_search tac
        | apply JsString.includes_append_r; includes_search tac ].

#[export] Hint Rewrite JsString.length_app JsString.substring_drop_suffix
  JsString.join_singleton : str.
#[export] Hint Resolve JsString.includes_append_l JsString.includes_append_r
  JsString.includes_suffix JsString.includes_middle
  JsString.includes_refl JsString.startsWith_includes JsString.In_join_includes JsString.length_nonneg : jsgen.
