(* ===== verification/Lexer.v ===== *)
(** * Lexer: the tokens of an emitted line

    The lines [transformJsonFields] pushes are made of names and of
    punctuation.  [lex] cuts a line into its tokens: a maximal run of
    letters, digits and underscores is a name, every other character,
    the space included, is a symbol of its own, so that a line is
    determined by its tokens.  The lemmas say how the tokens of a
    concatenation are the tokens of its parts, which holds wherever two
    names do not meet. *)

From Stdlib Require Import String Ascii List Arith Lia Bool.
From S2P Require Import Prelude JsString.
Import ListNotations.
Local Open Scope string_scope.

(** ** Characters and names *)

(** The characters of a GraphQL name: letters, digits and the underscore. *)
Definition identChar (c : ascii) : bool :=
  let n := nat_of_ascii c in
  (((48 <=? n) && (n <=? 57)) || ((65 <=? n) && (n <=? 90))
   || ((97 <=? n) && (n <=? 122)) || (n =? 95))%nat.

(** A name: one character at least, every one a character of names. *)
Definition identifier (s : string) : bool :=
  negb (String.eqb s "") && forallb identChar (JsString.chars s).

(** ** Tokens *)

Inductive Token : Type :=
| TIdent (name : string)
| TSym (c : ascii).

Definition tokenEqb (a b : Token) : bool :=
  match a, b with
  | TIdent x, TIdent y => String.eqb x y
  | TSym c, TSym d => Ascii.eqb c d
  | _, _ => false
  end.

Fixpoint tokensEqb (a b : list Token) : bool :=
  match a, b with
  | [], [] => true
  | x :: a', y :: b' => tokenEqb x y && tokensEqb a' b'
  | _, _ => false
  end.

(** The tokens that follow a given beginning, when the list begins so. *)
Fixpoint stripTokens (pre ts : list Token) : option (list Token) :=
  match pre, ts with
  | [], _ => Some ts
  | a :: pre', b :: ts' => if tokenEqb a b then stripTokens pre' ts' else None
  | _ :: _, [] => None
  end.

(** The token of the name read so far, if any. *)
Definition flush (cur : string) : list Token :=
  if String.eqb cur "" then [] else [TIdent cur].

(** The tokens of [s], after the characters [cur] of a name. *)
Fixpoint lexFrom (cur : string) (s : string) : list Token :=
  match s with
  | EmptyString => flush cur
  | String c s' =>
      if identChar c then lexFrom (cur ++ String c "") s'
      else (flush cur ++ TSym c :: lexFrom "" s')%list
  end.

Definition lex (s : string) : list Token := lexFrom "" s.

(** The text begins with a symbol. *)
Definition startsSym (s : string) : bool :=
  match s with
  | EmptyString => false
  | String c _ => negb (identChar c)
  end.

(** The text ends with a symbol. *)
Fixpoint endsSym (s : string) : bool :=
  match s with
  | EmptyString => false
  | String c EmptyString => negb (identChar c)
  | String _ s' => endsSym s'
  end.

(** ** Equality of tokens *)

Lemma tokenEqb_spec (a b : Token) : reflect (a = b) (tokenEqb a b).
Proof.
  destruct a as [x|c], b as [y|d]; cbn; try (constructor; discriminate).
  - destruct (String.eqb_spec x y); constructor; congruence.
  - destruct (Ascii.eqb_spec c d); constructor; congruence.
Qed.

Lemma tokenEqb_refl (a : Token) : tokenEqb a a = true.
Proof. now destruct (tokenEqb_spec a a). Qed.

Lemma tokensEqb_spec (a b : list Token) : reflect (a = b) (tokensEqb a b).
Proof.
  revert b. induction a as [|x a IH]; intros [|y b]; cbn; try (constructor; discriminate).
  - now constructor.
  - destruct (tokenEqb_spec x y) as [->|Hxy]; cbn; [| constructor; congruence].
    destruct (IH b); constructor; congruence.
Qed.

Lemma tokensEqb_refl (a : list Token) : tokensEqb a a = true.
Proof. now destruct (tokensEqb_spec a a). Qed.

Lemma stripTokens_app (pre ts : list Token) : stripTokens pre (pre ++ ts) = Some ts.
Proof.
  induction pre as [|a pre IH]; [now destruct ts |]. cbn. now rewrite tokenEqb_refl.
Qed.

Lemma stripTokens_Some (pre ts rest : list Token) :
  stripTokens pre ts = Some rest -> ts = (pre ++ rest)%list.
Proof.
  revert ts. induction pre as [|a pre IH]; intros ts H; [destruct ts; now inv H |].
  destruct ts as [|b ts]; [discriminate H |]. cbn in H.
  destruct (tokenEqb_spec a b) as [->|]; [| discriminate H]. cbn. f_equal. now apply IH.
Qed.

(** ** The tokens of a concatenation *)

Lemma flush_nonempty (cur : string) : cur <> "" -> flush cur = [TIdent cur].
Proof. intros H. unfold flush. now apply String.eqb_neq in H as ->. Qed.

Lemma append_nonempty_r (a : string) (c : ascii) : a ++ String c "" <> "".
Proof. destruct a; discriminate. Qed.

(** The characters of a name go on with the name read so far. *)
Lemma lexFrom_ident (a : string) :
  forallb identChar (JsString.chars a) = true ->
  forall cur s, lexFrom cur (a ++ s) = lexFrom (cur ++ a) s.
Proof.
  induction a as [|c a IH]; intros Ha cur s; [now rewrite append_nil_r |].
  cbn in Ha. apply andb_prop in Ha as [Hc Ha]. cbn [append lexFrom]. rewrite Hc, (IH Ha).
  now rewrite append_assoc.
Qed.

Lemma lexFrom_cons (cur : string) (c : ascii) (s : string) :
  lexFrom cur (String c s) =
  if identChar c then lexFrom (cur ++ String c "") s
  else (flush cur ++ TSym c :: lexFrom "" s)%list.
Proof. reflexivity. Qed.

Lemma lexFrom_sym (cur : string) (c : ascii) (s : string) :
  identChar c = false -> lexFrom cur (String c s) = (flush cur ++ lex (String c s))%list.
Proof. intros H. unfold lex. now rewrite !lexFrom_cons, H. Qed.

(** Before a symbol the tokens are the ones of the text alone. *)
Lemma lexFrom_app_r (x y : string) :
  startsSym y = true -> forall cur, lexFrom cur (x ++ y) = (lexFrom cur x ++ lex y)%list.
Proof.
  intros Hy. destruct y as [|c y]; [discriminate Hy |]. cbn in Hy.
  apply negb_true_iff in Hy.
  induction x as [|d x IH]; intros cur; cbn [append].
  - now rewrite (lexFrom_sym cur c y Hy).
  - rewrite (lexFrom_cons cur d (x ++ String c y)), (lexFrom_cons cur d x).
    destruct (identChar d); [apply IH |]. now rewrite IH, <- app_assoc.
Qed.

(** After a symbol the tokens are the ones of the text alone. *)
Lemma lexFrom_app_l (x y : string) :
  endsSym x = true -> forall cur, lexFrom cur (x ++ y) = (lexFrom cur x ++ lex y)%list.
Proof.
  induction x as [|d x IH]; intros Hx cur; [discriminate Hx |].
  cbn [append]. rewrite (lexFrom_cons cur d (x ++ y)), (lexFrom_cons cur d x).
  destruct x as [|e x].
  - cbn in Hx. apply negb_true_iff in Hx. rewrite Hx. cbn. now rewrite <- app_assoc.
  - specialize (IH Hx). destruct (identChar d); [apply IH |].
    now rewrite IH, <- app_assoc.
Qed.

Lemma lex_app_r (x y : string) :
  startsSym y = true -> lex (x ++ y) = (lex x ++ lex y)%list.
Proof. intros H. now apply lexFrom_app_r. Qed.

Lemma lex_app_l (x y : string) :
  endsSym x = true -> lex (x ++ y) = (lex x ++ lex y)%list.
Proof. intros H. now apply lexFrom_app_l. Qed.

(** A name is one token. *)
Lemma lex_identifier (a : string) : identifier a = true -> lex a = [TIdent a].
Proof.
  unfold identifier, lex. intros H. apply andb_prop in H as [Hne Ha].
  rewrite <- (append_nil_r a) at 1. rewrite (lexFrom_ident a Ha). cbn.
  apply flush_nonempty. intros ->. discriminate Hne.
Qed.

(** A name before a symbol. *)
Lemma lex_identifier_app (a s : string) :
  identifier a = true -> startsSym s = true -> lex (a ++ s) = TIdent a :: lex s.
Proof. intros Ha Hs. now rewrite lex_app_r, lex_identifier. Qed.

(** A symbol is one token. *)
Lemma lex_sym (c : ascii) (s : string) :
  identChar c = false -> lex (String c s) = TSym c :: lex s.
Proof. intros H. unfold lex. now rewrite lexFrom_cons, H. Qed.

(** The tokens of a text, part by part: a name before a symbol, a text
    that ends with a symbol, a text before a symbol. *)
Ltac lex_parts :=
  repeat first
    [ rewrite lex_identifier_app by (assumption || reflexivity)
    | rewrite lex_app_l by reflexivity
    | rewrite lex_app_r by reflexivity ].

(** Two texts with the same tokens are the same text. *)
Fixpoint unlex (ts : list Token) : string :=
  match ts with
  | [] => ""
  | TIdent x :: ts' => x ++ unlex ts'
  | TSym c :: ts' => String c (unlex ts')
  end.

Lemma unlex_lexFrom (s : string) : forall cur, unlex (lexFrom cur s) = cur ++ s.
Proof.
  induction s as [|c s IH]; intros cur; cbn [lexFrom].
  - unfold flush. destruct (String.eqb_spec cur "") as [->|]; cbn; now rewrite ?append_nil_r.
  - destruct (identChar c); [rewrite IH; now rewrite append_assoc |].
    assert (E : forall ts, unlex (flush cur ++ ts) = cur ++ unlex ts).
    { intros ts. unfold flush. now destruct (String.eqb_spec cur "") as [->|]. }
    rewrite E. cbn. now rewrite IH.
Qed.

Lemma unlex_lex (s : string) : unlex (lex s) = s.
Proof. apply unlex_lexFrom. Qed.

Lemma unlex_app (a b : list Token) : unlex (a ++ b) = unlex a ++ unlex b.
Proof.
  induction a as [|[x|c] a IH]; cbn; [reflexivity | |]; rewrite IH;
    [now rewrite append_assoc | reflexivity].
Qed.

Lemma tokensEqb_unlex (ts : list Token) (s : string) :
  tokensEqb ts (lex s) = true -> unlex ts = s.
Proof. intros H. destruct (tokensEqb_spec ts (lex s)); [subst; apply unlex_lex | discriminate]. Qed.

Lemma stripTokens_unlex (s : string) (ts rest : list Token) :
  stripTokens (lex s) ts = Some rest -> unlex ts = s ++ unlex rest.
Proof. intros H. apply stripTokens_Some in H as ->. now rewrite unlex_app, unlex_lex. Qed.

Lemma lex_injective (s s' : string) : lex s = lex s' -> s = s'.
Proof. intros H. rewrite <- (unlex_lex s), <- (unlex_lex s'). now f_equal. Qed.

#[export] Hint Rewrite tokenEqb_refl tokensEqb_refl stripTokens_app : str.
#[export] Hint Resolve lex_identifier lex_identifier_app : jsgen.

(** ** Examples *)

Example lex_entry :
  lex "meta: item?.meta && JSON.parse(" =
  [TIdent "meta"; TSym ":"; TSym " "; TIdent "item"; TSym "?"; TSym "."; TIdent "meta";
   TSym " "; TSym "&"; TSym "&"; TSym " "; TIdent "JSON"; TSym "."; TIdent "parse"; TSym "("].
Proof. reflexivity. Qed.

Example identifier_examples :
  identifier "created_at2" = true /\ identifier "" = false /\ identifier "items[]" = false.
Proof. repeat split. Qed.
