(* ===== verification/Shape.v ===== *)
(** * Shape: the field shape tree the generators read

    The type resolver describes the type of a selected field as a tree: a
    scalar is the name of its type, an object is a record from annotated
    field names to trees.  An annotated name is the field name followed by
    [[]] when the field is a list and by [!] when it is mandatory.  This
    file holds the tree, the two tests the generators make on a node, the
    reading of a node as a list of entries, the well-formedness of trees
    and the specification [JsonLeaf] of the detector. *)

From Stdlib Require Import String Ascii List ZArith Lia Bool DecimalString.
From S2P Require Import Prelude JsString.
Import ListNotations.
Local Open Scope string_scope.

(** ** The tree *)

Unset Elimination Schemes.
Inductive FieldValue : Type :=
| Scalar (typeName : string)
| Object (fields : list (string * FieldValue)).
Set Elimination Schemes.

(** The record of an object node, in the order of [Object.entries]. *)
Definition Fields : Type := list (string * FieldValue).

(** The induction principle: the children of an object satisfy the
    property. *)
Definition FieldValue_ind (P : FieldValue -> Prop)
  (HScalar : forall typeName, P (Scalar typeName))
  (HObject : forall fields, Forall (fun kv => P (snd kv)) fields -> P (Object fields)) :
  forall v, P v :=
  fix go (v : FieldValue) : P v :=
    match v with
    | Scalar typeName => HScalar typeName
    | Object fields =>
        HObject fields
          ((fix all (l : Fields) : Forall (fun kv => P (snd kv)) l :=
              match l with
              | [] => Forall_nil _
              | kv :: l' => Forall_cons kv (go (snd kv)) (all l')
              end) fields)
    end.

(** The name of the scalar type of values sent as JSON text. *)
Definition AWSJSON : string := "AWSJSON".

(** [fieldValue && typeof fieldValue === 'object'] *)
Definition isObject (fieldValue : FieldValue) : bool :=
  match fieldValue with
  | Object _ => true
  | Scalar _ => false
  end.

(** [fieldValue === 'AWSJSON'] *)
Definition isJsonScalar (fieldValue : FieldValue) : bool :=
  match fieldValue with
  | Scalar typeName => String.eqb typeName AWSJSON
  | Object _ => false
  end.

(** The truthiness of a node: an object is truthy, a string is truthy
    unless it is empty. *)
Definition truthy (fieldValue : FieldValue) : bool :=
  match fieldValue with
  | Object _ => true
  | Scalar typeName => negb (String.eqb typeName "")
  end.

(** The decimal text of an array index. *)
Definition indexKey (i : nat) : string := NilEmpty.string_of_uint (Nat.to_uint i).

(** The entries of a string: one per character, keyed by its index. *)
Fixpoint charEntries (i : nat) (s : string) : Fields :=
  match s with
  | EmptyString => []
  | String c s' => (indexKey i, Scalar (String c "")) :: charEntries (S i) s'
  end.

(** [Object.entries(fields)]: the record of an object; the characters of
    a string. *)
Definition entries (fields : FieldValue) : Fields :=
  match fields with
  | Object fs => fs
  | Scalar s => charEntries 0 s
  end.

(** The number of nodes of a tree. *)
Fixpoint size (v : FieldValue) : nat :=
  match v with
  | Scalar _ => 1
  | Object fs => S (list_sum (map (fun kv => size (snd kv)) fs))
  end.

(** The number of objects on the longest branch of a tree. *)
Fixpoint depth (v : FieldValue) : nat :=
  match v with
  | Scalar _ => 0
  | Object fs => S (list_max (map (fun kv => depth (snd kv)) fs))
  end.

(** ** Annotated names *)

(** The annotation of a field name: the list marker, then the mandatory
    marker. *)
Definition annotate (name : string) (isArray isMandatory : bool) : string :=
  name ++ (if isArray then "[]" else "") ++ (if isMandatory then "!" else "").

(** A name without marker characters. *)
Definition markerFree (name : string) : Prop :=
  ~ In "!"%char (JsString.chars name) /\ ~ In "["%char (JsString.chars name).

Definition markerFreeb (name : string) : bool :=
  forallb (fun c => negb (Ascii.eqb c "!") && negb (Ascii.eqb c "[")) (JsString.chars name).

(** The declaration of a field, as the type resolver reads it in the
    schema: its name, whether it is a list, whether it is mandatory, and
    the tree of its type. *)
Record Declaration : Type := mkDeclaration {
  declName : string;
  declIsArray : bool;
  declIsMandatory : bool;
  declType : FieldValue
}.

(** The entry of a declaration in the record of its object. *)
Definition declare (d : Declaration) : string * FieldValue :=
  (annotate (declName d) (declIsArray d) (declIsMandatory d), declType d).

(** A name of a field: nonempty and without marker characters. *)
Definition wfName (name : string) : Prop := markerFree name /\ name <> "".

(** A well-formed tree: the record of every object is the record of a
    list of declarations whose names are names of fields and differ from
    one another, as the fields of a GraphQL type do. *)
#[warnings="-register-all"]
Inductive wf : FieldValue -> Prop :=
| wf_Scalar typeName : wf (Scalar typeName)
| wf_Object ds :
    Forall (fun d => wfName (declName d)) ds ->
    NoDup (map declName ds) ->
    Forall (fun d => wf (declType d)) ds ->
    wf (Object (map declare ds)).

(** ** The specification of the detector *)

(** The tree has a leaf of type [AWSJSON]. *)
Inductive JsonLeaf : FieldValue -> Prop :=
| JsonLeaf_here : JsonLeaf (Scalar AWSJSON)
| JsonLeaf_child key child fields :
    In (key, child) fields -> JsonLeaf child -> JsonLeaf (Object fields).

(** ** Lemmas *)

Lemma isObject_truthy (v : FieldValue) : isObject v = true -> truthy v = true.
Proof. destruct v; simpl; congruence. Qed.

Lemma markerFreeb_spec (name : string) : markerFreeb name = true <-> markerFree name.
Proof.
  unfold markerFreeb, markerFree. rewrite forallb_forall. split.
  - intros H; split; intros Hin; apply H in Hin; destr_bool; discriminate.
  - intros [H1 H2] c Hin. apply andb_true_iff; split; apply negb_true_iff;
      apply Ascii.eqb_neq; intros ->; auto.
Qed.

(** No entry of a string is an object or the JSON scalar: a character is
    not a seven-letter name. *)
Lemma charEntries_scalar (i : nat) (s : string) :
  Forall (fun kv => isObject (snd kv) = false /\ isJsonScalar (snd kv) = false)
         (charEntries i s).
Proof.
  revert i; induction s as [|c s IH]; intros i; simpl; constructor; auto.
  simpl; split; [reflexivity |]. destruct (Ascii.eqb c "A"); reflexivity.
Qed.

Lemma JsonLeaf_Scalar_iff (typeName : string) :
  JsonLeaf (Scalar typeName) <-> typeName = AWSJSON.
Proof. split; [intros H; inv H; reflexivity | intros ->; constructor]. Qed.

Lemma JsonLeaf_Object_iff (fields : Fields) :
  JsonLeaf (Object fields) <-> Exists (fun kv => JsonLeaf (snd kv)) fields.
Proof.
  rewrite Exists_exists; split.
  - intros H; inv H. eexists; split; [eassumption | assumption].
  - intros [[k v] [Hin Hv]]; econstructor; eassumption.
Qed.

Lemma wf_Object_inv (fields : Fields) :
  wf (Object fields) ->
  exists ds,
    fields = map declare ds /\
    Forall (fun d => wfName (declName d)) ds /\
    NoDup (map declName ds) /\
    Forall (fun d => wf (declType d)) ds.
Proof. intros H; inv H. eauto 6. Qed.

#[export] Hint Constructors wf JsonLeaf : jsgen.
#[export] Hint Resolve isObject_truthy : jsgen.
