(* ===== verification/Detector.v ===== *)
(** * Detector: does a field shape tree have a JSON leaf

    [hasJsonFields] of [src/dist/transformer-generator.js], written as the
    source writes it: the entries of the tree are mapped to booleans, the
    true ones are kept and their number is compared with zero.  The
    theorems prove it equal to a search that stops at the first leaf
    found, and equivalent to the specification [JsonLeaf] on objects; on
    [undefined] and on a string it answers [false].  [shapeEquiv] relates
    the trees that differ in the order of fields; the detector and its
    specification are morphisms for it. *)

From Stdlib Require Import String Ascii List ZArith Lia Bool Permutation Morphisms
  RelationClasses.
From S2P Require Import Prelude JsString Shape.
Import ListNotations.
Local Open Scope string_scope.

(** ** The source's definitions *)

(** The function mapped over the entries: an object is searched, a scalar
    is compared with [AWSJSON]. *)
Fixpoint hasJsonFields_entry (fieldValue : FieldValue) : bool :=
  match fieldValue with
  | Object fs =>
      (0 <? List.length
              (filter (fun b : bool => b)
                      (map (fun kv => hasJsonFields_entry (snd kv)) fs)))%nat
  | Scalar typeName => String.eqb typeName AWSJSON
  end.

(** [hasJsonFields(fields)], [fields] being [undefined] or a node. *)
Definition hasJsonFields (fields : option FieldValue) : bool :=
  match fields with
  | None => false
  | Some f =>
      if negb (truthy f) then false
      else (0 <? List.length
                   (filter (fun b : bool => b)
                           (map (fun kv => hasJsonFields_entry (snd kv)) (entries f))))%nat
  end.

(** ** The reference definition: a search that stops at the first leaf *)

Fixpoint hasJsonLeafb (v : FieldValue) : bool :=
  match v with
  | Scalar typeName => String.eqb typeName AWSJSON
  | Object fs => existsb (fun kv => hasJsonLeafb (snd kv)) fs
  end.

(** ** Trees up to the order of fields *)

(** The least equivalence that permutes the fields of an object and
    relates objects that differ in one child by related trees. *)
Inductive shapeEquiv : FieldValue -> FieldValue -> Prop :=
| shapeEquiv_refl v : shapeEquiv v v
| shapeEquiv_sym v w : shapeEquiv v w -> shapeEquiv w v
| shapeEquiv_trans u v w : shapeEquiv u v -> shapeEquiv v w -> shapeEquiv u w
| shapeEquiv_perm fs fs' : Permutation fs fs' -> shapeEquiv (Object fs) (Object fs')
| shapeEquiv_child fs1 key v v' fs2 :
    shapeEquiv v v' ->
    shapeEquiv (Object (fs1 ++ (key, v) :: fs2)) (Object (fs1 ++ (key, v') :: fs2)).

#[export] Instance shapeEquiv_Equivalence : Equivalence shapeEquiv :=
  Build_Equivalence shapeEquiv shapeEquiv_refl shapeEquiv_sym shapeEquiv_trans.

(** ** Unfolding *)

(** The mapped function is the source's conditional: on an object it is
    the recursive call of [hasJsonFields]. *)
Lemma hasJsonFields_entry_unfold (fieldValue : FieldValue) :
  hasJsonFields_entry fieldValue =
  if isObject fieldValue then hasJsonFields (Some fieldValue)
  else isJsonScalar fieldValue.
Proof. destruct fieldValue; reflexivity. Qed.

Lemma hasJsonFields_Object (fs : Fields) :
  hasJsonFields (Some (Object fs)) = existsb (fun kv => hasJsonFields_entry (snd kv)) fs.
Proof. simpl. apply count_true_existsb. Qed.

(** ** Equivalence with the reference search *)

Lemma hasJsonFields_entry_leafb (v : FieldValue) :
  hasJsonFields_entry v = hasJsonLeafb v.
Proof.
  induction v as [t|fs IH] using FieldValue_ind; simpl; [reflexivity |].
  rewrite count_true_existsb. apply existsb_ext_Forall, IH.
Qed.

Lemma hasJsonLeafb_spec (v : FieldValue) : hasJsonLeafb v = true <-> JsonLeaf v.
Proof.
  induction v as [t|fs IH] using FieldValue_ind; simpl.
  - rewrite String.eqb_eq, JsonLeaf_Scalar_iff; reflexivity.
  - rewrite JsonLeaf_Object_iff, existsb_exists, Exists_exists.
    rewrite Forall_forall in IH.
    split; intros [kv [Hin H]]; exists kv; (split; [assumption | apply (IH kv Hin), H]).
Qed.

(** The function mapped over the entries decides [JsonLeaf] on every
    node, scalars included. *)
Lemma hasJsonFields_entry_spec (v : FieldValue) :
  hasJsonFields_entry v = true <-> JsonLeaf v.
Proof. rewrite hasJsonFields_entry_leafb. apply hasJsonLeafb_spec. Qed.

(** C1. On an object, [hasJsonFields] answers [true] exactly when some
    scalar leaf reachable from it has the type [AWSJSON]. *)
Theorem hasJsonFields_correct (fs : Fields) :
  hasJsonFields (Some (Object fs)) = true <-> JsonLeaf (Object fs).
Proof.
  rewrite hasJsonFields_Object, JsonLeaf_Object_iff, existsb_exists, Exists_exists.
  split; intros [kv [Hin H]]; exists kv; (split; [assumption | apply hasJsonFields_entry_spec, H]).
Qed.

(** [hasJsonFields] computes the same answer as the search that stops
    at the first JSON leaf: counting all true entries is not needed. *)
Theorem hasJsonFields_shortcircuit (fs : Fields) :
  hasJsonFields (Some (Object fs)) = hasJsonLeafb (Object fs).
Proof.
  rewrite hasJsonFields_Object. simpl.
  apply existsb_ext_Forall, Forall_forall; intros kv _; apply hasJsonFields_entry_leafb.
Qed.

(** The entries of a string are characters: none is an object, none is
    the JSON scalar. *)
Lemma hasJsonFields_entry_chars (i : nat) (s : string) :
  existsb (fun kv => hasJsonFields_entry (snd kv)) (charEntries i s) = false.
Proof.
  apply existsb_false_iff. eapply Forall_impl; [|apply charEntries_scalar].
  intros [k v] [H1 H2]; simpl in *.
  rewrite hasJsonFields_entry_unfold, H1; exact H2.
Qed.

Lemma hasJsonFields_Scalar (typeName : string) :
  hasJsonFields (Some (Scalar typeName)) = false.
Proof.
  unfold hasJsonFields. destruct (negb (truthy (Scalar typeName))); [reflexivity |].
  rewrite count_true_existsb. apply hasJsonFields_entry_chars.
Qed.

(** On [undefined] and on every string [hasJsonFields] answers
    [false], also on the string [AWSJSON] itself, which is a JSON leaf: a
    field whose own type is the JSON scalar is not detected. *)
Theorem hasJsonFields_not_object (fields : option FieldValue) :
  (forall fs, fields <> Some (Object fs)) -> hasJsonFields fields = false.
Proof.
  destruct fields as [[t|fs]|]; intros H;
    [apply hasJsonFields_Scalar | elim (H fs); reflexivity | reflexivity].
Qed.

Lemma hasJsonFields_not_object_witness :
  hasJsonFields (Some (Scalar AWSJSON)) = false /\ JsonLeaf (Scalar AWSJSON).
Proof.
  split; [apply hasJsonFields_not_object; intros fs H; discriminate H | constructor].
Defined.

(** ** Detection does not depend on the order of fields *)

#[export] Instance hasJsonFields_entry_Proper : Proper (shapeEquiv ==> eq) hasJsonFields_entry.
Proof.
  intros v w H. induction H as [v|v w _ IH|u v w _ IH1 _ IH2|fs fs' Hp|fs1 key v v' fs2 _ IH];
    try congruence.
  - change (hasJsonFields (Some (Object fs)) = hasJsonFields (Some (Object fs'))).
    rewrite !hasJsonFields_Object. now apply existsb_Permutation.
  - change (hasJsonFields (Some (Object (fs1 ++ (key, v) :: fs2))) =
            hasJsonFields (Some (Object (fs1 ++ (key, v') :: fs2)))).
    rewrite !hasJsonFields_Object, !existsb_app. cbn [existsb snd]. now rewrite IH.
Qed.

#[export] Instance JsonLeaf_Proper : Proper (shapeEquiv ==> iff) JsonLeaf.
Proof. intros v w H. now rewrite <- !hasJsonFields_entry_spec, H. Qed.

(** [hasJsonFields] answers the same on two trees that differ in
    the order of the fields of their objects, at any depth. *)
Theorem hasJsonFields_shapeEquiv (v w : FieldValue) :
  shapeEquiv v w -> hasJsonFields (Some v) = hasJsonFields (Some w).
Proof.
  intros H. induction H as [v|v w _ IH|u v w _ IH1 _ IH2|fs fs' Hp|fs1 key v v' fs2 H _];
    try congruence.
  - exact (hasJsonFields_entry_Proper _ _ (shapeEquiv_perm _ _ Hp)).
  - rewrite !hasJsonFields_Object, !existsb_app. cbn [existsb snd]. now rewrite H.
Qed.

Lemma hasJsonFields_shapeEquiv_witness :
  hasJsonFields (Some (Object [("id", Scalar "ID");
                               ("data", Object [("a", Scalar "Int"); ("b", Scalar AWSJSON)])])) =
  hasJsonFields (Some (Object [("data", Object [("b", Scalar AWSJSON); ("a", Scalar "Int")]);
                               ("id", Scalar "ID")])).
Proof.
  apply hasJsonFields_shapeEquiv.
  transitivity (Object [("id", Scalar "ID");
                        ("data", Object [("b", Scalar AWSJSON); ("a", Scalar "Int")])]).
  - apply (shapeEquiv_child [("id", Scalar "ID")] "data" _ _ []), shapeEquiv_perm, perm_swap.
  - apply shapeEquiv_perm, perm_swap.
Defined.

(** The answer on a record is the disjunction of the answers on its
    parts: the order of the fields is irrelevant to detection. *)
Lemma hasJsonFields_app (fs1 fs2 : Fields) :
  hasJsonFields (Some (Object (fs1 ++ fs2))) =
  hasJsonFields (Some (Object fs1)) || hasJsonFields (Some (Object fs2)).
Proof. rewrite !hasJsonFields_Object. apply existsb_app. Qed.

Lemma hasJsonFields_false_iff (fs : Fields) :
  hasJsonFields (Some (Object fs)) = false <->
  Forall (fun kv => hasJsonFields_entry (snd kv) = false) fs.
Proof. rewrite hasJsonFields_Object. apply existsb_false_iff. Qed.

Example hasJsonFields_nested_array :
  hasJsonFields (Some (Object [("items[]", Object [("meta", Scalar AWSJSON)])])) = true.
Proof. reflexivity. Qed.

#[export] Hint Rewrite hasJsonFields_Object : str.
#[export] Hint Resolve hasJsonFields_entry_leafb : jsgen.
