(* ===== verification/Transform.v ===== *)
(** * Transform: the lines that override the JSON leaves

    [transformJsonFields] of [src/dist/transformer-generator.js] and the
    body of its loop, [transformField].  For every entry of a record the
    annotated name is decoded, and the entry contributes: nothing when it
    is a scalar other than [AWSJSON]; one line when it is [AWSJSON]; an
    opening line, a spread line, the lines of its children and a closing
    line when it is an object, in the form of a [map] over the elements
    when the field is a list. *)

From Stdlib Require Import String Ascii List ZArith Lia Bool.
From S2P Require Import Prelude JsString Shape Detector.
Import ListNotations.
Local Open Scope string_scope.

(** ** The source's definitions *)

(** The [transformer] argument: ['parse'] or ['stringify']. *)
Inductive Transformer : Type :=
| parse
| stringify.

(** [field.includes('!')] *)
Definition isMandatory (field : string) : bool := JsString.includes field "!".

(** [field.includes('[]')] *)
Definition isArray (field : string) : bool := JsString.includes field "[]".

(** The field name: the key without its last character when it is
    mandatory, then without its last two characters when it is a list. *)
Definition fieldNameOf (field : string) : string :=
  let fieldName := field in
  let fieldName :=
    if isMandatory field
    then JsString.substring fieldName 0 (JsString.length fieldName - 1)
    else fieldName in
  let fieldName :=
    if isArray field
    then JsString.substring fieldName 0 (JsString.length fieldName - 2)
    else fieldName in
  fieldName.

(** The name of the element variable: the field name without its last
    character. *)
Definition fieldNameSingular (fieldName : string) : string :=
  JsString.substring fieldName 0 (JsString.length fieldName - 1).

(** The line that overrides a JSON leaf. *)
Definition jsonLine (transformer : Transformer) (fieldName fieldPath : string) : string :=
  match transformer with
  | parse =>
      fieldName ++ ": " ++ fieldPath ++ " && JSON.parse(" ++ fieldPath
        ++ " as unknown as string),"
  | stringify =>
      fieldName ++ ": " ++ fieldPath ++ " && JSON.stringify(" ++ fieldPath
        ++ " as unknown as Record<string, any>),"
  end.

(** The body of the loop: the lines pushed for one entry. *)
Fixpoint transformField (transformer : Transformer) (path field : string)
  (fieldValue : FieldValue) {struct fieldValue} : list string :=
  let fieldName := fieldNameOf field in
  let fieldNameSingular := fieldNameSingular fieldName in
  let fieldPath := path ++ "." ++ fieldName in
  match fieldValue with
  | Object fs =>
      if isArray field then
        [fieldName ++ ": " ++ fieldPath ++ "?.map((" ++ fieldNameSingular ++ ") => ({";
         "..." ++ fieldNameSingular ++ ","]
        ++ flat_map (fun kv => transformField transformer (fieldNameSingular ++ "?")
                                 (fst kv) (snd kv)) fs
        ++ ["})),"]
      else
        [fieldName ++ ": {";
         "..." ++ fieldPath ++ ","]
        ++ flat_map (fun kv => transformField transformer (fieldPath ++ "?")
                                 (fst kv) (snd kv)) fs
        ++ ["},"]
  | Scalar typeName =>
      if String.eqb typeName AWSJSON
      then [jsonLine transformer fieldName fieldPath]
      else []
  end.

(** [transformJsonFields(fields, path, transformer)] *)
Definition transformJsonFields (fields : FieldValue) (path : string)
  (transformer : Transformer) : list string :=
  flat_map (fun kv => transformField transformer path (fst kv) (snd kv)) (entries fields).

(** ** Reference definitions *)

(** The number of lines a tree contributes, whatever the path and the
    direction. *)
Fixpoint lineCount (v : FieldValue) : nat :=
  match v with
  | Scalar typeName => if String.eqb typeName AWSJSON then 1 else 0
  | Object fs => 3 + list_sum (map (fun kv => lineCount (snd kv)) fs)
  end.

Example example_B :
  transformJsonFields (Object [("payload", Scalar AWSJSON)]) "getNode" parse =
  ["payload: getNode.payload && JSON.parse(getNode.payload as unknown as string),"].
Proof. reflexivity. Qed.

Example example_C :
  transformJsonFields (Object [("items[]", Object [("meta", Scalar AWSJSON)])]) "list" parse =
  ["items: list.items?.map((item) => ({";
   "...item,";
   "meta: item?.meta && JSON.parse(item?.meta as unknown as string),";
   "})),"].
Proof. reflexivity. Qed.

Example example_nested :
  transformJsonFields (Object [("data!", Object [("id", Scalar "ID"); ("payload", Scalar AWSJSON)])])
    "variables.input" stringify =
  ["data: {";
   "...variables.input.data,";
   "payload: variables.input.data?.payload && JSON.stringify(variables.input.data?.payload as unknown as Record<string, any>),";
   "},"].
Proof. reflexivity. Qed.

(** A list of JSON scalars takes the scalar branch: the list is decoded
    as one JSON text, the array marker serving for the name only. *)
Example example_json_list :
  transformJsonFields (Object [("tags[]", Scalar AWSJSON)]) "node" parse =
  ["tags: node.tags && JSON.parse(node.tags as unknown as string),"].
Proof. reflexivity. Qed.

(** The parameter of the mapped function is the name of the list without
    its last character: a list with a name of one character has an empty
    parameter. *)
Example example_short_list_name :
  transformJsonFields (Object [("a[]", Object [("meta", Scalar AWSJSON)])]) "node" parse =
  ["a: node.a?.map(() => ({";
   "...,";
   "meta: ?.meta && JSON.parse(?.meta as unknown as string),";
   "})),"].
Proof. reflexivity. Qed.

(** The markers are looked for anywhere in the key and cut at its end:
    a key with a marker character inside loses its last character. *)
Example example_inner_marker :
  isMandatory "to!do" = true /\ fieldNameOf "to!do" = "to!d".
Proof. split; reflexivity. Qed.

(** ** The decoding of annotated names *)

Section Names.

Variable name : string.
Hypothesis name_markerFree : markerFree name.

Lemma isMandatory_annotate (a m : bool) : isMandatory (annotate name a m) = m.
Proof.
  unfold isMandatory, annotate. destruct name_markerFree as [Hbang _].
  destruct m.
  - rewrite <- append_assoc. apply JsString.includes_suffix.
  - apply JsString.not_In_includes. rewrite !JsString.chars_append, !in_app_iff.
    destruct a; simpl; intuition discriminate.
Qed.

Lemma isArray_annotate (a m : bool) : isArray (annotate name a m) = a.
Proof.
  unfold isArray, annotate. destruct name_markerFree as [_ Hbracket].
  destruct a.
  - apply JsString.includes_middle.
  - apply JsString.not_In_includes. rewrite !JsString.chars_append, !in_app_iff.
    destruct m; simpl; intuition discriminate.
Qed.

Lemma fieldNameOf_annotate (a m : bool) : fieldNameOf (annotate name a m) = name.
Proof.
  unfold fieldNameOf. rewrite isMandatory_annotate, isArray_annotate.
  unfold annotate. destruct a, m; rewrite ?append_nil_r.
  - rewrite <- append_assoc.
    change 1%Z with (JsString.length "!"). rewrite JsString.substring_drop_suffix.
    change 2%Z with (JsString.length "[]"). apply JsString.substring_drop_suffix.
  - change 2%Z with (JsString.length "[]"). apply JsString.substring_drop_suffix.
  - change 1%Z with (JsString.length "!"). apply JsString.substring_drop_suffix.
  - reflexivity.
Qed.

End Names.

(** C12. Decoding inverts annotation: for a name without marker
    characters, annotated as a list or not and as mandatory or not, the
    two flags and the name read back from the key are the ones that were
    annotated. *)
Theorem decode_annotate (name : string) (a m : bool) :
  markerFree name ->
  isArray (annotate name a m) = a /\
  isMandatory (annotate name a m) = m /\
  fieldNameOf (annotate name a m) = name.
Proof.
  intros H; repeat split;
    [apply isArray_annotate | apply isMandatory_annotate | apply fieldNameOf_annotate];
    exact H.
Qed.

Lemma decode_annotate_witness :
  isArray "tags[]!" = true /\ isMandatory "tags[]!" = true /\ fieldNameOf "tags[]!" = "tags".
Proof.
  apply (decode_annotate "tags" true true).
  apply markerFreeb_spec; reflexivity.
Defined.

(** ** The names of a well-formed record *)

Lemma fieldNameOf_declare (d : Declaration) :
  wfName (declName d) -> fieldNameOf (fst (declare d)) = declName d.
Proof. intros [H _]. now apply fieldNameOf_annotate. Qed.

(** The names the builder reads back from the keys of a well-formed
    record are the declared names, so they differ from one another. *)
Lemma wf_fieldNames (fs : Fields) :
  wf (Object fs) -> NoDup (map (fun kv => fieldNameOf (fst kv)) fs).
Proof.
  intros H. apply wf_Object_inv in H as (ds & -> & Hn & Hnd & _).
  rewrite map_map. erewrite map_ext_Forall; [exact Hnd |].
  eapply Forall_impl; [| exact Hn]. intros d; apply fieldNameOf_declare.
Qed.

Lemma wf_children (fs : Fields) :
  wf (Object fs) -> Forall (fun kv => wf (snd kv)) fs.
Proof.
  intros H. apply wf_Object_inv in H as (ds & -> & _ & _ & Hw).
  apply Forall_map. exact Hw.
Qed.

(** ** The emitted lines, case by case *)

Lemma transformJsonFields_Object (fs : Fields) (path : string) (t : Transformer) :
  transformJsonFields (Object fs) path t =
  flat_map (fun kv => transformField t path (fst kv) (snd kv)) fs.
Proof. reflexivity. Qed.

Lemma transformField_json (t : Transformer) (path field : string) :
  transformField t path field (Scalar AWSJSON) =
  [jsonLine t (fieldNameOf field) (path ++ "." ++ fieldNameOf field)].
Proof. reflexivity. Qed.

Lemma transformField_scalar (t : Transformer) (path field typeName : string) :
  typeName <> AWSJSON -> transformField t path field (Scalar typeName) = [].
Proof. intros H; simpl. apply String.eqb_neq in H; rewrite H; reflexivity. Qed.

Lemma transformField_array (t : Transformer) (path field : string) (fs : Fields) :
  isArray field = true ->
  transformField t path field (Object fs) =
  let fieldName := fieldNameOf field in
  let fieldPath := path ++ "." ++ fieldName in
  let x := fieldNameSingular fieldName in
  ([(fieldName ++ ": " ++ fieldPath ++ "?.map((" ++ x ++ ") => ({")%string;
    ("..." ++ x ++ ",")%string]
   ++ transformJsonFields (Object fs) (x ++ "?")%string t ++ ["})),"])%list.
Proof. intros H; simpl; rewrite H; reflexivity. Qed.

Lemma transformField_object (t : Transformer) (path field : string) (fs : Fields) :
  isArray field = false ->
  transformField t path field (Object fs) =
  let fieldName := fieldNameOf field in
  let fieldPath := path ++ "." ++ fieldName in
  ([(fieldName ++ ": {")%string; ("..." ++ fieldPath ++ ",")%string]
   ++ transformJsonFields (Object fs) (fieldPath ++ "?")%string t ++ ["},"])%list.
Proof. intros H; simpl; rewrite H; reflexivity. Qed.

(** A string has no entry that contributes a line. *)
Lemma transformJsonFields_Scalar (s path : string) (t : Transformer) :
  transformJsonFields (Scalar s) path t = [].
Proof.
  unfold transformJsonFields. apply flat_map_nil_iff.
  eapply Forall_impl; [|apply (charEntries_scalar 0 s)].
  intros [k [ty|fs]] [H1 H2]; simpl in *; [rewrite H2; reflexivity | discriminate].
Qed.

(** ** Order and number of the lines *)

(** The lines of a record are the lines of its fields, in the order
    of the fields: the lines of a concatenation of two records are the
    concatenation of their lines. *)
Theorem transformJsonFields_app (fs1 fs2 : Fields) (path : string) (t : Transformer) :
  transformJsonFields (Object (fs1 ++ fs2)) path t =
  (transformJsonFields (Object fs1) path t ++ transformJsonFields (Object fs2) path t)%list.
Proof. rewrite !transformJsonFields_Object. apply flat_map_app. Qed.

Lemma transformField_length (t : Transformer) (v : FieldValue) :
  forall path field, List.length (transformField t path field v) = lineCount v.
Proof.
  induction v as [ty|fs IH] using FieldValue_ind; intros path field; simpl.
  - destruct (String.eqb ty AWSJSON); reflexivity.
  - assert (E : forall p, List.length
        (flat_map (fun kv => transformField t p (fst kv) (snd kv)) fs) =
        list_sum (map (fun kv => lineCount (snd kv)) fs)).
    { intros p. rewrite length_flat_map. f_equal. apply map_ext_Forall.
      eapply Forall_impl; [|exact IH]. intros kv H; apply H. }
    destruct (isArray field); simpl; rewrite length_app, E; simpl; lia.
Qed.

(** The number of emitted lines depends on the tree alone, not on the
    path nor on the direction: one line per JSON leaf and three per
    object below the root. *)
Theorem transformJsonFields_length (fs : Fields) (path : string) (t : Transformer) :
  List.length (transformJsonFields (Object fs) path t) =
  list_sum (map (fun kv => lineCount (snd kv)) fs).
Proof.
  rewrite transformJsonFields_Object, length_flat_map. f_equal.
  apply map_ext; intros kv; apply transformField_length.
Qed.

(** ** The two directions *)

Lemma jsonLine_direction (fieldName fieldPath : string) :
  jsonLine parse fieldName fieldPath <> jsonLine stringify fieldName fieldPath.
Proof.
  unfold jsonLine; intros H.
  apply append_inv_head, (append_inv_head ": "), append_inv_head in H.
  discriminate H.
Qed.

Lemma frame_eq_iff {A : Type} (a b c : A) (l l' : list A) :
  (a :: b :: l ++ [c] = a :: b :: l' ++ [c])%list <-> l = l'.
Proof.
  split; [intros H; inv H; eapply app_inv_tail; eassumption | intros ->; reflexivity].
Qed.

Lemma transformField_direction (v : FieldValue) :
  forall path field,
    transformField parse path field v = transformField stringify path field v <->
    hasJsonFields_entry v = false.
Proof.
  induction v as [ty|fs IH] using FieldValue_ind; intros path field.
  - simpl. destruct (String.eqb ty AWSJSON); split; intros H;
      try reflexivity; try discriminate H.
    inv H. elim (jsonLine_direction _ _ H1).
  - rewrite hasJsonFields_entry_unfold; simpl isObject; cbv iota.
    rewrite hasJsonFields_false_iff.
    assert (E : forall p,
      flat_map (fun kv => transformField parse p (fst kv) (snd kv)) fs =
      flat_map (fun kv => transformField stringify p (fst kv) (snd kv)) fs <->
      Forall (fun kv => hasJsonFields_entry (snd kv) = false) fs).
    { intros p; split; intros H.
      - apply flat_map_eq_inv in H.
        + rewrite Forall_forall in *; intros kv Hin. apply (IH kv Hin p (fst kv)), H, Hin.
        + apply Forall_forall; intros kv _. now rewrite !transformField_length.
      - apply flat_map_ext_Forall. rewrite Forall_forall in *; intros kv Hin.
        apply (IH kv Hin), H, Hin. }
    cbn [transformField]. destruct (isArray field); cbn [app]; rewrite frame_eq_iff; apply E.
Qed.

(** C11. The decode direction and the encode direction emit the same lines
    exactly when [hasJsonFields] answers [false]: the builder overrides a
    field if and only if the detector finds one. *)
Theorem transformJsonFields_direction (fields : FieldValue) (path : string) :
  transformJsonFields fields path parse = transformJsonFields fields path stringify <->
  hasJsonFields (Some fields) = false.
Proof.
  destruct fields as [s|fs].
  - rewrite !transformJsonFields_Scalar. split; [intros _ | reflexivity].
    apply hasJsonFields_Scalar.
  - rewrite hasJsonFields_false_iff, !transformJsonFields_Object. split; intros H.
    + apply flat_map_eq_inv in H.
      * eapply Forall_impl; [|exact H]. intros kv; apply transformField_direction.
      * apply Forall_forall; intros kv _. now rewrite !transformField_length.
    + apply flat_map_ext_Forall. eapply Forall_impl; [|exact H].
      intros kv; apply transformField_direction.
Qed.

(** ** Records that emit nothing *)

Lemma transformField_nil_iff (t : Transformer) (path field : string) (v : FieldValue) :
  transformField t path field v = [] <-> isObject v = false /\ isJsonScalar v = false.
Proof.
  destruct v as [ty|fs]; simpl.
  - destruct (String.eqb ty AWSJSON); split; intros H; try discriminate H; auto.
    destruct H; discriminate.
  - destruct (isArray field); split; intros H; try discriminate H; destruct H; discriminate.
Qed.

(** C36. A record emits no line exactly when every field of it is a scalar
    other than [AWSJSON]; a nested object emits its opening, spread and
    closing lines even when it has no JSON leaf. *)
Theorem transformJsonFields_nil_iff (fs : Fields) (path : string) (t : Transformer) :
  transformJsonFields (Object fs) path t = [] <->
  Forall (fun kv => isObject (snd kv) = false /\ isJsonScalar (snd kv) = false) fs.
Proof.
  rewrite transformJsonFields_Object, flat_map_nil_iff.
  split; intros H; (eapply Forall_impl; [|exact H]); intros kv; apply transformField_nil_iff.
Qed.

#[export] Hint Rewrite transformJsonFields_Object transformJsonFields_Scalar : str.
#[export] Hint Resolve jsonLine_direction : jsgen.
