(* ===== verification/Decode.v ===== *)
(** * Decode: a key as a declaration, and a checker of well-formed trees

    The generators read the list and mandatory flags of a field in its
    key, each time they meet it.  [decode] reads a key once, into the
    declaration of the field: its name, the two flags and the tree of
    its type.  On the keys of a well-formed tree it inverts [declare],
    and this is what well-formedness means: [wfb], which decodes every
    key, annotates the result and compares, decides [wf]. *)

From Stdlib Require Import String Ascii List ZArith Lia Bool DecidableClass.
From S2P Require Import Prelude JsString Shape Detector Transform.
Import ListNotations.
Local Open Scope string_scope.

(** ** Definitions *)

(** The declaration a key and its tree stand for, as the builder reads
    them. *)
Definition decode (kv : string * FieldValue) : Declaration :=
  mkDeclaration (fieldNameOf (fst kv)) (isArray (fst kv)) (isMandatory (fst kv)) (snd kv).

Definition wfNameb (name : string) : bool :=
  markerFreeb name && negb (String.eqb name "").

(** No string occurs twice. *)
Fixpoint nodupb (l : list string) : bool :=
  match l with
  | [] => true
  | x :: l' => negb (existsb (String.eqb x) l') && nodupb l'
  end.

(** The entry is the entry of the declaration it decodes to, and the
    name of that declaration is a name of a field. *)
Definition wfEntryb (wfb : FieldValue -> bool) (kv : string * FieldValue) : bool :=
  wfNameb (declName (decode kv))
  && String.eqb (fst (declare (decode kv))) (fst kv)
  && wfb (snd kv).

Fixpoint wfb (v : FieldValue) : bool :=
  match v with
  | Scalar _ => true
  | Object fs =>
      forallb (fun kv => wfEntryb wfb kv) fs
      && nodupb (map (fun kv => declName (decode kv)) fs)
  end.

(** ** Lemmas *)

Lemma wfNameb_spec (name : string) : wfNameb name = true <-> wfName name.
Proof.
  unfold wfNameb, wfName. rewrite andb_true_iff, markerFreeb_spec, negb_true_iff.
  now rewrite String.eqb_neq.
Qed.

Lemma nodupb_spec (l : list string) : nodupb l = true <-> NoDup l.
Proof.
  induction l as [|x l IH]; simpl; [split; [constructor | reflexivity] |].
  rewrite andb_true_iff, negb_true_iff, IH, existsb_false_iff, Forall_forall. split.
  - intros [Hx Hl]. constructor; [| exact Hl]. intros Hin.
    specialize (Hx x Hin). now rewrite String.eqb_refl in Hx.
  - intros H. inversion H as [|? ? Hx Hl]; subst. split; [| exact Hl].
    intros y Hy. apply String.eqb_neq. now intros ->.
Qed.

(** Decoding inverts the declaration of a field whose name is a name of
    a field. *)
Lemma decode_declare (d : Declaration) : wfName (declName d) -> decode (declare d) = d.
Proof.
  intros [Hfree _]. destruct d as [name a m t]. unfold decode, declare. cbn [fst snd] in *.
  now rewrite (fieldNameOf_annotate name Hfree), (isArray_annotate name Hfree),
    (isMandatory_annotate name Hfree).
Qed.

(** An entry that passes the check is the entry of its declaration. *)
Lemma wfEntryb_declare (f : FieldValue -> bool) (kv : string * FieldValue) :
  wfEntryb f kv = true -> declare (decode kv) = kv.
Proof.
  unfold wfEntryb. rewrite !andb_true_iff. intros [[_ Hk] _].
  apply String.eqb_eq in Hk. destruct kv as [k v]. unfold declare in *.
  cbn [decode declType fst snd] in *. now rewrite Hk.
Qed.

Lemma wfb_wf (v : FieldValue) : wfb v = true -> wf v.
Proof.
  induction v as [typeName|fs IH] using FieldValue_ind; [constructor |].
  cbn [wfb]. rewrite andb_true_iff, forallb_forall, nodupb_spec. intros [Hall Hnd].
  replace fs with (map declare (map decode fs)).
  - rewrite Forall_forall in IH. constructor; rewrite ?Forall_map, ?map_map.
    + apply Forall_forall. intros kv Hin. specialize (Hall kv Hin).
      unfold wfEntryb in Hall. rewrite !andb_true_iff in Hall. now apply wfNameb_spec.
    + exact Hnd.
    + apply Forall_forall. intros kv Hin. specialize (Hall kv Hin).
      unfold wfEntryb in Hall. rewrite !andb_true_iff in Hall. now apply (IH kv Hin).
  - rewrite map_map. rewrite <- (map_id fs) at 2. apply map_ext_in.
    intros kv Hin. exact (wfEntryb_declare wfb kv (Hall kv Hin)).
Qed.

Lemma wf_wfb (v : FieldValue) : wf v -> wfb v = true.
Proof.
  induction v as [typeName|fs IH] using FieldValue_ind; intros Hwf; [reflexivity |].
  apply wf_Object_inv in Hwf as (ds & -> & Hn & Hnd & Hw).
  rewrite Forall_map in IH. cbn [wfb]. rewrite andb_true_iff, forallb_forall, nodupb_spec.
  rewrite Forall_forall in Hn, Hw, IH. split.
  - intros kv Hin. apply in_map_iff in Hin as (d & <- & Hin).
    unfold wfEntryb. rewrite (decode_declare d (Hn d Hin)), !andb_true_iff.
    split; [split; [now apply wfNameb_spec, Hn | apply String.eqb_refl] |].
    now apply (IH d Hin), Hw.
  - rewrite map_map. erewrite map_ext_in; [exact Hnd |].
    intros d Hin. now rewrite (decode_declare d (Hn d Hin)).
Qed.

Lemma wfb_spec (v : FieldValue) : wfb v = true <-> wf v.
Proof. split; [apply wfb_wf | apply wf_wfb]. Qed.

(** Well-formedness is decidable. *)
#[export] Instance wf_Decidable (v : FieldValue) : Decidable (wf v) := {|
  Decidable_witness := wfb v;
  Decidable_spec := wfb_spec v
|}.

(** ** Examples *)

Example wfb_node :
  wfb (Object [("id!", Scalar "ID"); ("payload", Scalar AWSJSON);
               ("items[]", Object [("meta", Scalar AWSJSON)])]) = true.
Proof. reflexivity. Qed.

(** A key with a marker inside its name, and a name used twice. *)
Example wfb_inner_marker : wfb (Object [("to!do", Scalar "String")]) = false.
Proof. reflexivity. Qed.

Example wfb_duplicate :
  wfb (Object [("tags[]", Scalar "String"); ("tags", Scalar "String")]) = false.
Proof. reflexivity. Qed.
