(* ===== verification/Bounds.v ===== *)
(** * Bounds: the sizes of what the builder reads and writes

    The index arithmetic of the name decoding of
    [src/dist/transformer-generator.js] (the ends [length - 1] and
    [length - 2] of the two cuts), the number of lines the builder
    returns against the number of nodes of the tree, and the number of
    characters of these lines, which grows with the square of the nesting
    depth since every nested line repeats the path that leads to it. *)

From Stdlib Require Import String Ascii List ZArith Lia Bool.
From S2P Require Import Prelude JsString Shape Detector Transform.
Import ListNotations.
Local Open Scope string_scope.

(** ** Reference definitions *)

(** The number of characters the markers of a key take. *)
Definition markerLength (field : string) : Z :=
  ((if isMandatory field then 1 else 0) + (if isArray field then 2 else 0))%Z.

(** Three lines for every node but the root. *)
Definition lineBound (fields : FieldValue) : nat := 3 * (size fields - 1).

(** The number of characters of a list of lines. *)
Definition textSize (lines : list string) : nat := list_sum (map String.length lines).

(** A JSON field below [n] nested objects. *)
Fixpoint chain (n : nat) : FieldValue :=
  match n with
  | 0 => Object [("payload", Scalar AWSJSON)]
  | S n' => Object [("child", chain n')]
  end.

(** ** The cuts of the name decoding *)

(** A key with both markers has three characters at least. *)
Lemma markers_length (field : string) :
  isMandatory field = true -> isArray field = true -> (3 <= JsString.length field)%Z.
Proof.
  unfold isMandatory, isArray. intros Hm Ha.
  apply JsString.includes_head_In in Hm.
  apply JsString.includes_iff in Ha as (a & c & ->).
  rewrite !JsString.chars_append, !in_app_iff in Hm. rewrite !JsString.length_app.
  pose proof (JsString.length_nonneg a). pose proof (JsString.length_nonneg c).
  change (JsString.length "[]") with 2%Z.
  destruct Hm as [Hm|[Hm|Hm]]; [apply JsString.In_chars_length in Hm; lia | |
                                apply JsString.In_chars_length in Hm; lia].
  simpl in Hm. intuition discriminate.
Qed.

Lemma markerLength_le (field : string) : (0 <= markerLength field <= JsString.length field)%Z.
Proof.
  unfold markerLength. pose proof (JsString.length_nonneg field).
  destruct (isMandatory field) eqn:Hm, (isArray field) eqn:Ha; try lia.
  - pose proof (markers_length field Hm Ha). lia.
  - apply JsString.includes_length in Hm. change (JsString.length "!") with 1%Z in Hm. lia.
  - apply JsString.includes_length in Ha. change (JsString.length "[]") with 2%Z in Ha. lia.
Qed.

(** ** Lines *)

Lemma lineCount_size (v : FieldValue) : lineCount v <= 3 * size v.
Proof.
  induction v as [ty|fs IH] using FieldValue_ind; simpl.
  - destruct (String.eqb ty AWSJSON); lia.
  - apply (list_sum_le (fun kv => lineCount (snd kv)) (fun kv => 3 * size (snd kv))) in IH.
    assert (E : list_sum (map (fun kv : string * FieldValue => 3 * size (snd kv)) fs)
                = 3 * list_sum (map (fun kv => size (snd kv)) fs)).
    { clear IH. induction fs as [|kv fs IHfs]; simpl in *; lia. }
    lia.
Qed.

(** ** Characters *)

Lemma textSize_app (a b : list string) : textSize (a ++ b) = textSize a + textSize b.
Proof. unfold textSize. now rewrite map_app, list_sum_app. Qed.

Lemma chain_step (n : nat) (path : string) (t : Transformer) :
  transformJsonFields (chain (S n)) path t =
  (["child: {"; ("..." ++ (path ++ ".child") ++ ",")%string]
   ++ transformJsonFields (chain n) ((path ++ ".child") ++ "?")%string t ++ ["},"])%list.
Proof.
  cbn [chain]. rewrite transformJsonFields_Object. cbn [flat_map fst snd].
  rewrite app_nil_r. destruct n; reflexivity.
Qed.

Lemma size_chain (n : nat) : size (chain n) = n + 2.
Proof.
  induction n as [|n IH]; [reflexivity |].
  change (size (chain (S n))) with (S (size (chain n) + 0)). lia.
Qed.

(** ** Theorems *)

(** The ends of the two cuts of the name decoding are never
    negative, and the field name has the length of the key less the
    characters of its markers: one for the mandatory marker and two for
    the list marker. *)
Theorem fieldNameOf_length (field : string) :
  (0 <= markerLength field <= JsString.length field)%Z /\
  JsString.length (fieldNameOf field) = (JsString.length field - markerLength field)%Z.
Proof.
  split; [apply markerLength_le |].
  pose proof (markerLength_le field) as H. revert H.
  unfold fieldNameOf, markerLength.
  destruct (isMandatory field), (isArray field);
    rewrite ?JsString.substring_length; unfold JsString.clamp; lia.
Qed.

(** The number of lines of the builder is bounded by the size of
    the tree: three lines at most for every node below the root. *)
Theorem transformJsonFields_lines_bound (fields : FieldValue) (path : string)
  (t : Transformer) :
  List.length (transformJsonFields fields path t) <= lineBound fields.
Proof.
  unfold lineBound. destruct fields as [s|fs].
  - rewrite transformJsonFields_Scalar. simpl. lia.
  - rewrite transformJsonFields_Object, length_flat_map.
    erewrite map_ext; [| intros kv; apply transformField_length].
    pose proof (lineCount_size (Object fs)) as H. simpl in H |- *. lia.
Qed.

(** C35. The number of characters of the lines is not bounded by a
    multiple of the size of the tree: for a JSON field below [n] nested
    objects, a tree of [n + 2] nodes, the lines have [n * n] characters
    at least, and [n] times the length of the path more. *)
Theorem transformJsonFields_chain_text (n : nat) (path : string) (t : Transformer) :
  size (chain n) = n + 2 /\
  n * (String.length path + n) <= textSize (transformJsonFields (chain n) path t).
Proof.
  split; [apply size_chain |]. revert path.
  induction n as [|n IH]; intros path; [simpl; lia |].
  rewrite chain_step, !textSize_app. specialize (IH ((path ++ ".child") ++ "?")).
  rewrite !length_append in IH. unfold textSize at 1 3. cbn [map].
  rewrite !length_append. simpl String.length in *. unfold list_sum; cbn [fold_right]. nia.
Qed.
