(* ===== verification/Emitters.v ===== *)
(** * Emitters: the text of the two transformer functions

    [generateQueryVariablesSignature], [generateOutputTransformer] and
    [generateInputTransformer] of [src/dist/transformer-generator.js].
    Each emitter returns a completion: the emitted text, or the exception
    the JavaScript code throws.  The [node] argument of the source is not
    read by it and is left out.  The value [variablesType[field]] of a key
    returned by [Object.keys(variablesType)] is the second component of
    the entry. *)

From Stdlib Require Import String Ascii List ZArith Lia Bool.
From S2P Require Import Prelude JsString Shape Detector Transform.
Import ListNotations.
Local Open Scope string_scope.

(** ** Data *)

(** The resolved type of the root field of an operation. *)
Record OutputType : Type := mkOutputType {
  fieldName : string;
  typeName : string;
  fields : option FieldValue
}.

(** The resolved type of one variable. *)
Record VariableType : Type := mkVariableType {
  variableFields : option FieldValue
}.

(** The variables of an operation, by name. *)
Definition VariablesType : Type := list (string * VariableType).

(** ** The source's definitions *)

Definition generateQueryVariablesSignature (hasRequiredVariables : bool)
  (operationVariablesTypes : string) : string :=
  "variables" ++ (if hasRequiredVariables then "" else "?") ++ ": " ++ operationVariablesTypes.

(** [Object.entries] and [Object.keys] throw on [undefined]. *)
Definition toObject {A : Type} (o : option A) : completion A :=
  match o with
  | Some a => Normal a
  | None => Throw (TypeError "Cannot convert undefined or null to object")
  end.

(** [fields || {}] *)
Definition orEmpty (fields : option FieldValue) : FieldValue :=
  match fields with
  | Some f => if truthy f then f else Object []
  | None => Object []
  end.

(** The documentation comment of the output transformer. *)
Definition outputComment (operationName operationResultType : string)
  (outputType : OutputType) : string :=
  nl ++ "/**" ++ nl
  ++ "  * Output transformer function for `" ++ operationName ++ "`." ++ nl
  ++ "  * It extracts the `" ++ fieldName outputType
  ++ "` field from the result and transforms it into a `"
  ++ typeName outputType ++ "` object." ++ nl
  ++ "  * If the object contains JSON fields, it will automatically JSON parse these fields and return a new object." ++ nl
  ++ "  * If the object does not conatain any JSON fields, it will return the orignal object." ++ nl
  ++ "  * @param data " ++ operationResultType ++ " - The data returned from the GraphQL server" ++ nl
  ++ "  * @returns " ++ typeName outputType ++ " - The transformed data" ++ nl
  ++ "  */".

(** The text before the body of the output transformer: the comment and
    the declaration up to the arrow. *)
Definition outputHeader (operationName operationResultType : string)
  (outputType : OutputType) : string :=
  nl ++ outputComment operationName operationResultType outputType ++ nl
  ++ "export const " ++ operationName ++ "Output = ({ "
  ++ fieldName outputType ++ " }: " ++ operationResultType ++ ") => ".

Definition generateOutputTransformer (operationName operationVariablesTypes
  operationResultType : string) (hasRequiredVariables : bool)
  (outputType : OutputType) : completion string :=
  (body <- (if hasJsonFields (fields outputType)
            then (f <- toObject (fields outputType) ;;
                  Normal (fieldName outputType ++ " && ({..." ++ fieldName outputType ++ ", "
                          ++ JsString.join
                               (transformJsonFields f (fieldName outputType) parse) nl
                          ++ " }) as " ++ typeName outputType))
            else Normal (fieldName outputType ++ " as " ++ typeName outputType)) ;;
   Normal (outputHeader operationName operationResultType outputType ++ body ++ ";"))%js.

(** The documentation comment of the input transformer. *)
Definition inputComment (operationName operationVariablesTypes : string)
  (hasVariables : bool) : string :=
  nl ++ "/**" ++ nl
  ++ "  * Input transformer function for `" ++ operationName ++ "`." ++ nl
  ++ "  * It transforms the fields of the variables into JSON strings." ++ nl
  ++ "  * If the variables contain JSON fields, it will automatically JSON stringify these fields and return a new `variables` object." ++ nl
  ++ "  * If the variables do not conatain any JSON fields, it will return the orignal `variables` object." ++ nl
  ++ "  * If no variables are defined, the function returns `undefined`." ++ nl
  ++ "  * " ++ (if hasVariables
                then "@param variables `" ++ operationVariablesTypes ++ "` - The original variables"
                else "") ++ nl
  ++ "  * " ++ (if hasVariables
                then "@returns `" ++ operationVariablesTypes ++ "` - The transformed variables"
                else "@returns `undefined`") ++ nl
  ++ "  */".

(** The entry that overrides one variable: the lines of its fields are
    converted to a string inside the template, that is, joined by commas. *)
Definition variableEntry (field : string) (variable : VariableType) : string :=
  field ++ ": { "
  ++ JsString.toString
       (transformJsonFields (orEmpty (variableFields variable))
          ("variables." ++ field) stringify)
  ++ " },".

Definition generateInputTransformer (operationName operationVariablesTypes
  operationResultType : string) (hasRequiredVariables : bool)
  (variablesType : option VariablesType) : completion string :=
  let signature := generateQueryVariablesSignature hasRequiredVariables operationVariablesTypes in
  let hasVariables :=
    match variablesType with
    | Some vt => (0 <? List.length (map fst vt))%nat
    | None => false
    end in
  (vt <- toObject variablesType ;;
   let hasJson := existsb (fun kv => hasJsonFields (variableFields (snd kv))) vt in
   let comment := inputComment operationName operationVariablesTypes hasVariables in
   let implementation :=
     if hasVariables then
       "export const " ++ operationName ++ "Input = (" ++ signature ++ ") => "
       ++ (if hasJson then
             "({...variables, "
             ++ JsString.join
                  (map (fun kv => variableEntry (fst kv) (snd kv))
                       (filter (fun kv => hasJsonFields (variableFields (snd kv))) vt))
                  nl
             ++ " }) as " ++ operationVariablesTypes
           else "variables as " ++ operationVariablesTypes)
       ++ ";"
     else "export const " ++ operationName ++ "Input = () => undefined;" in
   Normal (nl ++ comment ++ nl ++ implementation))%js.

(** ** Examples *)

Definition getNodeType : OutputType :=
  mkOutputType "getNode" "Node"
    (Some (Object [("id!", Scalar "ID"); ("payload", Scalar AWSJSON)])).

Example output_example_B :
  generateOutputTransformer "GetNodeQuery" "GetNodeQueryVariables" "GetNodeQuery" true getNodeType =
  Normal (nl ++ outputComment "GetNodeQuery" "GetNodeQuery" getNodeType ++ nl
    ++ "export const GetNodeQueryOutput = ({ getNode }: GetNodeQuery) => getNode && ({...getNode, payload: getNode.payload && JSON.parse(getNode.payload as unknown as string), }) as Node;").
Proof. vm_compute. reflexivity. Qed.

Example input_example :
  generateInputTransformer "CreateNodeMutation" "CreateNodeMutationVariables" "CreateNodeMutation" true
    (Some [("id", mkVariableType None);
           ("input", mkVariableType (Some (Object [("payload", Scalar AWSJSON)])))]) =
  Normal (nl ++ inputComment "CreateNodeMutation" "CreateNodeMutationVariables" true ++ nl
    ++ "export const CreateNodeMutationInput = (variables: CreateNodeMutationVariables) => ({...variables, input: { payload: variables.input.payload && JSON.stringify(variables.input.payload as unknown as Record<string, any>), }, }) as CreateNodeMutationVariables;").
Proof. reflexivity. Qed.

(** ** The output transformer *)

Lemma hasJsonFields_true_Object (fields : option FieldValue) :
  hasJsonFields fields = true -> exists fs, fields = Some (Object fs).
Proof.
  destruct fields as [[s|fs]|]; intros H; [| eauto | discriminate H].
  rewrite hasJsonFields_Scalar in H; discriminate H.
Qed.

Section Output.

Variables operationName operationVariablesTypes operationResultType : string.
Variable hasRequiredVariables : bool.
Variable outputType : OutputType.

(** The text on both branches: where [transformJsonFields] is called the
    fields are an object, so they are [fields || {}]. *)
Lemma generateOutputTransformer_eq :
  generateOutputTransformer operationName operationVariablesTypes operationResultType
    hasRequiredVariables outputType =
  Normal (outputHeader operationName operationResultType outputType
          ++ (if hasJsonFields (fields outputType)
              then fieldName outputType ++ " && ({..." ++ fieldName outputType ++ ", "
                   ++ JsString.join
                        (transformJsonFields (orEmpty (fields outputType))
                           (fieldName outputType) parse) nl
                   ++ " }) as " ++ typeName outputType
              else fieldName outputType ++ " as " ++ typeName outputType)
          ++ ";").
Proof.
  unfold generateOutputTransformer.
  destruct (hasJsonFields (fields outputType)) eqn:H; [| reflexivity].
  apply hasJsonFields_true_Object in H as [fs ->]. reflexivity.
Qed.

(** When [hasJsonFields] answers [false] on the fields of the root
    field, the body of the output transformer is the root field cast to
    its type: no object is built. *)
Theorem generateOutputTransformer_passthrough :
  hasJsonFields (fields outputType) = false ->
  generateOutputTransformer operationName operationVariablesTypes operationResultType
    hasRequiredVariables outputType =
  Normal (outputHeader operationName operationResultType outputType
          ++ fieldName outputType ++ " as "
          ++ typeName outputType ++ ";").
Proof.
  intros H. unfold generateOutputTransformer. rewrite H; cbn [bind].
  now autorewrite with str.
Qed.

(** When the fields of the root field have a JSON leaf, the body
    guards on the root field and builds a new object: the spread of the
    root field followed by the decode lines, joined by newlines, cast to
    the type. *)
Theorem generateOutputTransformer_json (fs : Fields) :
  fields outputType = Some (Object fs) ->
  JsonLeaf (Object fs) ->
  generateOutputTransformer operationName operationVariablesTypes operationResultType
    hasRequiredVariables outputType =
  Normal (outputHeader operationName operationResultType outputType
          ++ fieldName outputType ++ " && ({..."
          ++ fieldName outputType ++ ", "
          ++ JsString.join
               (transformJsonFields (Object fs) (fieldName outputType) parse) nl
          ++ " }) as " ++ typeName outputType ++ ";").
Proof.
  intros E H. apply hasJsonFields_entry_spec in H.
  change (hasJsonFields (Some (Object fs)) = true) in H.
  unfold generateOutputTransformer. rewrite E, H; cbn [bind toObject].
  now autorewrite with str.
Qed.

(** The output transformer never throws: [transformJsonFields] is
    called only after [hasJsonFields] answered [true], which it does on
    objects only. *)
Theorem generateOutputTransformer_total :
  exists text,
    generateOutputTransformer operationName operationVariablesTypes operationResultType
      hasRequiredVariables outputType = Normal text.
Proof.
  eexists. apply generateOutputTransformer_eq.
Qed.

End Output.

Lemma generateOutputTransformer_passthrough_witness :
  generateOutputTransformer "ListQuery" "ListQueryVariables" "ListQuery" false
    (mkOutputType "list" "Page" (Some (Object [("status", Scalar "String")]))) =
  Normal (outputHeader "ListQuery" "ListQuery"
            (mkOutputType "list" "Page" (Some (Object [("status", Scalar "String")])))
          ++ "list as Page;").
Proof.
  apply (generateOutputTransformer_passthrough "ListQuery" "ListQueryVariables"
    "ListQuery" false (mkOutputType "list" "Page" (Some (Object [("status", Scalar "String")])))).
  reflexivity.
Defined.

Lemma generateOutputTransformer_json_witness :
  generateOutputTransformer "GetNodeQuery" "GetNodeQueryVariables" "GetNodeQuery" true getNodeType =
  Normal (outputHeader "GetNodeQuery" "GetNodeQuery" getNodeType
          ++ "getNode && ({...getNode, payload: getNode.payload && JSON.parse(getNode.payload as unknown as string), }) as Node;").
Proof.
  apply (generateOutputTransformer_json "GetNodeQuery" "GetNodeQueryVariables" "GetNodeQuery"
           true getNodeType [("id!", Scalar "ID"); ("payload", Scalar AWSJSON)]).
  - reflexivity.
  - apply (JsonLeaf_child "payload" (Scalar AWSJSON)); [right; left; reflexivity | constructor].
Defined.

(** ** The input transformer *)

Lemma generateQueryVariablesSignature_cases (operationVariablesTypes : string) :
  generateQueryVariablesSignature true operationVariablesTypes
    = "variables: " ++ operationVariablesTypes /\
  generateQueryVariablesSignature false operationVariablesTypes
    = "variables?: " ++ operationVariablesTypes.
Proof. split; reflexivity. Qed.

Section Input.

Variables operationName operationVariablesTypes operationResultType : string.
Variable hasRequiredVariables : bool.

Local Notation "'generate'" :=
  (generateInputTransformer operationName operationVariablesTypes operationResultType
     hasRequiredVariables).

(** With an empty variables mapping the input transformer is the
    function of no argument that returns [undefined], whether variables
    are required or not. *)
Theorem generateInputTransformer_no_variables :
  generate (Some []) =
  Normal (nl ++ inputComment operationName operationVariablesTypes false ++ nl
          ++ "export const " ++ operationName ++ "Input = () => undefined;").
Proof. reflexivity. Qed.

(** C20. The input transformer returns a text exactly when the variables
    mapping is defined: on [undefined] it throws a [TypeError], the test
    that precedes [Object.keys] notwithstanding. *)
Theorem generateInputTransformer_normal_iff (variablesType : option VariablesType) :
  is_normal (generate variablesType) = true <-> variablesType <> None.
Proof.
  destruct variablesType as [vt|]; simpl; split; intros H;
    try reflexivity; try discriminate; congruence.
Qed.

(** When there are variables and none of them has a JSON leaf, the
    body of the input transformer is the parameter cast to its type. *)
Theorem generateInputTransformer_passthrough (vt : VariablesType) :
  vt <> [] ->
  Forall (fun kv => hasJsonFields (variableFields (snd kv)) = false) vt ->
  generate (Some vt) =
  Normal (nl ++ inputComment operationName operationVariablesTypes true ++ nl
          ++ "export const " ++ operationName ++ "Input = ("
          ++ generateQueryVariablesSignature hasRequiredVariables operationVariablesTypes
          ++ ") => variables as " ++ operationVariablesTypes ++ ";").
Proof.
  intros Hne H. apply existsb_false_iff in H.
  unfold generateInputTransformer; cbn [bind toObject]. rewrite H.
  destruct vt as [|kv vt]; [congruence |]. cbn [map List.length Nat.ltb Nat.leb].
  now autorewrite with str.
Qed.

(** The entry of a variable whose fields emit two lines or more holds the
    first two lines with a comma between them. *)
Lemma variableEntry_comma (field : string) (variable : VariableType)
  (l1 l2 : string) (rest : list string) :
  transformJsonFields (orEmpty (variableFields variable))
    ("variables." ++ field) stringify = l1 :: l2 :: rest ->
  JsString.includes (variableEntry field variable) (l1 ++ "," ++ l2) = true.
Proof.
  intros E. unfold variableEntry, JsString.toString. rewrite E.
  apply JsString.includes_append_r, JsString.includes_append_r,
    JsString.includes_append_l, JsString.startsWith_includes,
    JsString.join_two_startsWith.
Qed.

(** C5. When the fields of a variable with a JSON leaf emit two lines or
    more, the emitted text holds the first line, a comma and the second
    line: the lines, each of which ends an entry or opens an object, are
    joined by commas and not by newlines. *)
Theorem generateInputTransformer_comma (vt : VariablesType) (field : string)
  (variable : VariableType) (l1 l2 : string) (rest : list string) :
  In (field, variable) vt ->
  hasJsonFields (variableFields variable) = true ->
  transformJsonFields (orEmpty (variableFields variable))
    ("variables." ++ field) stringify = l1 :: l2 :: rest ->
  exists text,
    generate (Some vt) = Normal text /\
    JsString.includes text (l1 ++ "," ++ l2) = true.
Proof.
  intros Hin Hjson Hlines. eexists; split; [reflexivity |].
  assert (Hex : existsb (fun kv => hasJsonFields (variableFields (snd kv))) vt = true)
    by (apply existsb_exists; exists (field, variable); auto).
  rewrite Hex. destruct vt as [|kv0 vt0]; [destruct Hin |].
  cbn [map List.length Nat.ltb Nat.leb].
  eapply JsString.includes_trans; [| eapply variableEntry_comma, Hlines].
  includes_search ltac:(apply JsString.In_join_includes;
    apply (in_map (fun kv => variableEntry (fst kv) (snd kv)) _ (field, variable));
    apply filter_In; auto).
Qed.

End Input.

Definition nestedInput : VariablesType :=
  [("input", mkVariableType (Some (Object [("data", Object [("payload", Scalar AWSJSON)])])))].

Lemma generateInputTransformer_passthrough_witness :
  generateInputTransformer "ListQuery" "ListQueryVariables" "ListQuery" false
    (Some [("limit", mkVariableType None)]) =
  Normal (nl ++ inputComment "ListQuery" "ListQueryVariables" true ++ nl
          ++ "export const ListQueryInput = (variables?: ListQueryVariables) => variables as ListQueryVariables;").
Proof.
  apply (generateInputTransformer_passthrough "ListQuery" "ListQueryVariables" "ListQuery"
           false [("limit", mkVariableType None)]).
  - discriminate.
  - repeat constructor.
Defined.

Lemma generateInputTransformer_normal_iff_witness :
  is_normal (generateInputTransformer "Q" "V" "R" true (Some [])) = true.
Proof.
  apply (generateInputTransformer_normal_iff "Q" "V" "R" true (Some [])). discriminate.
Defined.

Lemma generateInputTransformer_comma_witness :
  exists text,
    generateInputTransformer "SaveMutation" "SaveMutationVariables" "SaveMutation" true
      (Some nestedInput) = Normal text /\
    JsString.includes text "data: {,...variables.input.data," = true.
Proof.
  apply (generateInputTransformer_comma "SaveMutation" "SaveMutationVariables" "SaveMutation"
           true nestedInput "input"
           (mkVariableType (Some (Object [("data", Object [("payload", Scalar AWSJSON)])])))
           "data: {" "...variables.input.data,"
           ["payload: variables.input.data?.payload && JSON.stringify(variables.input.data?.payload as unknown as Record<string, any>),"; "},"]).
  - left; reflexivity.
  - reflexivity.
  - reflexivity.
Defined.

#[export] Hint Resolve hasJsonFields_true_Object : jsgen.
