(* ===== verification/Graph.v ===== *)
(** * Graph: the detector and the builder on object graphs

    The value the generators receive is a JavaScript object: its children
    are references, so what they walk is a graph in the heap, which may
    share objects and may have cycles.  The tree of [Shape] is what such a
    graph unfolds to when it has no cycle.  This file models the heap, the
    two functions of [src/dist/transformer-generator.js] on it with the
    call stack they consume, and proves: on a graph that unfolds to a
    tree, a stack of the depth of the tree is enough and what the
    functions return is what [Detector] and [Transform] define on the
    tree; on a graph with a cycle below the value, the recursion exceeds
    every stack and the functions throw a [RangeError].

    The bound [stack] counts the nested calls of the function in
    progress: a call needs one, each level of objects below one more.  An
    engine spends a fixed number of frames for each (the function, [map]
    and its callback). *)

From Stdlib Require Import String Ascii List ZArith Lia Bool Relations.
From S2P Require Import Prelude JsString Shape Detector Transform.
Import ListNotations.
Local Open Scope string_scope.

(** ** The heap *)

(** The address of an object. *)
Definition loc : Type := nat.

(** A value of a field: a string, or a reference to an object. *)
Inductive Ref : Type :=
| RString (s : string)
| RObject (l : loc).

(** The heap: the entries of the object at every address, in the order
    of [Object.entries]. *)
Definition Heap : Type := loc -> list (string * Ref).

(** The error of a recursion deeper than the stack. *)
Definition stackOverflow : JsError := RangeError "Maximum call stack size exceeded".

(** The truthiness of a value. *)
Definition truthyRef (v : Ref) : bool :=
  match v with
  | RObject _ => true
  | RString s => negb (String.eqb s "")
  end.

(** The entries of a string: its characters, keyed by their index. *)
Definition charRefs (s : string) : list (string * Ref) :=
  map (fun kv => (fst kv, RString (match snd kv with Scalar c => c | Object _ => "" end)))
      (charEntries 0 s).

(** [Object.entries(v)] *)
Definition entriesOn (h : Heap) (v : Ref) : list (string * Ref) :=
  match v with
  | RObject l => h l
  | RString s => charRefs s
  end.

(** ** The source's functions on the heap *)

(** [hasJsonFields(fields)], with [stack] nested calls left. *)
Fixpoint hasJsonFieldsOn (stack : nat) (h : Heap) (fields : option Ref) : completion bool :=
  match stack with
  | 0 => Throw stackOverflow
  | S stack' =>
      match fields with
      | None => Normal false
      | Some f =>
          if negb (truthyRef f) then Normal false
          else
            (bs <- mapM (fun kv =>
                           match snd kv with
                           | RObject l => hasJsonFieldsOn stack' h (Some (RObject l))
                           | RString s => Normal (String.eqb s AWSJSON)
                           end) (entriesOn h f) ;;
             Normal (0 <? List.length (filter (fun b : bool => b) bs))%nat)%js
      end
  end.

(** [transformJsonFields(fields, path, transformer)], with [stack] nested
    calls left: the lines pushed for each entry, in order. *)
Fixpoint transformJsonFieldsOn (stack : nat) (h : Heap) (fields : Ref) (path : string)
  (transformer : Transformer) : completion (list string) :=
  match stack with
  | 0 => Throw stackOverflow
  | S stack' =>
      (pushed <- mapM (fun kv =>
         let field := fst kv in
         let fieldName := fieldNameOf field in
         let fieldNameSingular := fieldNameSingular fieldName in
         let fieldPath := path ++ "." ++ fieldName in
         match snd kv with
         | RObject l =>
             if isArray field then
               inner <- transformJsonFieldsOn stack' h (RObject l)
                          (fieldNameSingular ++ "?") transformer ;;
               Normal ([(fieldName ++ ": " ++ fieldPath ++ "?.map((" ++ fieldNameSingular
                           ++ ") => ({")%string;
                        ("..." ++ fieldNameSingular ++ ",")%string] ++ inner ++ ["})),"])%list
             else
               inner <- transformJsonFieldsOn stack' h (RObject l)
                          (fieldPath ++ "?") transformer ;;
               Normal ([(fieldName ++ ": {")%string; ("..." ++ fieldPath ++ ",")%string]
                       ++ inner ++ ["},"])%list
         | RString s =>
             Normal (if String.eqb s AWSJSON
                     then [jsonLine transformer fieldName fieldPath] else [])
         end) (entriesOn h fields) ;;
       Normal (concat pushed))%js
  end.

(** ** The tree a graph unfolds to *)

(** The tree below a value, with [stack] levels of objects at most. *)
Fixpoint unfoldOn (stack : nat) (h : Heap) (v : Ref) : completion FieldValue :=
  match v with
  | RString s => Normal (Scalar s)
  | RObject l =>
      match stack with
      | 0 => Throw stackOverflow
      | S stack' =>
          (fs <- mapM (fun kv => c <- unfoldOn stack' h (snd kv) ;; Normal (fst kv, c)) (h l) ;;
           Normal (Object fs))%js
      end
  end.

(** [unfolds h v t]: the graph below [v] is the tree [t]. *)
#[warnings="-register-all"]
Inductive unfolds (h : Heap) : Ref -> FieldValue -> Prop :=
| unfolds_string s : unfolds h (RString s) (Scalar s)
| unfolds_object l fs :
    Forall2 (fun kr kv => fst kr = fst kv /\ unfolds h (snd kr) (snd kv)) (h l) fs ->
    unfolds h (RObject l) (Object fs).

(** An object refers to another. *)
Definition edge (h : Heap) (l l' : loc) : Prop := exists key, In (key, RObject l') (h l).

(** [deep h n v]: a chain of [n] references starts at the object [v]. *)
Inductive deep (h : Heap) : nat -> Ref -> Prop :=
| deep_O l : deep h 0 (RObject l)
| deep_S n l l' : edge h l l' -> deep h n (RObject l') -> deep h (S n) (RObject l).

(** A cycle is reachable from the object [l]. *)
Definition cyclic (h : Heap) (l : loc) : Prop :=
  exists l', clos_refl_trans loc (edge h) l l' /\ clos_trans loc (edge h) l' l'.

(** The fields of an output type or of a variable, which may be
    [undefined], against the tree they unfold to. *)
Definition unfoldsFields (h : Heap) (fields : option Ref) (tree : option FieldValue) : Prop :=
  match fields, tree with
  | Some v, Some t => unfolds h v t
  | None, None => True
  | _, _ => False
  end.

(** The stack the two functions need on the fields: one call, and one
    more for every level of objects below the first. *)
Definition stackFor (tree : option FieldValue) : nat :=
  match tree with
  | Some t => Nat.max 1 (depth t)
  | None => 1
  end.

(** ** The unfolding *)

Lemma depth_child (fs : Fields) (kv : string * FieldValue) (n : nat) :
  depth (Object fs) <= S n -> In kv fs -> depth (snd kv) <= n.
Proof.
  cbn [depth]. intros H Hin. apply le_S_n in H.
  apply list_max_le in H. rewrite Forall_forall in H.
  apply H, in_map_iff. eauto.
Qed.

(** The only exception of the unfolding is the overflow of the stack. *)
Lemma unfoldOn_error (h : Heap) (stack : nat) :
  forall v e, unfoldOn stack h v = Throw e -> e = stackOverflow.
Proof.
  induction stack as [|stack IH]; intros [s|l] e; cbn [unfoldOn]; try discriminate.
  - now intros E; injection E.
  - destruct (mapM _ (h l)) as [fs|e'] eqn:Hm; simpl; [discriminate |].
    intros E; injection E as <-. revert Hm. apply mapM_error, Forall_forall. intros kv _ e''.
    destruct (unfoldOn stack h (snd kv)) eqn:Hc; simpl; [discriminate |].
    intros E; injection E as <-. now apply IH in Hc.
Qed.

Lemma unfoldOn_object (h : Heap) (stack : nat) (l : loc) (t : FieldValue) :
  unfoldOn stack h (RObject l) = Normal t -> exists fs, t = Object fs.
Proof.
  destruct stack; cbn [unfoldOn]; [discriminate |].
  destruct (mapM _ (h l)) as [fs|]; simpl; [| discriminate].
  intros E; injection E as <-. eauto.
Qed.

Lemma unfoldOn_string (h : Heap) (stack : nat) (s : string) :
  unfoldOn stack h (RString s) = Normal (Scalar s).
Proof. now destruct stack. Qed.

(** A graph that unfolds to a tree is unfolded by a stack of the depth of
    the tree. *)
Lemma unfoldOn_complete (h : Heap) (t : FieldValue) :
  forall v stack, unfolds h v t -> depth t <= stack -> unfoldOn stack h v = Normal t.
Proof.
  induction t as [ty|fs IH] using FieldValue_ind; intros v stack Hu Hd;
    inversion Hu as [|l fs' Hall]; subst; [apply unfoldOn_string |].
  destruct stack as [|stack]; [inversion Hd |]. cbn [unfoldOn].
  replace (mapM _ (h l)) with (Normal (A:=list (string * FieldValue)) fs); [reflexivity |].
  symmetry. apply mapM_Forall2.
  assert (Hdc : Forall (fun kv => depth (snd kv) <= stack) fs).
  { apply Forall_forall. intros kv. now apply depth_child. }
  clear Hd Hu. induction Hall as [|kr kv rs fs [Hk Hc] _ IHall]; constructor;
    apply Forall_cons_iff in IH as [IHkv IHfs], Hdc as [Hdkv Hdfs].
  - rewrite (IHkv _ _ Hc Hdkv). simpl. destruct kr, kv; simpl in *; congruence.
  - now apply IHall.
Qed.

(** What the unfolding returns is the tree of the graph, and it is not
    deeper than the stack. *)
Lemma unfoldOn_sound (h : Heap) (stack : nat) :
  forall v t, unfoldOn stack h v = Normal t -> unfolds h v t /\ depth t <= stack.
Proof.
  induction stack as [|stack IH]; intros [s|l] t; cbn [unfoldOn]; try discriminate;
    try (intros E; injection E as <-; split; [constructor | cbn; lia]).
  destruct (mapM _ (h l)) as [fs|] eqn:Hm; simpl; [| discriminate].
  intros E; injection E as <-. apply mapM_Forall2 in Hm.
  assert (H : Forall2 (fun kr kv => fst kr = fst kv /\ unfolds h (snd kr) (snd kv)) (h l) fs /\
              Forall (fun kv => depth (snd kv) <= stack) fs).
  { induction Hm as [|kr kv rs fs' Hkv _ [IH1 IH2]]; [split; constructor |].
    destruct (unfoldOn stack h (snd kr)) as [c|] eqn:Hc; simpl in Hkv; [| discriminate].
    injection Hkv as <-. destruct (IH _ _ Hc). split; constructor; auto. }
  destruct H as [H1 H2]. split; [now constructor |].
  cbn [depth]. apply le_n_S, list_max_le, Forall_map. exact H2.
Qed.

Lemma deep_edge (h : Heap) (n : nat) (l : loc) :
  deep h (S n) (RObject l) -> exists key l', In (key, RObject l') (h l) /\ deep h n (RObject l').
Proof. intros H; inversion H as [|? ? l' [key Hin] Hd]; subst; eauto. Qed.

(** A chain of references longer than the stack overflows it. *)
Lemma unfoldOn_deep (h : Heap) (stack : nat) :
  forall n v, deep h n v -> stack <= n -> unfoldOn stack h v = Throw stackOverflow.
Proof.
  induction stack as [|stack IH]; intros n v Hd Hn.
  - inversion Hd; reflexivity.
  - destruct n as [|n]; [inversion Hn |]. inversion Hd as [|? l l' _ _]; subst.
    apply deep_edge in Hd as (key & l'' & Hin & Hd). cbn [unfoldOn].
    rewrite (mapM_throws _ _ stackOverflow); [reflexivity | |].
    + apply Forall_forall. intros kv _ e.
      destruct (unfoldOn stack h (snd kv)) eqn:Hc; simpl; [discriminate |].
      intros E; injection E as <-. now apply unfoldOn_error in Hc.
    + apply Exists_exists. exists (key, RObject l''). split; [exact Hin |].
      cbn [snd]. rewrite (IH n _ Hd) by lia. reflexivity.
Qed.

(** ** The functions are the unfolding followed by the functions on trees *)

Lemma hasJsonFieldsOn_string (h : Heap) (stack : nat) (s : string) :
  hasJsonFieldsOn (S stack) h (Some (RString s)) = Normal (hasJsonFields (Some (Scalar s))).
Proof.
  rewrite hasJsonFields_Scalar. cbn [hasJsonFieldsOn].
  destruct (negb (truthyRef (RString s))); [reflexivity |]. cbn [entriesOn].
  unfold charRefs. generalize 0 at 1. induction s as [|c s IH]; intros i; [reflexivity |].
  cbn [charEntries map mapM snd bind].
  replace (String.eqb (String c "") AWSJSON) with false by (now destruct (Ascii.eqb c "A") eqn:E; cbn; rewrite ?E).
  specialize (IH (S i)). destruct (mapM _ _) as [bs|]; simpl in *; [| discriminate IH].
  exact IH.
Qed.

Lemma hasJsonFieldsOn_unfold (h : Heap) (stack : nat) :
  forall l,
    hasJsonFieldsOn stack h (Some (RObject l)) =
    (t <- unfoldOn stack h (RObject l) ;; Normal (hasJsonFields (Some t)))%js.
Proof.
  induction stack as [|stack IH]; intros l; [reflexivity |].
  cbn [hasJsonFieldsOn unfoldOn truthyRef negb entriesOn].
  rewrite (mapM_ext_Forall _ (fun kv =>
    bind (unfoldOn stack h (snd kv)) (fun c => Normal (hasJsonFields_entry c)))).
  - rewrite (mapM_fmap (fun kv => unfoldOn stack h (snd kv)) (fun _ c => hasJsonFields_entry c)).
    destruct (mapM _ (h l)) as [fs|]; reflexivity.
  - apply Forall_forall. intros [key [s|l']] _; cbn [snd fst].
    + now rewrite unfoldOn_string.
    + rewrite IH. destruct (unfoldOn stack h (RObject l')) as [t|] eqn:Hc; [| reflexivity].
      apply unfoldOn_object in Hc as [fs ->]. reflexivity.
Qed.

Lemma transformJsonFieldsOn_string (h : Heap) (stack : nat) (s path : string)
  (t : Transformer) :
  transformJsonFieldsOn (S stack) h (RString s) path t =
  Normal (transformJsonFields (Scalar s) path t).
Proof.
  rewrite transformJsonFields_Scalar. cbn [transformJsonFieldsOn entriesOn].
  unfold charRefs. generalize 0 at 1. induction s as [|c s IH]; intros i; [reflexivity |].
  cbn [charEntries map mapM snd fst bind].
  replace (String.eqb (String c "") AWSJSON) with false by (now destruct (Ascii.eqb c "A") eqn:E; cbn; rewrite ?E).
  specialize (IH (S i)). destruct (mapM _ _) as [ls|]; simpl in *; [| discriminate IH].
  now injection IH as ->.
Qed.

Lemma transformJsonFieldsOn_unfold (h : Heap) (t : Transformer) (stack : nat) :
  forall l path,
    transformJsonFieldsOn stack h (RObject l) path t =
    (tree <- unfoldOn stack h (RObject l) ;; Normal (transformJsonFields tree path t))%js.
Proof.
  induction stack as [|stack IH]; intros l path; [reflexivity |].
  cbn [transformJsonFieldsOn unfoldOn entriesOn].
  rewrite (mapM_ext_Forall _ (fun kv =>
    bind (unfoldOn stack h (snd kv)) (fun c => Normal (transformField t path (fst kv) c)))).
  - rewrite (mapM_fmap (fun kv => unfoldOn stack h (snd kv)) (transformField t path)).
    destruct (mapM _ (h l)) as [fs|]; simpl; [| reflexivity].
    now rewrite transformJsonFields_Object, flat_map_concat_map.
  - apply Forall_forall. intros [key [s|l']] _; cbn [snd fst].
    + now rewrite unfoldOn_string.
    + destruct (isArray key) eqn:Ha; rewrite IH;
        (destruct (unfoldOn stack h (RObject l')) as [c|] eqn:Hc; [| reflexivity]);
        apply unfoldOn_object in Hc as [fs ->]; cbn [bind];
        [rewrite (transformField_array _ _ _ _ Ha) | rewrite (transformField_object _ _ _ _ Ha)];
        reflexivity.
Qed.

(** The two functions follow the unfolding: where it returns a tree,
    they return what [Detector] and [Transform] define on that tree. *)
Lemma hasJsonFieldsOn_unfolded (h : Heap) (v : Ref) (t : FieldValue) (stack : nat) :
  unfoldOn stack h v = Normal t -> 1 <= stack ->
  hasJsonFieldsOn stack h (Some v) = Normal (hasJsonFields (Some t)).
Proof.
  intros Hu Hs. destruct v as [s|l].
  - rewrite unfoldOn_string in Hu. injection Hu as <-.
    destruct stack; [lia | apply hasJsonFieldsOn_string].
  - now rewrite hasJsonFieldsOn_unfold, Hu.
Qed.

Lemma transformJsonFieldsOn_unfolded (h : Heap) (v : Ref) (t : FieldValue)
  (path : string) (transformer : Transformer) (stack : nat) :
  unfoldOn stack h v = Normal t -> 1 <= stack ->
  transformJsonFieldsOn stack h v path transformer =
  Normal (transformJsonFields t path transformer).
Proof.
  intros Hu Hs. destruct v as [s|l].
  - rewrite unfoldOn_string in Hu. injection Hu as <-.
    destruct stack; [lia | apply transformJsonFieldsOn_string].
  - now rewrite transformJsonFieldsOn_unfold, Hu.
Qed.

(** The detector on fields that may be [undefined]. *)
Lemma hasJsonFieldsOn_fields (h : Heap) (fields : option Ref) (tree : option FieldValue)
  (stack : nat) :
  unfoldsFields h fields tree -> stackFor tree <= stack ->
  hasJsonFieldsOn stack h fields = Normal (hasJsonFields tree).
Proof.
  destruct fields as [v|], tree as [t|]; cbn [unfoldsFields stackFor];
    intros Hu Hd; try contradiction.
  - apply hasJsonFieldsOn_unfolded; [apply (unfoldOn_complete h t v stack Hu) |]; lia.
  - destruct stack; [lia | reflexivity].
Qed.

(** The only exception of the two functions is the overflow of the
    stack. *)
Lemma hasJsonFieldsOn_error (h : Heap) (stack : nat) (fields : option Ref) (e : JsError) :
  hasJsonFieldsOn stack h fields = Throw e -> e = stackOverflow.
Proof.
  destruct fields as [[s|l]|].
  - destruct stack; [now intros E; injection E | now rewrite hasJsonFieldsOn_string].
  - rewrite hasJsonFieldsOn_unfold.
    destruct (unfoldOn stack h (RObject l)) eqn:Hc; cbn [bind]; [discriminate |].
    intros E; injection E as <-. now apply unfoldOn_error in Hc.
  - destruct stack; [now intros E; injection E | discriminate].
Qed.

Lemma transformJsonFieldsOn_error (h : Heap) (stack : nat) (v : Ref) (path : string)
  (transformer : Transformer) (e : JsError) :
  transformJsonFieldsOn stack h v path transformer = Throw e -> e = stackOverflow.
Proof.
  destruct v as [s|l].
  - destruct stack; [now intros E; injection E | now rewrite transformJsonFieldsOn_string].
  - rewrite transformJsonFieldsOn_unfold.
    destruct (unfoldOn stack h (RObject l)) eqn:Hc; cbn [bind]; [discriminate |].
    intros E; injection E as <-. now apply unfoldOn_error in Hc.
Qed.

(** ** Stacks that are too small, and cycles *)

(** The unfolding returns one tree at most, whatever the stack. *)
Lemma unfolds_functional (h : Heap) (v : Ref) (t t' : FieldValue) :
  unfolds h v t -> unfolds h v t' -> t = t'.
Proof.
  intros H H'.
  apply (unfoldOn_complete h t v (Nat.max (depth t) (depth t'))) in H; [| lia].
  apply (unfoldOn_complete h t' v (Nat.max (depth t) (depth t'))) in H'; [| lia].
  congruence.
Qed.

(** The stack the unfolding needs is the depth of the tree, exactly. *)
Lemma unfoldOn_throws_iff (h : Heap) (v : Ref) (t : FieldValue) (stack : nat) :
  unfolds h v t -> unfoldOn stack h v = Throw stackOverflow <-> stack < depth t.
Proof.
  intros Hu. split; intros H.
  - destruct (Nat.lt_ge_cases stack (depth t)) as [Hlt|Hge]; [exact Hlt |].
    rewrite (unfoldOn_complete h t v stack Hu Hge) in H. discriminate H.
  - destruct (unfoldOn stack h v) as [t'|e] eqn:Hc.
    + apply unfoldOn_sound in Hc as [Hu' Hd]. rewrite (unfolds_functional _ _ _ _ Hu Hu') in H. lia.
    + now rewrite (unfoldOn_error _ _ _ _ Hc).
Qed.

(** On a cycle, chains of references of every length start. *)
Lemma deep_cycle (h : Heap) (l' : loc) :
  clos_trans loc (edge h) l' l' ->
  forall n x, clos_trans loc (edge h) x l' -> deep h n (RObject x).
Proof.
  intros Hc n. induction n as [|n IH]; intros x Hx; [constructor |].
  apply clos_trans_t1n in Hx. inversion Hx as [y Hxy | y z Hxy Hyz]; subst.
  - econstructor; [exact Hxy | now apply IH].
  - econstructor; [exact Hxy | apply IH, clos_t1n_trans, Hyz].
Qed.

Lemma deep_reachable (h : Heap) (l l' : loc) :
  clos_refl_trans loc (edge h) l l' ->
  (forall n, deep h n (RObject l')) -> forall n, deep h n (RObject l).
Proof.
  induction 1 as [x y Hxy | x | x y z _ IHxy _ IHyz]; intros Hd; auto.
  intros [|n]; [constructor | econstructor; eauto].
Qed.

Lemma cyclic_deep (h : Heap) (l : loc) : cyclic h l -> forall n, deep h n (RObject l).
Proof.
  intros (l' & Hr & Hc). apply (deep_reachable h l l' Hr).
  intros n. now apply (deep_cycle h l' Hc).
Qed.

(** A graph that unfolds to a tree has no cycle. *)
Lemma unfolds_acyclic (h : Heap) (l : loc) (t : FieldValue) :
  unfolds h (RObject l) t -> ~ cyclic h l.
Proof.
  intros Hu Hc. apply cyclic_deep with (n := depth t) in Hc.
  apply unfoldOn_deep with (stack := depth t) in Hc; [| lia].
  rewrite (unfoldOn_complete h t _ _ Hu (le_n _)) in Hc. discriminate Hc.
Qed.

Lemma hasJsonFieldsOn_cyclic (h : Heap) (l : loc) (stack : nat) :
  cyclic h l -> hasJsonFieldsOn stack h (Some (RObject l)) = Throw stackOverflow.
Proof.
  intros Hc. rewrite hasJsonFieldsOn_unfold.
  now rewrite (unfoldOn_deep h stack stack _ (cyclic_deep h l Hc stack)).
Qed.

Lemma transformJsonFieldsOn_cyclic (h : Heap) (l : loc) (path : string)
  (transformer : Transformer) (stack : nat) :
  cyclic h l -> transformJsonFieldsOn stack h (RObject l) path transformer = Throw stackOverflow.
Proof.
  intros Hc. rewrite transformJsonFieldsOn_unfold.
  now rewrite (unfoldOn_deep h stack stack _ (cyclic_deep h l Hc stack)).
Qed.

(** ** Examples *)

(** A type that refers to itself: a node with a JSON field and its
    parent, a node. *)
Definition nodeCycle : Heap := fun l =>
  match l with
  | 0 => [("id!", RString "ID"); ("meta", RString AWSJSON); ("parent", RObject 0)]
  | _ => []
  end.

(** Two fields that hold the same object, and a list below them. *)
Definition sharedHeap : Heap := fun l =>
  match l with
  | 0 => [("created", RObject 1); ("updated", RObject 1)]
  | 1 => [("by", RString "String"); ("tags[]", RObject 2)]
  | 2 => [("value", RString AWSJSON)]
  | _ => []
  end.

Definition sharedTree : FieldValue :=
  let stamp := Object [("by", Scalar "String"); ("tags[]", Object [("value", Scalar AWSJSON)])] in
  Object [("created", stamp); ("updated", stamp)].

Example unfoldOn_shared : unfoldOn 3 sharedHeap (RObject 0) = Normal sharedTree.
Proof. reflexivity. Qed.

Example unfoldOn_shared_small : unfoldOn 2 sharedHeap (RObject 0) = Throw stackOverflow.
Proof. reflexivity. Qed.

Example hasJsonFieldsOn_nodeCycle :
  hasJsonFieldsOn 64 nodeCycle (Some (RObject 0)) = Throw stackOverflow.
Proof. vm_compute. reflexivity. Qed.

Lemma sharedHeap_unfolds : unfolds sharedHeap (RObject 0) sharedTree.
Proof. apply (unfoldOn_sound sharedHeap 3). reflexivity. Qed.

Lemma nodeCycle_cyclic : cyclic nodeCycle 0.
Proof.
  exists 0. split; [apply rt_refl | apply t_step]. exists "parent". simpl. auto.
Qed.

(** ** Termination, the stack needed and the error on a cycle *)

(** C13. Termination of the detector on object graphs: when the graph
    below the value unfolds to a tree, [hasJsonFields] returns with a
    stack of the depth of the tree (of one call for a string), and what
    it returns is the value of the detector on the tree. *)
Theorem hasJsonFieldsOn_terminates (h : Heap) (v : Ref) (t : FieldValue) (stack : nat) :
  unfolds h v t -> Nat.max 1 (depth t) <= stack ->
  hasJsonFieldsOn stack h (Some v) = Normal (hasJsonFields (Some t)).
Proof.
  intros Hu Hd.
  apply hasJsonFieldsOn_unfolded; [apply (unfoldOn_complete h t v stack Hu) |]; lia.
Qed.

Lemma hasJsonFieldsOn_terminates_witness :
  hasJsonFieldsOn 3 sharedHeap (Some (RObject 0)) = Normal (hasJsonFields (Some sharedTree)).
Proof.
  apply (hasJsonFieldsOn_terminates sharedHeap (RObject 0) sharedTree 3 sharedHeap_unfolds).
  vm_compute. repeat constructor.
Defined.

(** C14. Termination of the builder on object graphs: when the graph
    below the value unfolds to a tree, [transformJsonFields] returns with
    a stack of the depth of the tree (of one call for a string), and the
    lines it returns are the lines of the builder on the tree. *)
Theorem transformJsonFieldsOn_terminates (h : Heap) (v : Ref) (t : FieldValue)
  (path : string) (transformer : Transformer) (stack : nat) :
  unfolds h v t -> Nat.max 1 (depth t) <= stack ->
  transformJsonFieldsOn stack h v path transformer =
  Normal (transformJsonFields t path transformer).
Proof.
  intros Hu Hd.
  apply transformJsonFieldsOn_unfolded; [apply (unfoldOn_complete h t v stack Hu) |]; lia.
Qed.

Lemma transformJsonFieldsOn_terminates_witness :
  transformJsonFieldsOn 3 sharedHeap (RObject 0) "data" parse =
  Normal (transformJsonFields sharedTree "data" parse).
Proof.
  apply (transformJsonFieldsOn_terminates sharedHeap (RObject 0) sharedTree "data" parse 3
           sharedHeap_unfolds).
  vm_compute. repeat constructor.
Defined.

(** C27. The recursion depth of the detector is the nesting depth of the
    tree: on an object whose graph unfolds to the tree [t], the detector
    overflows the stack exactly when the stack is smaller than the depth
    of [t]. *)
Theorem hasJsonFieldsOn_stack_bound (h : Heap) (l : loc) (t : FieldValue) (stack : nat) :
  unfolds h (RObject l) t ->
  hasJsonFieldsOn stack h (Some (RObject l)) = Throw stackOverflow <-> stack < depth t.
Proof.
  intros Hu. rewrite <- (unfoldOn_throws_iff h _ t stack Hu), hasJsonFieldsOn_unfold.
  destruct (unfoldOn stack h (RObject l)) as [t'|e]; cbn [bind];
    split; intros E; try discriminate E; now injection E as ->.
Qed.

Lemma hasJsonFieldsOn_stack_bound_witness :
  hasJsonFieldsOn 2 sharedHeap (Some (RObject 0)) = Throw stackOverflow <-> 2 < depth sharedTree.
Proof. exact (hasJsonFieldsOn_stack_bound sharedHeap 0 sharedTree 2 sharedHeap_unfolds). Defined.

(** C15. The two functions on a graph with a cycle: when a cycle is
    reachable from the object, [hasJsonFields] and [transformJsonFields]
    exceed every stack and throw a [RangeError], also when a JSON field
    comes before the cycle, since every entry is visited before the
    results are counted; no answer and no line is returned. *)
Theorem cyclic_overflow (h : Heap) (l : loc) (path : string) (transformer : Transformer)
  (stack : nat) :
  cyclic h l ->
  hasJsonFieldsOn stack h (Some (RObject l)) = Throw stackOverflow /\
  transformJsonFieldsOn stack h (RObject l) path transformer = Throw stackOverflow.
Proof.
  intros Hc. split; [now apply hasJsonFieldsOn_cyclic | now apply transformJsonFieldsOn_cyclic].
Qed.

Lemma cyclic_overflow_witness :
  hasJsonFieldsOn 1000 nodeCycle (Some (RObject 0)) = Throw stackOverflow /\
  transformJsonFieldsOn 1000 nodeCycle (RObject 0) "data" parse = Throw stackOverflow.
Proof. exact (cyclic_overflow nodeCycle 0 "data" parse 1000 nodeCycle_cyclic). Defined.
