(* ===== verification/GraphEmitters.v ===== *)
(** * GraphEmitters: the two emitters on object graphs

    [generateOutputTransformer] and [generateInputTransformer] of
    [src/dist/transformer-generator.js] with the fields of the output
    type and of the variables as references into a heap, calling the
    functions of [Graph]: every call of [hasJsonFields] and of
    [transformJsonFields] starts with the stack the emitter has left,
    [some] stops at the first variable with a JSON field and [filter]
    visits every variable.  On graphs that unfold to trees the emitters
    return the texts of [Emitters]; a cycle below the output type or
    below a variable makes them throw a [RangeError]. *)

From Stdlib Require Import String Ascii List ZArith Lia Bool Relations.
From S2P Require Import Prelude JsString Shape Detector Transform Emitters Graph.
Import ListNotations.
Local Open Scope string_scope.

(** ** The source's definitions *)

(** The variables of an operation, by name, with the fields of each. *)
Definition VariablesRefs : Type := list (string * option Ref).

(** [transformJsonFields(fields || {}, path, transformer)]: [{}] is a new
    object without entries, on which the call returns no line. *)
Definition transformJsonFieldsOrEmptyOn (stack : nat) (h : Heap) (fields : option Ref)
  (path : string) (transformer : Transformer) : completion (list string) :=
  match fields with
  | Some f =>
      if truthyRef f then transformJsonFieldsOn stack h f path transformer
      else match stack with 0 => Throw stackOverflow | S _ => Normal [] end
  | None => match stack with 0 => Throw stackOverflow | S _ => Normal [] end
  end.

Definition generateOutputTransformerOn (stack : nat) (h : Heap)
  (operationName operationVariablesTypes operationResultType : string)
  (hasRequiredVariables : bool) (fieldName typeName : string) (fields : option Ref)
  : completion string :=
  let outputType := mkOutputType fieldName typeName None in
  (hasJson <- hasJsonFieldsOn stack h fields ;;
   body <- (if hasJson : bool
            then (f <- toObject fields ;;
                  lines <- transformJsonFieldsOn stack h f fieldName parse ;;
                  Normal (fieldName ++ " && ({..." ++ fieldName ++ ", "
                          ++ JsString.join lines nl ++ " }) as " ++ typeName))
            else Normal (fieldName ++ " as " ++ typeName)) ;;
   Normal (outputHeader operationName operationResultType outputType ++ body ++ ";"))%js.

(** The entry that overrides one variable. *)
Definition variableEntryOn (stack : nat) (h : Heap) (kv : string * option Ref)
  : completion string :=
  (lines <- transformJsonFieldsOrEmptyOn stack h (snd kv) ("variables." ++ fst kv) stringify ;;
   Normal (fst kv ++ ": { " ++ JsString.toString lines ++ " },"))%js.

Definition generateInputTransformerOn (stack : nat) (h : Heap)
  (operationName operationVariablesTypes operationResultType : string)
  (hasRequiredVariables : bool) (variablesType : option VariablesRefs) : completion string :=
  let signature := generateQueryVariablesSignature hasRequiredVariables operationVariablesTypes in
  let hasVariables :=
    match variablesType with
    | Some vt => (0 <? List.length (map fst vt))%nat
    | None => false
    end in
  (vt <- toObject variablesType ;;
   hasJson <- someM (fun kv => hasJsonFieldsOn stack h (snd kv)) vt ;;
   let comment := inputComment operationName operationVariablesTypes hasVariables in
   implementation <-
     (if hasVariables then
        body <- (if hasJson : bool then
                   selected <- filterM (fun kv => hasJsonFieldsOn stack h (snd kv)) vt ;;
                   entries <- mapM (variableEntryOn stack h) selected ;;
                   Normal ("({...variables, " ++ JsString.join entries nl
                           ++ " }) as " ++ operationVariablesTypes)
                 else Normal ("variables as " ++ operationVariablesTypes)) ;;
        Normal ("export const " ++ operationName ++ "Input = (" ++ signature ++ ") => "
                ++ body ++ ";")
      else Normal ("export const " ++ operationName ++ "Input = () => undefined;")) ;;
   Normal (nl ++ comment ++ nl ++ implementation))%js.

(** ** Graphs and the trees they unfold to *)

(** The variables against the variables of [Emitters]. *)
Definition unfoldsVariables (h : Heap) (stack : nat) (refs : VariablesRefs)
  (vt : VariablesType) : Prop :=
  Forall2 (fun r v => fst r = fst v /\ unfoldsFields h (snd r) (variableFields (snd v))
                      /\ stackFor (variableFields (snd v)) <= stack) refs vt.

(** ** On graphs that unfold to trees *)

Lemma truthyRef_unfolds (h : Heap) (v : Ref) (t : FieldValue) :
  unfolds h v t -> truthyRef v = truthy t.
Proof. now destruct 1. Qed.

Lemma transformJsonFieldsOrEmptyOn_tree (h : Heap) (fields : option Ref)
  (tree : option FieldValue) (path : string) (transformer : Transformer) (stack : nat) :
  unfoldsFields h fields tree -> stackFor tree <= stack ->
  transformJsonFieldsOrEmptyOn stack h fields path transformer =
  Normal (transformJsonFields (orEmpty tree) path transformer).
Proof.
  destruct fields as [v|], tree as [t|]; cbn [unfoldsFields stackFor orEmpty];
    intros Hu Hd; try contradiction; unfold transformJsonFieldsOrEmptyOn.
  - rewrite (truthyRef_unfolds h v t Hu). destruct (truthy t).
    + apply transformJsonFieldsOn_unfolded; [apply (unfoldOn_complete h t v stack Hu) |]; lia.
    + destruct stack; [lia | reflexivity].
  - destruct stack; [lia | reflexivity].
Qed.

Lemma variableEntryOn_tree (h : Heap) (stack : nat) (r : string * option Ref)
  (v : string * VariableType) :
  fst r = fst v -> unfoldsFields h (snd r) (variableFields (snd v)) ->
  stackFor (variableFields (snd v)) <= stack ->
  variableEntryOn stack h r = Normal (variableEntry (fst v) (snd v)).
Proof.
  intros Hn Hu Hd. unfold variableEntryOn, variableEntry.
  now rewrite (transformJsonFieldsOrEmptyOn_tree h _ _ _ _ _ Hu Hd), Hn.
Qed.

Lemma unfoldsVariables_names (h : Heap) (stack : nat) (refs : VariablesRefs)
  (vt : VariablesType) :
  unfoldsVariables h stack refs vt -> map fst refs = map fst vt.
Proof. induction 1 as [|r v refs vt (Hn & _) _ IH]; simpl; congruence. Qed.

Section Refinement.

Variables (h : Heap) (stack : nat).
Variables operationName operationVariablesTypes operationResultType : string.
Variable hasRequiredVariables : bool.

(** C17. The output transformer on an object graph: when the fields of
    the output type unfold to a tree and the stack is the one the tree
    needs, [generateOutputTransformer] returns the text it returns on
    the tree; both calls it makes start with the same stack. *)
Theorem generateOutputTransformerOn_refines (outputType : OutputType) (fields : option Ref) :
  unfoldsFields h fields (Emitters.fields outputType) ->
  stackFor (Emitters.fields outputType) <= stack ->
  generateOutputTransformerOn stack h operationName operationVariablesTypes
    operationResultType hasRequiredVariables (fieldName outputType) (typeName outputType)
    fields =
  generateOutputTransformer operationName operationVariablesTypes operationResultType
    hasRequiredVariables outputType.
Proof.
  destruct outputType as [name type tree]. cbn [Emitters.fields fieldName typeName].
  intros Hu Hd. unfold generateOutputTransformerOn, generateOutputTransformer.
  cbn [Emitters.fields fieldName typeName].
  rewrite (hasJsonFieldsOn_fields h fields tree stack Hu Hd). cbn [bind].
  destruct (hasJsonFields tree) eqn:Hj; [| reflexivity].
  destruct (hasJsonFields_true_Object _ Hj) as [fs ->].
  destruct fields as [v|]; [| contradiction]. cbn [toObject bind].
  rewrite (transformJsonFieldsOn_unfolded h v (Object fs) name parse stack); [reflexivity | |];
    [apply (unfoldOn_complete h _ v stack Hu) |]; cbn [stackFor] in Hd; lia.
Qed.

(** C16. The input transformer on object graphs: when the fields of
    every variable unfold to a tree and the stack is the one the deepest
    of them needs, [generateInputTransformer] returns the text it returns
    on the trees, [some] stopping at the first variable with a JSON field
    and [filter] visiting every variable. *)
Theorem generateInputTransformerOn_refines (refs : VariablesRefs) (vt : VariablesType) :
  unfoldsVariables h stack refs vt ->
  generateInputTransformerOn stack h operationName operationVariablesTypes
    operationResultType hasRequiredVariables (Some refs) =
  generateInputTransformer operationName operationVariablesTypes operationResultType
    hasRequiredVariables (Some vt).
Proof.
  intros Hv. unfold generateInputTransformerOn, generateInputTransformer.
  rewrite (unfoldsVariables_names h stack refs vt Hv). cbn [toObject bind].
  rewrite (someM_Forall2 _ (fun kv => hasJsonFields (variableFields (snd kv))) refs vt).
  2: { eapply Forall2_impl; [| exact Hv]. intros r v (_ & Hu & Hd).
       now apply hasJsonFieldsOn_fields. }
  cbn [bind]. destruct (0 <? List.length (map fst vt))%nat; [| reflexivity].
  destruct (existsb _ vt); [| reflexivity].
  destruct (filterM_Forall2 (fun kv => hasJsonFieldsOn stack h (snd kv))
              (fun kv => hasJsonFields (variableFields (snd kv)))
              (fun r v => variableEntryOn stack h r = Normal (variableEntry (fst v) (snd v)))
              refs vt) as (kept & -> & Hkept).
  { eapply Forall2_impl; [| exact Hv]. intros r v (Hn & Hu & Hd).
    split; [now apply hasJsonFieldsOn_fields | now apply variableEntryOn_tree]. }
  cbn [bind].
  now rewrite (mapM_Forall2_map _ (fun kv => variableEntry (fst kv) (snd kv)) _ _ Hkept).
Qed.

(** A cycle below the output type: the first call overflows. *)
Lemma generateOutputTransformerOn_cyclic (fieldName typeName : string) (l : loc) :
  cyclic h l ->
  generateOutputTransformerOn stack h operationName operationVariablesTypes
    operationResultType hasRequiredVariables fieldName typeName (Some (RObject l)) =
  Throw stackOverflow.
Proof.
  intros Hc. unfold generateOutputTransformerOn. now rewrite (hasJsonFieldsOn_cyclic h l stack Hc).
Qed.

(** A cycle below a variable: whatever the other variables are,
    [generateInputTransformer] throws a [RangeError].  When an earlier
    variable has a JSON field [some] returns before it reaches the
    cycle, and [filter], which visits every variable, reaches it. *)
Theorem generateInputTransformerOn_cyclic (refs : VariablesRefs) (name : string) (l : loc) :
  In (name, Some (RObject l)) refs -> cyclic h l ->
  generateInputTransformerOn stack h operationName operationVariablesTypes
    operationResultType hasRequiredVariables (Some refs) = Throw stackOverflow.
Proof.
  intros Hin Hc. set (f := fun kv : string * option Ref => hasJsonFieldsOn stack h (snd kv)).
  assert (Hv : (0 <? List.length (map fst refs))%nat = true) by (now destruct refs).
  assert (Hall : Forall (fun x => forall e, f x = Throw e -> e = stackOverflow) refs).
  { apply Forall_forall. intros kv _ e. apply hasJsonFieldsOn_error. }
  assert (Hex : Exists (fun x => f x = Throw stackOverflow) refs).
  { apply Exists_exists. eexists; split; [exact Hin | now apply hasJsonFieldsOn_cyclic]. }
  unfold generateInputTransformerOn. cbn [toObject bind]. rewrite Hv. fold f.
  destruct (someM_throws f refs stackOverflow Hall Hex) as [-> | ->]; cbn [bind]; [| reflexivity].
  now rewrite (filterM_throws f refs stackOverflow Hall Hex).
Qed.

End Refinement.

(** ** Examples *)

(** The variables of an operation: an identifier, and an input object
    with a JSON field. *)
Definition inputHeap : Heap := fun l =>
  match l with
  | 0 => [("id!", RString "ID"); ("payload", RString AWSJSON)]
  | _ => []
  end.

Definition inputRefs : VariablesRefs := [("id", None); ("input", Some (RObject 0))].

Definition inputTrees : VariablesType :=
  [("id", mkVariableType None);
   ("input", mkVariableType (Some (Object [("id!", Scalar "ID"); ("payload", Scalar AWSJSON)])))].

Lemma inputRefs_unfold : unfoldsVariables inputHeap 1 inputRefs inputTrees.
Proof.
  repeat constructor.
Qed.

Lemma generateInputTransformerOn_refines_witness :
  generateInputTransformerOn 1 inputHeap "Save" "SaveVariables" "Save" true (Some inputRefs) =
  generateInputTransformer "Save" "SaveVariables" "Save" true (Some inputTrees).
Proof.
  exact (generateInputTransformerOn_refines inputHeap 1 "Save" "SaveVariables" "Save" true
           inputRefs inputTrees inputRefs_unfold).
Defined.

Lemma generateOutputTransformerOn_refines_witness :
  generateOutputTransformerOn 3 sharedHeap "GetNode" "GetNodeVariables" "GetNode" true
    "getNode" "Node" (Some (RObject 0)) =
  generateOutputTransformer "GetNode" "GetNodeVariables" "GetNode" true
    (mkOutputType "getNode" "Node" (Some sharedTree)).
Proof.
  apply (generateOutputTransformerOn_refines sharedHeap 3 "GetNode" "GetNodeVariables" "GetNode"
           true (mkOutputType "getNode" "Node" (Some sharedTree)) (Some (RObject 0))
           sharedHeap_unfolds).
  vm_compute. repeat constructor.
Defined.

(** A variable with a JSON field before a variable of a type that refers
    to itself: [some] answers [true] at the first, [filter] overflows at
    the second. *)
Definition cyclicRefs : VariablesRefs :=
  [("meta", Some (RObject 1)); ("node", Some (RObject 0))].

Definition cyclicHeap : Heap := fun l =>
  match l with
  | 0 => nodeCycle 0
  | 1 => [("payload", RString AWSJSON)]
  | _ => []
  end.

Example someM_cyclicRefs :
  someM (fun kv => hasJsonFieldsOn 8 cyclicHeap (snd kv)) cyclicRefs = Normal true.
Proof. reflexivity. Qed.

Lemma generateInputTransformerOn_cyclic_witness :
  generateInputTransformerOn 8 cyclicHeap "Save" "SaveVariables" "Save" true (Some cyclicRefs) =
  Throw stackOverflow.
Proof.
  apply (generateInputTransformerOn_cyclic cyclicHeap 8 "Save" "SaveVariables" "Save" true
           cyclicRefs "node" 0).
  - right; left; reflexivity.
  - exists 0. split; [apply rt_refl | apply t_step]. exists "parent". simpl. auto.
Defined.
