(* ===== verification/Visitor.v ===== *)
(** * Visitor: the state of the visitor and the text of one operation

    The class [ReactQueryVisitor] of [src/unnamed/part_000]: its fields
    as a record, the method map [queryMethodMap], its constructor,
    [createFetcher], [imports], [hasOperations], [getImports] (which
    adds to a set of identifiers, so it returns the new state with its
    result), [getFetcherImplementation], [_getHookSuffix] and
    [buildOperation].  What the visitor calls and does not define is the
    class [Collaborators]: the case conversions, the name conversion of
    the base visitor, the type resolver, the key makers and the fetcher.
    The theorems hold for every instance of it.

    A [Set] of strings is the list of its elements in insertion order,
    without duplicates; an object used as a dictionary is an association
    list with distinct keys, a spread assigning its entries in order. *)

From Stdlib Require Import String Ascii List ZArith Lia Bool.
From S2P Require Import Prelude JsString Shape Detector Transform Emitters.
Import ListNotations.
Local Open Scope string_scope.

(** ** Data *)

(** The operation definition node: the visitor reads its name only. *)
Record OperationDefinitionNode : Type := mkNode {
  nodeName : option string
}.

(** The configuration of the plugin: its own six settings, and the
    settings of the base configuration the visitor reads. *)
Record ReactQueryPluginConfig : Type := mkConfig {
  errorType : string;
  exposeDocument : bool;
  exposeQueryKeys : bool;
  exposeMutationKeys : bool;
  exposeFetcher : bool;
  addInfiniteQuery : bool;
  omitOperationSuffix : bool;
  dedupeOperationSuffix : bool;
  importOperationTypesFrom : option string;
  useTypeImports : bool
}.

(** The configuration as the user writes it: every setting of the plugin
    may be missing.  The four settings of the base configuration are the
    values the constructor of the base class has parsed. *)
Record ReactQueryRawPluginConfig : Type := mkRawConfig {
  rawErrorType : option string;
  rawExposeDocument : option bool;
  rawExposeQueryKeys : option bool;
  rawExposeMutationKeys : option bool;
  rawExposeFetcher : option bool;
  rawAddInfiniteQuery : option bool;
  rawFetcher : option string;
  baseOmitOperationSuffix : bool;
  baseDedupeOperationSuffix : bool;
  baseImportOperationTypesFrom : option string;
  baseUseTypeImports : bool
}.

(** The names of a hook and of the type of its options. *)
Record MethodNames : Type := mkMethodNames {
  hook : string;
  options : string
}.

(** [ReactQueryMethodMap]: the names for the three kinds of hook. *)
Record ReactQueryMethodMap : Type := mkMethodMap {
  infiniteQuery : MethodNames;
  query : MethodNames;
  mutation : MethodNames
}.

(** The field [queryMethodMap]: every visitor is given the same, and no
    method assigns it. *)
Definition queryMethodMap : ReactQueryMethodMap :=
  mkMethodMap (mkMethodNames "useInfiniteQuery" "UseInfiniteQueryOptions")
              (mkMethodNames "useQuery" "UseQueryOptions")
              (mkMethodNames "useMutation" "UseMutationOptions").

(** The fetcher renderer: the one class the visitor creates, with the
    setting it is created from.  The visitor it holds is the [this] of
    the methods. *)
Inductive FetcherRenderer : Type :=
| CustomMapperFetcher (raw : string).

(** What the visitor calls. *)
Class Collaborators : Type := {
  FieldDefinition : Type;
  DocumentFile : Type;
  generateFetcherImplementaion : string -> string;
  pascalCase : string -> string;
  lowerCaseFirst : string -> string;
  convertName : string -> string -> string;
  getOutputType : option FieldDefinition -> OutputType;
  getInputVariablesType : option FieldDefinition -> option VariablesType;
  generateQueryKeyMaker : OperationDefinitionNode -> string -> string -> bool -> string;
  generateMutationKeyMaker : OperationDefinitionNode -> string -> string;
  generateFetcherFetch :
    OperationDefinitionNode -> string -> string -> string -> string -> bool ->
    string -> string -> string
}.

Section Visitor.

Context `{C : Collaborators}.

(** The schema: the fields of its query type and of its mutation type,
    each of which may be missing. *)
Record GraphQLSchema : Type := mkSchema {
  getQueryType : option (list (string * FieldDefinition));
  getMutationType : option (list (string * FieldDefinition))
}.

(** The fields of the visitor.  [schemaFields] is the field [fields];
    the last three are the fields of the base class the visitor reads. *)
Record ReactQueryVisitor : Type := mkVisitor {
  config : ReactQueryPluginConfig;
  _externalImportPrefix : string;
  fetcher : FetcherRenderer;
  reactQueryHookIdentifiersInUse : list string;
  reactQueryOptionsIdentifiersInUse : list string;
  schemaFields : list (string * FieldDefinition);
  _documents : list DocumentFile;
  _collectedOperations : list OperationDefinitionNode;
  _imports : list string
}.

(** [getConfigValue(value, defaultValue)] of the plugin helpers. *)
Definition getConfigValue {A : Type} (value : option A) (defaultValue : A) : A :=
  match value with
  | Some v => v
  | None => defaultValue
  end.

(** [importOperationTypesFrom ? `${importOperationTypesFrom}.` : ''] *)
Definition externalImportPrefixOf (config : ReactQueryPluginConfig) : string :=
  match importOperationTypesFrom config with
  | Some from => if String.eqb from "" then "" else from ++ "."
  | None => ""
  end.

(** [rawConfig.fetcher || 'fetch'] *)
Definition fetcherOrDefault (raw : option string) : string :=
  match raw with
  | Some f => if String.eqb f "" then "fetch" else f
  | None => "fetch"
  end.

(** [createFetcher(raw)] *)
Definition createFetcher (raw : string) : FetcherRenderer := CustomMapperFetcher raw.

(** The assignment [o[k] = d]: an existing key keeps its place. *)
Fixpoint assignField (o : list (string * FieldDefinition)) (k : string) (d : FieldDefinition)
  : list (string * FieldDefinition) :=
  match o with
  | [] => [(k, d)]
  | (k', d') :: o' =>
      if String.eqb k' k then (k', d) :: o' else (k', d') :: assignField o' k d
  end.

(** [{ ...a, ...b }], [undefined] spreading to nothing. *)
Definition spreadFields (a b : option (list (string * FieldDefinition)))
  : list (string * FieldDefinition) :=
  let spread := fold_left (fun o kv => assignField o (fst kv) (snd kv)) in
  spread (getConfigValue b []) (spread (getConfigValue a []) []).

(** The constructor.  The fragments are passed to the base class only,
    which starts with no collected operation and no import. *)
Definition constructor (schema : GraphQLSchema) (rawConfig : ReactQueryRawPluginConfig)
  (documents : list DocumentFile) : ReactQueryVisitor :=
  let config :=
    mkConfig (getConfigValue (rawErrorType rawConfig) "unknown")
      (getConfigValue (rawExposeDocument rawConfig) false)
      (getConfigValue (rawExposeQueryKeys rawConfig) false)
      (getConfigValue (rawExposeMutationKeys rawConfig) false)
      (getConfigValue (rawExposeFetcher rawConfig) false)
      (getConfigValue (rawAddInfiniteQuery rawConfig) false)
      (baseOmitOperationSuffix rawConfig) (baseDedupeOperationSuffix rawConfig)
      (baseImportOperationTypesFrom rawConfig) (baseUseTypeImports rawConfig) in
  mkVisitor config (externalImportPrefixOf config)
    (createFetcher (fetcherOrDefault (rawFetcher rawConfig)))
    [] [] (spreadFields (getQueryType schema) (getMutationType schema)) documents [] [].

(** [Set.prototype.add] *)
Definition setAdd (s : list string) (x : string) : list string :=
  if existsb (String.eqb x) s then s else (s ++ [x])%list.

(** The getter [imports]. *)
Definition imports (this : ReactQueryVisitor) : list string := _imports this.

Definition hasOperations (this : ReactQueryVisitor) : bool :=
  (0 <? List.length (_collectedOperations this))%nat.

(** The state after [this.reactQueryOptionsIdentifiersInUse.add(x)]. *)
Definition addOptionsIdentifier (this : ReactQueryVisitor) (x : string) : ReactQueryVisitor :=
  mkVisitor (config this) (_externalImportPrefix this) (fetcher this)
    (reactQueryHookIdentifiersInUse this)
    (setAdd (reactQueryOptionsIdentifiersInUse this) x)
    (schemaFields this) (_documents this) (_collectedOperations this) (_imports this).

(** The import of the identifiers in use. *)
Definition reactQueryImport (this : ReactQueryVisitor) : string :=
  let hookAndTypeImports :=
    (reactQueryHookIdentifiersInUse this
     ++ map (fun identifier =>
               ((if useTypeImports (config this) then "type " else "") ++ identifier)%string)
            (reactQueryOptionsIdentifiersInUse this))%list in
  "import { " ++ JsString.join hookAndTypeImports ", " ++ " } from 'react-query';".

(** [getImports()]: its result and the state it leaves, [baseImports]
    being the result of the method of the base class. *)
Definition getImports (baseImports : list string) (this : ReactQueryVisitor)
  : list string * ReactQueryVisitor :=
  if negb (hasOperations this) then (baseImports, this)
  else
    let this' :=
      if addInfiniteQuery (config this)
      then addOptionsIdentifier this "QueryFunctionContext" else this in
    ((baseImports ++ [reactQueryImport this'])%list, this').

Definition getFetcherImplementation (this : ReactQueryVisitor) : string :=
  match fetcher this with
  | CustomMapperFetcher raw => generateFetcherImplementaion raw
  end.

(** ** The life of a visitor

    What changes the state after the constructor: the base class collects
    an operation or adds an import, the fetcher renderer, which holds the
    visitor, adds an identifier to one of the two sets, and [getImports]
    is called. *)

Definition addImport (this : ReactQueryVisitor) (x : string) : ReactQueryVisitor :=
  mkVisitor (config this) (_externalImportPrefix this) (fetcher this)
    (reactQueryHookIdentifiersInUse this) (reactQueryOptionsIdentifiersInUse this)
    (schemaFields this) (_documents this) (_collectedOperations this)
    (setAdd (_imports this) x).

Definition addHookIdentifier (this : ReactQueryVisitor) (x : string) : ReactQueryVisitor :=
  mkVisitor (config this) (_externalImportPrefix this) (fetcher this)
    (setAdd (reactQueryHookIdentifiersInUse this) x)
    (reactQueryOptionsIdentifiersInUse this)
    (schemaFields this) (_documents this) (_collectedOperations this) (_imports this).

Definition collectOperation (this : ReactQueryVisitor) (node : OperationDefinitionNode)
  : ReactQueryVisitor :=
  mkVisitor (config this) (_externalImportPrefix this) (fetcher this)
    (reactQueryHookIdentifiersInUse this) (reactQueryOptionsIdentifiersInUse this)
    (schemaFields this) (_documents this) (_collectedOperations this ++ [node])%list
    (_imports this).

Inductive step : ReactQueryVisitor -> ReactQueryVisitor -> Prop :=
| step_collect this node : step this (collectOperation this node)
| step_import this x : step this (addImport this x)
| step_hook this x : step this (addHookIdentifier this x)
| step_options this x : step this (addOptionsIdentifier this x)
| step_getImports this baseImports : step this (snd (getImports baseImports this)).

(** The states a visitor goes through, from the one it is in. *)
Inductive reachable (this : ReactQueryVisitor) : ReactQueryVisitor -> Prop :=
| reachable_refl : reachable this this
| reachable_step that that' : reachable this that -> step that that' -> reachable this that'.


(** What no method changes. *)
Definition sameSettings (this that : ReactQueryVisitor) : Prop :=
  config that = config this /\
  _externalImportPrefix that = _externalImportPrefix this /\
  fetcher that = fetcher this /\
  schemaFields that = schemaFields this /\
  _documents that = _documents this.

(** What only grows. *)
Definition grows (this that : ReactQueryVisitor) : Prop :=
  incl (reactQueryHookIdentifiersInUse this) (reactQueryHookIdentifiersInUse that) /\
  incl (reactQueryOptionsIdentifiersInUse this) (reactQueryOptionsIdentifiersInUse that) /\
  incl (imports this) (imports that) /\
  (List.length (_collectedOperations this) <= List.length (_collectedOperations that))%nat.

(** [this.fields[fieldName]] *)
Fixpoint lookupField (fs : list (string * FieldDefinition)) (fieldName : string)
  : option FieldDefinition :=
  match fs with
  | [] => None
  | (k, d) :: fs' => if String.eqb k fieldName then Some d else lookupField fs' fieldName
  end.

(** [node.name?.value ?? ''] *)
Definition nodeNameValue (node : OperationDefinitionNode) : string :=
  match nodeName node with
  | Some value => value
  | None => ""
  end.

(** The definition of the field named after the operation:
    [this.fields[lowerCaseFirst(nodeName)]]. *)
Definition fieldDefinitionOf (this : ReactQueryVisitor) (node : OperationDefinitionNode)
  : option FieldDefinition :=
  lookupField (schemaFields this) (lowerCaseFirst (nodeNameValue node)).

(** ** The source's methods *)

Definition _getHookSuffix (this : ReactQueryVisitor) (name operationType : string) : string :=
  if omitOperationSuffix (config this) then ""
  else if negb (dedupeOperationSuffix (config this)) then pascalCase operationType
  else if JsString.includes name "Query" || JsString.includes name "Mutation"
          || JsString.includes name "Subscription" then ""
  else pascalCase operationType.

(** The part of [buildOperation] common to queries and mutations: the
    input transformer, the output transformer and the fetcher, appended to
    the text of the key maker. *)
Definition buildTransformers (node : OperationDefinitionNode)
  (documentVariableName operationName operationResultType operationVariablesTypes : string)
  (hasRequiredVariables : bool) (outputType : OutputType)
  (variablesType : option VariablesType) (query : string) : completion string :=
  (input <- generateInputTransformer operationName operationVariablesTypes
              operationResultType hasRequiredVariables variablesType ;;
   output <- generateOutputTransformer operationName operationVariablesTypes
               operationResultType hasRequiredVariables outputType ;;
   Normal (query ++ input ++ output
           ++ generateFetcherFetch node documentVariableName operationName
                operationResultType operationVariablesTypes hasRequiredVariables
                (typeName outputType) operationVariablesTypes))%js.

Definition buildOperation (this : ReactQueryVisitor) (node : OperationDefinitionNode)
  (documentVariableName operationType operationResultType operationVariablesTypes : string)
  (hasRequiredVariables : bool) : completion string :=
  let nodeName := nodeNameValue node in
  let suffix := _getHookSuffix this nodeName operationType in
  let operationName := convertName nodeName suffix in
  let operationResultType := _externalImportPrefix this ++ operationResultType in
  let operationVariablesTypes := _externalImportPrefix this ++ operationVariablesTypes in
  let fieldDefinition := fieldDefinitionOf this node in
  let outputType := getOutputType fieldDefinition in
  let variablesType := getInputVariablesType fieldDefinition in
  if String.eqb operationType "Query" then
    buildTransformers node documentVariableName operationName operationResultType
      operationVariablesTypes hasRequiredVariables outputType variablesType
      (generateQueryKeyMaker node operationName operationVariablesTypes hasRequiredVariables)
  else if String.eqb operationType "Mutation" then
    buildTransformers node documentVariableName operationName operationResultType
      operationVariablesTypes hasRequiredVariables outputType variablesType
      (generateMutationKeyMaker node operationName)
  else Normal "".

End Visitor.

(** ** An instance for the examples *)

(** Lower-cases the first character when it is an upper-case ASCII letter. *)
Definition lowerFirst (s : string) : string :=
  match s with
  | EmptyString => EmptyString
  | String c s' =>
      let n := nat_of_ascii c in
      String (if (65 <=? n)%nat && (n <=? 90)%nat then ascii_of_nat (n + 32) else c) s'
  end.

#[export] Instance sampleCollaborators : Collaborators := {|
  FieldDefinition := OutputType * VariablesType;
  DocumentFile := string;
  generateFetcherImplementaion := fun f => "import { " ++ f ++ " } from './fetcher';";
  pascalCase := fun s => s;
  lowerCaseFirst := lowerFirst;
  convertName := fun name suffix => name ++ suffix;
  getOutputType := fun d =>
    match d with
    | Some (o, _) => o
    | None => mkOutputType "undefined" "undefined" None
    end;
  getInputVariablesType := fun d =>
    match d with
    | Some (_, v) => Some v
    | None => None
    end;
  generateQueryKeyMaker := fun _ operationName _ _ =>
    nl ++ "export const " ++ operationName ++ "Keys = () => ['" ++ operationName ++ "'];";
  generateMutationKeyMaker := fun _ operationName =>
    nl ++ "export const " ++ operationName ++ "Keys = () => ['" ++ operationName ++ "'];";
  generateFetcherFetch := fun _ _ operationName _ _ _ _ _ =>
    nl ++ "export const " ++ operationName ++ "Fetcher = fetcher;"
|}.

Definition sampleRawConfig : ReactQueryRawPluginConfig :=
  mkRawConfig None None None None None None None false true None false.

Definition sampleSchema : GraphQLSchema :=
  mkSchema (Some [("getNode", (getNodeType, [("id", mkVariableType None)]))]) None.

Definition sampleVisitor : ReactQueryVisitor :=
  constructor sampleSchema sampleRawConfig ["query GetNode"].

(** ** Theorems *)

(** ** Sets of identifiers *)

Lemma setAdd_In (s : list string) (x y : string) :
  In y (setAdd s x) <-> In y s \/ y = x.
Proof.
  unfold setAdd. destruct (existsb (String.eqb x) s) eqn:E.
  - split; [auto | intros [H| ->]; [exact H |]].
    apply existsb_exists in E as (z & Hz & Hxz). now apply String.eqb_eq in Hxz as ->.
  - rewrite in_app_iff. simpl. intuition congruence.
Qed.

Lemma setAdd_present (s : list string) (x : string) : In x s -> setAdd s x = s.
Proof.
  intros H. unfold setAdd.
  replace (existsb (String.eqb x) s) with true; [reflexivity |].
  symmetry. apply existsb_exists. exists x. split; [exact H | apply String.eqb_refl].
Qed.

Lemma setAdd_idempotent (s : list string) (x : string) :
  setAdd (setAdd s x) x = setAdd s x.
Proof. apply setAdd_present, setAdd_In. now right. Qed.


Lemma setAdd_incl (s : list string) (x : string) : incl s (setAdd s x).
Proof. intros y Hy. apply setAdd_In. now left. Qed.

(** ** The dictionary of fields *)

Section FieldsFacts.

Context `{C : Collaborators}.

Lemma lookupField_assignField (o : list (string * FieldDefinition)) (k : string)
  (d : FieldDefinition) (k' : string) :
  lookupField (assignField o k d) k' =
  if String.eqb k k' then Some d else lookupField o k'.
Proof.
  induction o as [|[k0 d0] o IH]; simpl; [reflexivity |].
  destruct (String.eqb_spec k0 k) as [->|Hk]; simpl.
  - now destruct (String.eqb k k').
  - rewrite IH. destruct (String.eqb_spec k0 k') as [->|Hk'];
      [apply not_eq_sym, String.eqb_neq in Hk; now rewrite Hk | reflexivity].
Qed.

Lemma lookupField_not_In (o : list (string * FieldDefinition)) (k : string) :
  ~ In k (map fst o) -> lookupField o k = None.
Proof.
  induction o as [|[k0 d0] o IH]; simpl; [reflexivity |]. intros H.
  destruct (String.eqb_spec k0 k) as [->|_]; [elim H; now left | apply IH; tauto].
Qed.

(** Spreading an object with distinct keys over another: its entries win. *)
Lemma lookupField_spread (b : list (string * FieldDefinition)) (k : string) :
  NoDup (map fst b) ->
  forall a,
    lookupField (fold_left (fun o kv => assignField o (fst kv) (snd kv)) b a) k =
    match lookupField b k with
    | Some d => Some d
    | None => lookupField a k
    end.
Proof.
  induction b as [|[k0 d0] b IH]; intros Hnd a; [reflexivity |].
  inversion Hnd as [|? ? Hk0 Hnd']; subst. cbn [fold_left fst snd lookupField].
  rewrite (IH Hnd'), lookupField_assignField.
  destruct (String.eqb_spec k0 k) as [->|_]; [| reflexivity].
  now rewrite (lookupField_not_In b k Hk0).
Qed.

End FieldsFacts.

(** ** The state of the visitor *)

Section StateFacts.

Context `{C : Collaborators}.


(** The cases of a step, the branches of [getImports] included. *)
Ltac step_cases :=
  let t := fresh "t" in
  intros [t ?|t ?|t ?|t ?|t ?];
  [ | | | | unfold getImports; destruct (negb (hasOperations t));
          [| destruct (addInfiniteQuery (config t))]].


Lemma step_sameSettings (this that : ReactQueryVisitor) :
  step this that -> sameSettings this that.
Proof.
  step_cases; repeat split.
Qed.

Lemma step_grows (this that : ReactQueryVisitor) : step this that -> grows this that.
Proof.
  step_cases; repeat split; cbn; auto using incl_refl, setAdd_incl.
  rewrite length_app; simpl; lia.
Qed.


Lemma grows_trans (this that other : ReactQueryVisitor) :
  grows this that -> grows that other -> grows this other.
Proof.
  intros (F1 & F2 & F3 & F4) (G1 & G2 & G3 & G4).
  repeat split; eauto using incl_tran. lia.
Qed.

Lemma sameSettings_trans (this that other : ReactQueryVisitor) :
  sameSettings this that -> sameSettings that other -> sameSettings this other.
Proof.
  intros (T1 & T2 & T3 & T4 & T5) (S1 & S2 & S3 & S4 & S5). repeat split; congruence.
Qed.

Lemma reachable_sameSettings (this that : ReactQueryVisitor) :
  reachable this that -> sameSettings this that.
Proof.
  induction 1 as [|that that' _ IH Hstep]; [repeat split |].
  exact (sameSettings_trans _ _ _ IH (step_sameSettings _ _ Hstep)).
Qed.

Lemma reachable_grows (this that : ReactQueryVisitor) :
  reachable this that -> grows this that.
Proof.
  induction 1 as [|that that' _ IH Hstep]; [repeat split; auto using incl_refl |].
  exact (grows_trans _ _ _ IH (step_grows _ _ Hstep)).
Qed.

(** C38. No method changes the configuration, the prefix, the fetcher,
    the fields or the documents of a visitor, and the identifiers in use,
    the imports and the collected operations only grow. *)
Theorem reachable_frame (this that : ReactQueryVisitor) :
  reachable this that -> sameSettings this that /\ grows this that.
Proof.
  intros H. split; [now apply reachable_sameSettings | now apply reachable_grows].
Qed.

(** C19. [getImports] changes the state at most once: called on the
    state it leaves, it returns the same imports and leaves the same
    state. *)
Theorem getImports_idempotent (baseImports : list string) (this : ReactQueryVisitor) :
  getImports baseImports (snd (getImports baseImports this)) = getImports baseImports this.
Proof.
  unfold getImports. destruct (hasOperations this) eqn:Ho; cbn [negb snd]; [| now rewrite Ho].
  destruct (addInfiniteQuery (config this)) eqn:Hi; cbn [negb snd].
  - change (hasOperations (addOptionsIdentifier this "QueryFunctionContext"))
      with (hasOperations this).
    change (config (addOptionsIdentifier this "QueryFunctionContext")) with (config this).
    rewrite Ho, Hi. cbn [negb]. unfold addOptionsIdentifier at 1 3. cbn.
    now rewrite setAdd_idempotent.
  - now rewrite Ho, Hi.
Qed.

(** Without a collected operation [getImports] returns the imports of
    the base class and leaves the state as it is. *)
Lemma getImports_no_operations (baseImports : list string) (this : ReactQueryVisitor) :
  _collectedOperations this = [] ->
  getImports baseImports this = (baseImports, this).
Proof. intros H. unfold getImports, hasOperations. now rewrite H. Qed.

(** With a collected operation and infinite queries, [getImports]
    appends one import to the imports of the base class, and this import
    names [QueryFunctionContext], as a type when types are imported as
    types. *)
Theorem getImports_infinite (baseImports : list string) (this : ReactQueryVisitor) :
  hasOperations this = true ->
  addInfiniteQuery (config this) = true ->
  exists line,
    fst (getImports baseImports this) = (baseImports ++ [line])%list /\
    JsString.includes line
      ((if useTypeImports (config this) then "type " else "") ++ "QueryFunctionContext") = true.
Proof.
  intros Ho Hi. unfold getImports. rewrite Ho, Hi. cbn [negb fst].
  eexists; split; [reflexivity |]. unfold reactQueryImport.
  apply JsString.includes_append_r, JsString.includes_append_l, JsString.In_join_includes.
  apply in_or_app; right. apply in_map_iff.
  exists "QueryFunctionContext". split; [reflexivity |].
  apply setAdd_In. now right.
Qed.

(** C18. The dictionary of fields merges the fields of the query type
    and of the mutation type: for a name both have, the definition the
    visitor uses is the one of the mutation type, whatever the type of
    the operation. *)
Theorem fieldDefinitionOf_mutation (schema : GraphQLSchema)
  (rawConfig : ReactQueryRawPluginConfig) (documents : list DocumentFile)
  (node : OperationDefinitionNode) (mutationFields : list (string * FieldDefinition))
  (d : FieldDefinition) :
  getMutationType schema = Some mutationFields ->
  NoDup (map fst mutationFields) ->
  lookupField mutationFields (lowerCaseFirst (nodeNameValue node)) = Some d ->
  fieldDefinitionOf (constructor schema rawConfig documents) node = Some d.
Proof.
  intros Hm Hnd Hd. unfold fieldDefinitionOf, constructor, spreadFields. cbn [schemaFields].
  rewrite Hm. cbn [getConfigValue]. now rewrite (lookupField_spread _ _ Hnd), Hd.
Qed.

End StateFacts.

Section VisitorFacts.

Context `{C : Collaborators}.
Variable this : ReactQueryVisitor.

(** With deduplication of suffixes, a name that mentions [Query],
    [Mutation] or [Subscription] anywhere gets no suffix, whatever the type
    of the operation. *)
Theorem _getHookSuffix_dedupe (before kind after operationType : string) :
  dedupeOperationSuffix (config this) = true ->
  In kind ["Query"; "Mutation"; "Subscription"] ->
  _getHookSuffix this (before ++ kind ++ after) operationType = "".
Proof.
  intros Hd Hk. unfold _getHookSuffix. rewrite Hd.
  destruct (omitOperationSuffix (config this)); [reflexivity |]. cbn [negb].
  destruct Hk as [<-|[<-|[<-|[]]]]; rewrite JsString.includes_middle;
    rewrite ?orb_true_r; reflexivity.
Qed.

(** The suffix is empty or the Pascal case of the operation type. *)
Lemma _getHookSuffix_range (name operationType : string) :
  _getHookSuffix this name operationType = "" \/
  _getHookSuffix this name operationType = pascalCase operationType.
Proof.
  unfold _getHookSuffix.
  destruct (omitOperationSuffix (config this)), (dedupeOperationSuffix (config this)),
    (JsString.includes name "Query" || JsString.includes name "Mutation"
     || JsString.includes name "Subscription"); auto.
Qed.

Section Operation.

Variable node : OperationDefinitionNode.
Variables documentVariableName operationType operationResultType
  operationVariablesTypes : string.
Variable hasRequiredVariables : bool.

(** For an operation that is neither a query nor a mutation, a
    subscription in particular, [buildOperation] emits the empty text. *)
Theorem buildOperation_unsupported :
  operationType <> "Query" -> operationType <> "Mutation" ->
  buildOperation this node documentVariableName operationType operationResultType
    operationVariablesTypes hasRequiredVariables = Normal "".
Proof.
  intros H1 H2. unfold buildOperation.
  apply String.eqb_neq in H1, H2. now rewrite H1, H2.
Qed.

(** C40. [buildOperation] throws exactly when the operation is a query or
    a mutation and the type resolver returns no variables mapping for the
    field named after the operation. *)
Theorem buildOperation_throws_iff :
  is_normal (buildOperation this node documentVariableName operationType
               operationResultType operationVariablesTypes hasRequiredVariables) = false <->
  (operationType = "Query" \/ operationType = "Mutation") /\
  getInputVariablesType (fieldDefinitionOf this node) = None.
Proof.
  unfold buildOperation, buildTransformers.
  set (definition := fieldDefinitionOf this node).
  destruct (String.eqb_spec operationType "Query") as [->|HQ];
    [| destruct (String.eqb_spec operationType "Mutation") as [->|HM]].
  3: { simpl; split; [discriminate | intros [[?|?] _]; contradiction]. }
  all: destruct (getInputVariablesType definition) as [vt|];
    [ cbn [generateInputTransformer toObject bind];
      rewrite generateOutputTransformer_eq; simpl; split; [discriminate | intros [_ E]; discriminate E]
    | simpl; split; auto ].
Qed.

(** C39. For a query or a mutation whose field has a variables mapping,
    [buildOperation] returns the text of the key maker, of the input
    transformer, of the output transformer and of the fetcher, in this
    order, all for the converted name of the operation and for the types
    qualified by the prefix of the imported types. *)
Theorem buildOperation_supported (vt : VariablesType) :
  let name := convertName (nodeNameValue node)
                (_getHookSuffix this (nodeNameValue node) operationType) in
  let resultType := _externalImportPrefix this ++ operationResultType in
  let variablesTypes := _externalImportPrefix this ++ operationVariablesTypes in
  let outputType := getOutputType (fieldDefinitionOf this node) in
  operationType = "Query" \/ operationType = "Mutation" ->
  getInputVariablesType (fieldDefinitionOf this node) = Some vt ->
  exists input output,
    generateInputTransformer name variablesTypes resultType hasRequiredVariables (Some vt)
      = Normal input /\
    generateOutputTransformer name variablesTypes resultType hasRequiredVariables outputType
      = Normal output /\
    buildOperation this node documentVariableName operationType operationResultType
      operationVariablesTypes hasRequiredVariables =
    Normal ((if String.eqb operationType "Query"
             then generateQueryKeyMaker node name variablesTypes hasRequiredVariables
             else generateMutationKeyMaker node name)
            ++ input ++ output
            ++ generateFetcherFetch node documentVariableName name resultType variablesTypes
                 hasRequiredVariables (typeName outputType) variablesTypes).
Proof.
  intros name resultType variablesTypes outputType Ht Hv.
  destruct (generateInputTransformer name variablesTypes resultType hasRequiredVariables
              (Some vt)) as [input|err] eqn:Hi; [| discriminate Hi].
  exists input. eexists. split; [reflexivity |].
  split; [apply generateOutputTransformer_eq |].
  unfold buildOperation, buildTransformers.
  fold name resultType variablesTypes outputType. rewrite Hv, Hi, generateOutputTransformer_eq.
  destruct Ht as [-> | ->]; reflexivity.
Qed.

End Operation.

End VisitorFacts.

Lemma _getHookSuffix_dedupe_witness :
  _getHookSuffix sampleVisitor "GetMutationLog" "Query" = "".
Proof.
  apply (_getHookSuffix_dedupe sampleVisitor "Get" "Mutation" "Log" "Query").
  - reflexivity.
  - right; left; reflexivity.
Defined.

Lemma buildOperation_unsupported_witness :
  buildOperation sampleVisitor (mkNode (Some "OnNode")) "OnNodeDocument" "Subscription"
    "OnNodeSubscription" "OnNodeSubscriptionVariables" false = Normal "".
Proof.
  apply buildOperation_unsupported; discriminate.
Defined.

Example buildOperation_missing_field :
  is_normal (buildOperation sampleVisitor (mkNode (Some "FetchNode")) "FetchNodeDocument"
               "Query" "FetchNodeQuery" "FetchNodeQueryVariables" true) = false.
Proof. reflexivity. Qed.

(** ** Witnesses of the theorems on the state *)

Definition infiniteRawConfig : ReactQueryRawPluginConfig :=
  mkRawConfig None None None None None (Some true) None false true None true.

(** A schema whose query type and mutation type both have a field [node]. *)
Definition collisionSchema : GraphQLSchema :=
  mkSchema (Some [("node", (getNodeType, [("id", mkVariableType None)]))])
           (Some [("node", (mkOutputType "node" "Mutated" None, []))]).

Lemma reachable_sample :
  reachable sampleVisitor
    (snd (getImports [] (collectOperation sampleVisitor (mkNode (Some "GetNode"))))).
Proof.
  eapply reachable_step; [eapply reachable_step; [apply reachable_refl |] |].
  - apply step_collect.
  - apply step_getImports.
Qed.


Lemma reachable_frame_witness :
  sameSettings sampleVisitor
    (snd (getImports [] (collectOperation sampleVisitor (mkNode (Some "GetNode"))))) /\
  grows sampleVisitor
    (snd (getImports [] (collectOperation sampleVisitor (mkNode (Some "GetNode"))))).
Proof. apply reachable_frame, reachable_sample. Defined.

Example getImports_no_operations_sample :
  getImports ["import gql from 'graphql-tag';"] sampleVisitor =
  (["import gql from 'graphql-tag';"], sampleVisitor).
Proof. apply getImports_no_operations. reflexivity. Qed.

Lemma getImports_infinite_witness :
  exists line,
    fst (getImports []
           (collectOperation (constructor sampleSchema infiniteRawConfig [])
              (mkNode (Some "GetNode")))) = [line] /\
    JsString.includes line "type QueryFunctionContext" = true.
Proof.
  apply (getImports_infinite []
           (collectOperation (constructor sampleSchema infiniteRawConfig [])
              (mkNode (Some "GetNode")))); reflexivity.
Defined.

Lemma fieldDefinitionOf_mutation_witness :
  fieldDefinitionOf (constructor collisionSchema sampleRawConfig []) (mkNode (Some "Node")) =
  Some (mkOutputType "node" "Mutated" None, []).
Proof.
  apply (fieldDefinitionOf_mutation collisionSchema sampleRawConfig [] (mkNode (Some "Node"))
           [("node", (mkOutputType "node" "Mutated" None, []))]).
  - reflexivity.
  - repeat constructor. intros [].
  - reflexivity.
Defined.

(** With operations and no identifier in use, the import has no name. *)
Example getImports_empty_import :
  fst (getImports [] (collectOperation sampleVisitor (mkNode (Some "GetNode")))) =
  ["import {  } from 'react-query';"].
Proof. reflexivity. Qed.

(** The settings the constructor gives a visitor when none is written. *)
Example constructor_defaults :
  config (constructor sampleSchema sampleRawConfig []) =
    mkConfig "unknown" false false false false false false true None false /\
  fetcher (constructor sampleSchema sampleRawConfig []) = CustomMapperFetcher "fetch".
Proof. split; reflexivity. Qed.

Lemma buildOperation_supported_witness :
  exists input output,
    generateInputTransformer "GetNodeQuery" "GetNodeQueryVariables" "GetNodeQuery" true
      (Some [("id", mkVariableType None)]) = Normal input /\
    generateOutputTransformer "GetNodeQuery" "GetNodeQueryVariables" "GetNodeQuery" true getNodeType
      = Normal output /\
    buildOperation sampleVisitor (mkNode (Some "GetNode")) "GetNodeDocument" "Query"
      "GetNodeQuery" "GetNodeQueryVariables" true =
    Normal (generateQueryKeyMaker (mkNode (Some "GetNode")) "GetNodeQuery" "GetNodeQueryVariables" true
            ++ input ++ output
            ++ generateFetcherFetch (mkNode (Some "GetNode")) "GetNodeDocument" "GetNodeQuery"
                 "GetNodeQuery" "GetNodeQueryVariables" true "Node" "GetNodeQueryVariables").
Proof.
  apply (buildOperation_supported sampleVisitor (mkNode (Some "GetNode")) "GetNodeDocument"
           "Query" "GetNodeQuery" "GetNodeQueryVariables" true [("id", mkVariableType None)]).
  - left; reflexivity.
  - reflexivity.
Defined.
