(* ===== verification/Traces.v ===== *)
(** * Traces: the runs of a visitor

    A visitor lives through calls: the base class collects an operation
    or adds an import, the fetcher renderer adds an identifier to one of
    the two sets, [getImports] is called.  A run is the sequence of these
    calls, a position with no call being one where nothing happens (the
    run is over, or the caller does something else); [stateAt] is the
    state before the call of a position and [returned] what the call
    returns.  The states of the runs are the states the step relation of
    [Visitor] reaches.

    Properties of a run are predicates on its positions, with [always],
    [eventually] and [leadsTo].  The assumption on the caller is
    [endsWithGetImports]: no call is the last one unless it is a call of
    [getImports].  Under it, every identifier that comes into use is
    eventually named by a returned import, and with infinite queries
    [QueryFunctionContext] is eventually in use for good. *)

From Stdlib Require Import String Ascii List ZArith Lia Bool.
From S2P Require Import Prelude JsString Shape Detector Transform Emitters Visitor.
Import ListNotations.
Local Open Scope string_scope.

(** ** Properties of the positions of a run *)

Definition always (P : nat -> Prop) (n : nat) : Prop := forall m, n <= m -> P m.

Definition eventually (P : nat -> Prop) (n : nat) : Prop := exists m, n <= m /\ P m.

Definition leadsTo (P Q : nat -> Prop) : Prop := forall n, P n -> eventually Q n.

Create HintDb temporal discriminated.

Lemma eventually_now (P : nat -> Prop) (n : nat) : P n -> eventually P n.
Proof. intros H. exists n. auto. Qed.

Lemma eventually_from (P : nat -> Prop) (n m : nat) :
  n <= m -> eventually P m -> eventually P n.
Proof. intros Hnm (k & Hk & H). exists k. split; [lia | exact H]. Qed.

Lemma eventually_weaken (P Q : nat -> Prop) (n : nat) :
  (forall m, n <= m -> P m -> Q m) -> eventually P n -> eventually Q n.
Proof. intros HPQ (m & Hm & H). exists m. auto. Qed.

Lemma always_from (P : nat -> Prop) (n m : nat) : n <= m -> always P n -> always P m.
Proof. intros Hnm H k Hk. apply H. lia. Qed.

Lemma always_now (P : nat -> Prop) (n : nat) : always P n -> P n.
Proof. intros H. apply H. lia. Qed.

Lemma leadsTo_refl (P : nat -> Prop) : leadsTo P P.
Proof. intros n. apply eventually_now. Qed.

Lemma leadsTo_trans (P Q R : nat -> Prop) : leadsTo P Q -> leadsTo Q R -> leadsTo P R.
Proof.
  intros HPQ HQR n HP. destruct (HPQ n HP) as (m & Hm & HQ).
  apply (eventually_from R n m Hm), HQR, HQ.
Qed.

(** What holds from the first position on where it holds is reached for
    good as soon as it is reached. *)
Lemma eventually_stable (P : nat -> Prop) (n : nat) :
  (forall m, P m -> P (S m)) -> eventually P n -> eventually (always P) n.
Proof.
  intros Hstep (m & Hm & H). exists m. split; [exact Hm |].
  intros k Hk. induction Hk; auto.
Qed.

#[export] Hint Resolve eventually_now eventually_from eventually_weaken always_from
  leadsTo_refl leadsTo_trans : temporal.

(** ** Runs *)

Section Runs.

Context `{C : Collaborators}.

(** The calls that change the state of a visitor or read it. *)
Inductive Call : Type :=
| CollectOperation (node : OperationDefinitionNode)
| AddImport (x : string)
| AddHookIdentifier (x : string)
| AddOptionsIdentifier (x : string)
| GetImports (baseImports : list string).

(** The state a call leaves. *)
Definition perform (call : option Call) (this : ReactQueryVisitor) : ReactQueryVisitor :=
  match call with
  | None => this
  | Some (CollectOperation node) => collectOperation this node
  | Some (AddImport x) => addImport this x
  | Some (AddHookIdentifier x) => addHookIdentifier this x
  | Some (AddOptionsIdentifier x) => addOptionsIdentifier this x
  | Some (GetImports baseImports) => snd (getImports baseImports this)
  end.

(** What a call returns to the plugin: the imports, for [getImports]. *)
Definition returned (call : option Call) (this : ReactQueryVisitor) : option (list string) :=
  match call with
  | Some (GetImports baseImports) => Some (fst (getImports baseImports this))
  | _ => None
  end.

Definition Run : Type := nat -> option Call.

(** The state before the call of position [n]. *)
Fixpoint stateAt (run : Run) (this : ReactQueryVisitor) (n : nat) : ReactQueryVisitor :=
  match n with
  | 0 => this
  | S n' => perform (run n') (stateAt run this n')
  end.

(** The run of a list of calls, after which nothing happens. *)
Definition runOf (calls : list Call) : Run := nth_error calls.

(** The state a list of calls leaves. *)
Definition performAll (calls : list Call) (this : ReactQueryVisitor) : ReactQueryVisitor :=
  fold_left (fun that call => perform (Some call) that) calls this.

(** The call of position [n] is a call of [getImports]. *)
Definition callsGetImports (run : Run) (n : nat) : Prop :=
  exists baseImports, run n = Some (GetImports baseImports).

(** No call of the run is its last one unless it is a call of
    [getImports]. *)
Definition endsWithGetImports (run : Run) : Prop :=
  leadsTo (fun n => run n <> None) (callsGetImports run).

(** The call brings the identifier into use. *)
Definition introduces (x : string) (call : option Call) : Prop :=
  call = Some (AddHookIdentifier x) \/ call = Some (AddOptionsIdentifier x).

(** The identifier is in one of the two sets. *)
Definition inUse (x : string) (this : ReactQueryVisitor) : Prop :=
  In x (reactQueryHookIdentifiersInUse this) \/ In x (reactQueryOptionsIdentifiersInUse this).

(** The call of position [n] returns imports whose last one names [x]. *)
Definition imported (run : Run) (this : ReactQueryVisitor) (x : string) (n : nat) : Prop :=
  exists baseImports line,
    returned (run n) (stateAt run this n) = Some (baseImports ++ [line])%list /\
    JsString.includes line x = true.

(** ** The runs and the step relation *)

Lemma perform_step (call : Call) (this : ReactQueryVisitor) :
  step this (perform (Some call) this).
Proof. destruct call; constructor. Qed.

Lemma step_perform (this that : ReactQueryVisitor) :
  step this that -> exists call, that = perform (Some call) this.
Proof.
  intros [t node|t x|t x|t x|t b];
    [exists (CollectOperation node) | exists (AddImport x) | exists (AddHookIdentifier x)
    | exists (AddOptionsIdentifier x) | exists (GetImports b)]; reflexivity.
Qed.

Lemma perform_reachable (call : option Call) (this that : ReactQueryVisitor) :
  reachable this that -> reachable this (perform call that).
Proof.
  intros H. destruct call as [call|]; [| exact H].
  eapply reachable_step; [exact H | apply perform_step].
Qed.

Lemma stateAt_reachable (run : Run) (this : ReactQueryVisitor) (n : nat) :
  reachable this (stateAt run this n).
Proof.
  induction n as [|n IH]; [apply reachable_refl | now apply perform_reachable].
Qed.

(** The states of a run from a later position are the states of the run
    of the later calls. *)
Lemma stateAt_add (run : Run) (this : ReactQueryVisitor) (n k : nat) :
  stateAt run this (n + k) = stateAt (fun i => run (n + i)) (stateAt run this n) k.
Proof.
  induction k as [|k IH]; [now rewrite Nat.add_0_r |].
  rewrite Nat.add_succ_r. cbn [stateAt]. now rewrite IH.
Qed.

Lemma stateAt_le (run : Run) (this : ReactQueryVisitor) (n m : nat) :
  n <= m -> reachable (stateAt run this n) (stateAt run this m).
Proof.
  intros H. replace m with (n + (m - n)) by lia.
  rewrite stateAt_add. apply stateAt_reachable.
Qed.

Lemma stateAt_runOf (calls : list Call) (this : ReactQueryVisitor) (n : nat) :
  stateAt (runOf calls) this n = performAll (firstn n calls) this.
Proof.
  unfold performAll, runOf. induction n as [|n IH]; [reflexivity |]. cbn [stateAt]. rewrite IH.
  destruct (nth_error calls n) as [call|] eqn:E.
  - rewrite (firstn_S_nth_error _ _ _ E). now rewrite fold_left_app.
  - apply nth_error_None in E. now rewrite !firstn_all2 by lia.
Qed.

Lemma performAll_reachable (calls : list Call) (this : ReactQueryVisitor) :
  reachable this (performAll calls this).
Proof.
  rewrite <- (firstn_all calls), <- stateAt_runOf. apply stateAt_reachable.
Qed.

(** The states the step relation reaches are the states the lists of
    calls leave. *)
Lemma reachable_performAll (this that : ReactQueryVisitor) :
  reachable this that <-> exists calls, that = performAll calls this.
Proof.
  split; [| intros [calls ->]; apply performAll_reachable].
  induction 1 as [|that that' _ [calls ->] Hstep]; [now exists [] |].
  apply step_perform in Hstep as [call ->]. exists (calls ++ [call])%list.
  unfold performAll. now rewrite fold_left_app.
Qed.

(** ** What a later call of [getImports] sees *)

Lemma stateAt_hasOperations (run : Run) (this : ReactQueryVisitor) (n m : nat) :
  n <= m -> hasOperations (stateAt run this n) = true ->
  hasOperations (stateAt run this m) = true.
Proof.
  intros Hnm. destruct (reachable_grows _ _ (stateAt_le run this n m Hnm))
    as (_ & _ & _ & Hlen).
  unfold hasOperations. rewrite !Nat.ltb_lt. lia.
Qed.

Lemma stateAt_inUse (run : Run) (this : ReactQueryVisitor) (x : string) (n m : nat) :
  n <= m -> inUse x (stateAt run this n) -> inUse x (stateAt run this m).
Proof.
  intros Hnm. destruct (reachable_grows _ _ (stateAt_le run this n m Hnm))
    as (Hh & Ho & _). intros [H|H]; [left; now apply Hh | right; now apply Ho].
Qed.

Lemma stateAt_config (run : Run) (this : ReactQueryVisitor) (n : nat) :
  config (stateAt run this n) = config this.
Proof. now destruct (reachable_sameSettings _ _ (stateAt_reachable run this n)) as (H & _). Qed.

Lemma collectOperation_hasOperations (this : ReactQueryVisitor)
  (node : OperationDefinitionNode) :
  hasOperations (collectOperation this node) = true.
Proof.
  unfold hasOperations, collectOperation. cbn [_collectedOperations].
  rewrite length_app. apply Nat.ltb_lt. cbn. lia.
Qed.

Lemma perform_introduces (x : string) (call : option Call) (this : ReactQueryVisitor) :
  introduces x call -> inUse x (perform call this).
Proof.
  intros [-> | ->]; [left | right]; cbn; apply setAdd_In; now right.
Qed.

(** The import names every identifier in use. *)
Lemma reactQueryImport_includes (this : ReactQueryVisitor) (x : string) :
  inUse x this -> JsString.includes (reactQueryImport this) x = true.
Proof.
  intros H. unfold reactQueryImport.
  apply JsString.includes_append_r, JsString.includes_append_l.
  destruct H as [H|H].
  - apply JsString.In_join_includes, in_or_app. now left.
  - apply JsString.includes_trans
      with (t := (if useTypeImports (config this) then "type " else "") ++ x).
    + apply JsString.In_join_includes, in_or_app. right.
      apply in_map_iff. now exists x.
    + apply JsString.includes_suffix.
Qed.

Lemma getImports_inUse (baseImports : list string) (this : ReactQueryVisitor) (x : string) :
  inUse x this -> inUse x (snd (getImports baseImports this)).
Proof.
  intros H. destruct (step_grows this _ (step_getImports this baseImports)) as (Hh & Ho & _).
  destruct H as [H|H]; [left; now apply Hh | right; now apply Ho].
Qed.

(** With a collected operation, [getImports] returns the imports of the
    base class and one more, which names every identifier in use. *)
Lemma getImports_names (baseImports : list string) (this : ReactQueryVisitor) (x : string) :
  hasOperations this = true -> inUse x this ->
  exists line, fst (getImports baseImports this) = (baseImports ++ [line])%list /\
               JsString.includes line x = true.
Proof.
  intros Ho Hx. pose proof (getImports_inUse baseImports this x Hx) as H.
  unfold getImports in *. rewrite Ho in *. cbn [negb fst snd] in *.
  eexists. split; [reflexivity |]. now apply reactQueryImport_includes.
Qed.

(** With a collected operation and infinite queries, [getImports] leaves
    [QueryFunctionContext] in use. *)
Lemma getImports_context (baseImports : list string) (this : ReactQueryVisitor) :
  hasOperations this = true -> addInfiniteQuery (config this) = true ->
  In "QueryFunctionContext"
    (reactQueryOptionsIdentifiersInUse (snd (getImports baseImports this))).
Proof.
  intros Ho Hi. unfold getImports. rewrite Ho, Hi. cbn. apply setAdd_In. now right.
Qed.

(** ** Liveness *)

Section Liveness.

Variable run : Run.
Variable this : ReactQueryVisitor.
Hypothesis run_ends : endsWithGetImports run.

(** After a call that is not one of [getImports], there is one. *)
Lemma getImports_follows (n : nat) :
  run n <> None -> ~ callsGetImports run n -> eventually (callsGetImports run) (S n).
Proof.
  intros Hn Hcall. destruct (run_ends n Hn) as (m & Hm & H). exists m. split; [| exact H].
  destruct (Nat.eq_dec n m) as [<-|]; [contradiction | lia].
Qed.

(** C22. An identifier that comes into use is imported: in a run that does
    not end before a call of [getImports], after every call that adds an
    identifier to one of the two sets while an operation is collected,
    there is a call of [getImports] that returns, after the imports of
    the base class, an import that names the identifier. *)
Theorem identifier_eventually_imported (x : string) (n : nat) :
  introduces x (run n) ->
  hasOperations (stateAt run this (S n)) = true ->
  eventually (imported run this x) (S n).
Proof.
  intros Hx Ho. destruct (getImports_follows n) as (m & Hm & b & Hb).
  - destruct Hx as [E|E]; rewrite E; discriminate.
  - intros [b Hb]. destruct Hx as [E|E]; rewrite E in Hb; discriminate Hb.
  - exists m. split; [exact Hm |]. unfold imported. rewrite Hb. cbn [returned].
    destruct (getImports_names b (stateAt run this m) x) as (line & E & Hline).
    + now apply (stateAt_hasOperations run this (S n)).
    + apply (stateAt_inUse run this x (S n)); [exact Hm |]. now apply perform_introduces.
    + exists b, line. now rewrite E.
Qed.

(** C21. With infinite queries, [QueryFunctionContext] comes into use for
    good: in a run that does not end before a call of [getImports],
    after every collection of an operation there is a position from which
    on the set of the options identifiers has [QueryFunctionContext]. *)
Theorem context_eventually_always (node : OperationDefinitionNode) (n : nat) :
  addInfiniteQuery (config this) = true ->
  run n = Some (CollectOperation node) ->
  eventually
    (always (fun k => In "QueryFunctionContext"
                        (reactQueryOptionsIdentifiersInUse (stateAt run this k)))) (S n).
Proof.
  intros Hi Hn. apply eventually_stable.
  { intros m. apply (reachable_grows _ _ (stateAt_le run this m (S m) (Nat.le_succ_diag_r m))). }
  destruct (getImports_follows n) as (m & Hm & b & Hb).
  - rewrite Hn; discriminate.
  - intros [b Hb]. rewrite Hn in Hb; discriminate Hb.
  - exists (S m). split; [lia |]. cbn [stateAt]. rewrite Hb. apply getImports_context.
    + apply (stateAt_hasOperations run this (S n)); [exact Hm |].
      cbn [stateAt]. rewrite Hn. apply collectOperation_hasOperations.
    + now rewrite stateAt_config.
Qed.

End Liveness.

(** A list of calls that ends with a call of [getImports] is a run that
    does not end before one. *)
Lemma runOf_ends (calls : list Call) (baseImports : list string) :
  endsWithGetImports (runOf (calls ++ [GetImports baseImports])).
Proof.
  intros n Hn. unfold runOf in *. apply nth_error_Some in Hn.
  rewrite length_app in Hn. cbn in Hn.
  exists (List.length calls). split; [lia |]. exists baseImports.
  now rewrite nth_error_app2, Nat.sub_diag by lia.
Qed.

End Runs.

(** ** Witnesses *)

Definition sampleCalls : list Call :=
  [CollectOperation (mkNode (Some "GetNode")); AddHookIdentifier "useQuery"].

Definition sampleRun : Run := runOf (sampleCalls ++ [GetImports []]).

Lemma identifier_eventually_imported_witness :
  eventually (imported sampleRun sampleVisitor "useQuery") 2.
Proof.
  apply (identifier_eventually_imported sampleRun sampleVisitor (runOf_ends sampleCalls [])
           "useQuery" 1).
  - left; reflexivity.
  - reflexivity.
Defined.

Lemma context_eventually_always_witness :
  eventually
    (always (fun k => In "QueryFunctionContext"
                        (reactQueryOptionsIdentifiersInUse
                           (stateAt sampleRun (constructor sampleSchema infiniteRawConfig []) k))))
    1.
Proof.
  apply (context_eventually_always sampleRun (constructor sampleSchema infiniteRawConfig [])
           (runOf_ends sampleCalls []) (mkNode (Some "GetNode")) 0); reflexivity.
Defined.

(** The import the sample run returns at its last call. *)
Example sampleRun_returned :
  returned (sampleRun 2) (stateAt sampleRun sampleVisitor 2) =
  Some ["import { useQuery } from 'react-query';"].
Proof. reflexivity. Qed.

(** Without a call of [getImports] the identifier stays out of use: the
    assumption on the run is needed. *)
Example context_needs_getImports :
  forall k,
    ~ In "QueryFunctionContext"
        (reactQueryOptionsIdentifiersInUse
           (stateAt (runOf sampleCalls) (constructor sampleSchema infiniteRawConfig []) k)).
Proof.
  intros k. rewrite stateAt_runOf.
  destruct k as [|[|[|k]]]; cbn; intros H; exact H.
Qed.
