(* ===== verification/Target.v ===== *)
(** * Target: the emitted entries as a tree

    The lines [transformJsonFields] returns are the text of the entries of
    an object literal.  This file gives them a structure: a [Path] is a
    variable followed by member accesses, an [Entry] is one overriding
    entry (a JSON leaf, a nested object, a mapped list).  [entriesOf]
    builds the tree of a record by the recursion of the source, with the
    same decoding of names and the same paths; [renderEntries] prints a
    tree as lines.  The refinement theorems say that the lines the
    source's functions return are the rendering of the tree, so that what
    is proved of the tree is proved of the text.  On a well-formed
    record, no object literal of the tree defines a property twice. *)

From Stdlib Require Import String Ascii List ZArith Lia Bool.
From S2P Require Import Prelude JsString Shape Detector Transform Decode Emitters.
Import ListNotations.
Local Open Scope string_scope.

(** ** The tree *)

(** [x], [p.name] and [p?.name] *)
Inductive Path : Type :=
| PVar (x : string)
| PMember (p : Path) (optional : bool) (name : string).

Unset Elimination Schemes.
Inductive Entry : Type :=
| EJson (name : string) (path : Path) (transformer : Transformer)
| ENested (name : string) (path : Path) (entries : list Entry)
| EMapped (name : string) (path : Path) (x : string) (entries : list Entry).
Set Elimination Schemes.

Definition Entry_ind (P : Entry -> Prop)
  (HJson : forall name path t, P (EJson name path t))
  (HNested : forall name path es, Forall P es -> P (ENested name path es))
  (HMapped : forall name path x es, Forall P es -> P (EMapped name path x es)) :
  forall e, P e :=
  fix go (e : Entry) : P e :=
    let all := fix all (l : list Entry) : Forall P l :=
      match l with
      | [] => Forall_nil _
      | e' :: l' => Forall_cons e' (go e') (all l')
      end in
    match e with
    | EJson name path t => HJson name path t
    | ENested name path es => HNested name path es (all es)
    | EMapped name path x es => HMapped name path x es (all es)
    end.

(** ** Rendering *)

(** The mark of a path after which the next access is optional. *)
Definition optionalMark (optional : bool) : string := if optional then "?" else "".

Fixpoint renderPath (p : Path) : string :=
  match p with
  | PVar x => x
  | PMember p' optional name => renderPath p' ++ optionalMark optional ++ "." ++ name
  end.

Fixpoint renderEntry (e : Entry) : list string :=
  match e with
  | EJson name path t => [jsonLine t name (renderPath path)]
  | ENested name path es =>
      [name ++ ": {"; "..." ++ renderPath path ++ ","]
      ++ flat_map renderEntry es ++ ["},"]
  | EMapped name path x es =>
      [name ++ ": " ++ renderPath path ++ "?.map((" ++ x ++ ") => ({"; "..." ++ x ++ ","]
      ++ flat_map renderEntry es ++ ["})),"]
  end.

Definition renderEntries (es : list Entry) : list string := flat_map renderEntry es.

(** ** The tree of a record *)

(** The entry of one field, if it has one: the field [name] of the value
    at [base], read optionally when [optional]. *)
Fixpoint entryOf (t : Transformer) (base : Path) (optional : bool) (field : string)
  (fieldValue : FieldValue) {struct fieldValue} : list Entry :=
  let name := fieldNameOf field in
  let path := PMember base optional name in
  match fieldValue with
  | Scalar typeName =>
      if String.eqb typeName AWSJSON then [EJson name path t] else []
  | Object fs =>
      if isArray field then
        let x := fieldNameSingular name in
        [EMapped name path x
           (flat_map (fun kv => entryOf t (PVar x) true (fst kv) (snd kv)) fs)]
      else
        [ENested name path
           (flat_map (fun kv => entryOf t path true (fst kv) (snd kv)) fs)]
  end.

Definition entriesOf (t : Transformer) (base : Path) (optional : bool) (fs : Fields)
  : list Entry :=
  flat_map (fun kv => entryOf t base optional (fst kv) (snd kv)) fs.

(** ** Well-formed trees of entries *)

(** The property an entry defines. *)
Definition entryName (e : Entry) : string :=
  match e with
  | EJson name _ _ => name
  | ENested name _ _ => name
  | EMapped name _ _ _ => name
  end.

(** No object literal of the entry defines a property twice. *)
#[warnings="-register-all"]
Inductive wfEntry : Entry -> Prop :=
| wfEntry_json name path t : wfEntry (EJson name path t)
| wfEntry_nested name path es :
    NoDup (map entryName es) -> Forall wfEntry es -> wfEntry (ENested name path es)
| wfEntry_mapped name path x es :
    NoDup (map entryName es) -> Forall wfEntry es -> wfEntry (EMapped name path x es).

(** ** Refinement: the emitted lines are the rendering of the tree *)

Lemma renderEntry_entryOf (t : Transformer) (v : FieldValue) :
  forall base optional field,
    renderEntries (entryOf t base optional field v) =
    transformField t (renderPath base ++ optionalMark optional) field v.
Proof.
  unfold renderEntries.
  induction v as [ty|fs IH] using FieldValue_ind; intros base optional field.
  - simpl. destruct (String.eqb ty AWSJSON); simpl; [| reflexivity].
    now autorewrite with str.
  - assert (E : forall b o,
      flat_map renderEntry (flat_map (fun kv => entryOf t b o (fst kv) (snd kv)) fs) =
      flat_map (fun kv => transformField t (renderPath b ++ optionalMark o) (fst kv) (snd kv)) fs).
    { intros b o. rewrite flat_map_flat_map. apply flat_map_ext_Forall.
      eapply Forall_impl; [|exact IH]. intros kv H; apply H. }
    cbn [entryOf transformField]. destruct (isArray field); cbn [flat_map renderEntry];
      rewrite app_nil_r, E; cbn [renderPath optionalMark]; now autorewrite with str.
Qed.

Lemma renderEntries_entriesOf (t : Transformer) (base : Path) (optional : bool)
  (fs : Fields) :
  renderEntries (entriesOf t base optional fs) =
  flat_map (fun kv => transformField t (renderPath base ++ optionalMark optional)
                        (fst kv) (snd kv)) fs.
Proof.
  unfold renderEntries, entriesOf. rewrite flat_map_flat_map.
  apply flat_map_ext_Forall, Forall_forall. intros kv _. apply renderEntry_entryOf.
Qed.

(** The lines of a record read at a variable. *)
Lemma renderEntries_root (t : Transformer) (x : string) (fields : FieldValue) :
  renderEntries (entriesOf t (PVar x) false (entries fields)) =
  transformJsonFields fields x t.
Proof.
  rewrite renderEntries_entriesOf. cbn [renderPath optionalMark].
  now autorewrite with str.
Qed.

(** C2. The lines [transformJsonFields] returns for a node, a path and a
    direction are the rendering of the tree of entries of the node: one
    entry per JSON leaf, nested object and list of objects, each reading
    its value at the path of its field. *)
Theorem transformJsonFields_refines (t : Transformer) (base : Path) (optional : bool)
  (fields : FieldValue) :
  transformJsonFields fields (renderPath base ++ optionalMark optional) t =
  renderEntries (entriesOf t base optional (entries fields)).
Proof.
  symmetry. apply renderEntries_entriesOf.
Qed.

Example entriesOf_example_C :
  entriesOf parse (PVar "list") false [("items[]", Object [("meta", Scalar AWSJSON)])] =
  [EMapped "items" (PMember (PVar "list") false "items") "item"
     [EJson "meta" (PMember (PVar "item") true "meta") parse]].
Proof. reflexivity. Qed.

(** ** The entries of a well-formed record *)

(** The fields that have an entry: the JSON leaves and the objects. *)
Lemma entryName_entryOf (t : Transformer) (base : Path) (optional : bool) (field : string)
  (v : FieldValue) :
  map entryName (entryOf t base optional field v) =
  if isObject v || isJsonScalar v then [fieldNameOf field] else [].
Proof.
  destruct v as [ty|fs]; cbn [entryOf isObject isJsonScalar orb].
  - now destruct (String.eqb ty AWSJSON).
  - now destruct (isArray field).
Qed.

Lemma entryName_entriesOf (t : Transformer) (base : Path) (optional : bool) (fs : Fields) :
  map entryName (entriesOf t base optional fs) =
  map (fun kv => fieldNameOf (fst kv))
      (filter (fun kv => isObject (snd kv) || isJsonScalar (snd kv)) fs).
Proof.
  unfold entriesOf. induction fs as [|[k v] fs IH]; [reflexivity |].
  cbn [flat_map filter fst snd]. rewrite map_app, IH, entryName_entryOf.
  now destruct (isObject v || isJsonScalar v).
Qed.

Lemma entriesOf_NoDup (t : Transformer) (base : Path) (optional : bool) (fs : Fields) :
  wf (Object fs) -> NoDup (map entryName (entriesOf t base optional fs)).
Proof.
  intros H. rewrite entryName_entriesOf. apply NoDup_map_filter, wf_fieldNames, H.
Qed.

Lemma entryOf_wfEntry (v : FieldValue) :
  wf v -> forall t base optional field, Forall wfEntry (entryOf t base optional field v).
Proof.
  induction v as [ty|fs IH] using FieldValue_ind; intros Hwf t base optional field.
  - cbn [entryOf]. destruct (String.eqb ty AWSJSON); repeat constructor.
  - assert (Hall : forall b o, Forall wfEntry (entriesOf t b o fs)).
    { intros b o. apply Forall_flat_map, Forall_forall. intros kv Hin.
      pose proof (wf_children _ Hwf) as Hc. rewrite Forall_forall in IH, Hc.
      now apply IH, Hc. }
    cbn [entryOf]. destruct (isArray field); repeat constructor;
      solve [apply (entriesOf_NoDup _ _ _ _ Hwf) | apply Hall].
Qed.

(** C31. No object literal the builder emits for a well-formed record
    defines a property twice: the entries of the record have distinct
    names, and so have the entries of every nested object and of every
    mapped element below. *)
Theorem entriesOf_wfEntry (t : Transformer) (base : Path) (optional : bool) (fs : Fields) :
  wf (Object fs) ->
  NoDup (map entryName (entriesOf t base optional fs)) /\
  Forall wfEntry (entriesOf t base optional fs).
Proof.
  intros H. split; [now apply entriesOf_NoDup |].
  apply Forall_flat_map, Forall_forall. intros kv Hin.
  pose proof (wf_children _ H) as Hc. rewrite Forall_forall in Hc.
  now apply entryOf_wfEntry, Hc.
Qed.

Lemma entriesOf_wfEntry_witness :
  NoDup (map entryName
           (entriesOf parse (PVar "node") false
              [("id!", Scalar "ID"); ("payload", Scalar AWSJSON);
               ("items[]", Object [("meta", Scalar AWSJSON)])])) /\
  Forall wfEntry
    (entriesOf parse (PVar "node") false
       [("id!", Scalar "ID"); ("payload", Scalar AWSJSON);
        ("items[]", Object [("meta", Scalar AWSJSON)])]).
Proof.
  apply entriesOf_wfEntry.
  apply wfb_spec. reflexivity.
Defined.

(** ** The bodies of the two transformers *)

(** The body of the output transformer: the root field cast to its type,
    or the guarded object that spreads it and overrides its entries. *)
Inductive OutputBody : Type :=
| OutCast (field type : string)
| OutTransform (field type : string) (entries : list Entry).

(** The body of the input transformer: [undefined], the parameter cast to
    its type, or the object that spreads the parameter and overrides the
    variables that have a JSON leaf, each by an object of its entries. *)
Inductive InputBody : Type :=
| InUndefined
| InCast (type : string)
| InTransform (type : string) (variables : list (string * list Entry)).

Definition outputBodyOf (outputType : OutputType) : OutputBody :=
  if hasJsonFields (fields outputType) then
    OutTransform (fieldName outputType) (typeName outputType)
      (entriesOf parse (PVar (fieldName outputType)) false
         (entries (orEmpty (fields outputType))))
  else OutCast (fieldName outputType) (typeName outputType).

Definition variableEntriesOf (kv : string * VariableType) : string * list Entry :=
  (fst kv,
   entriesOf stringify (PMember (PVar "variables") false (fst kv)) false
     (entries (orEmpty (variableFields (snd kv))))).

Definition inputBodyOf (operationVariablesTypes : string) (vt : VariablesType) : InputBody :=
  match vt with
  | [] => InUndefined
  | _ :: _ =>
      if existsb (fun kv => hasJsonFields (variableFields (snd kv))) vt then
        InTransform operationVariablesTypes
          (map variableEntriesOf
             (filter (fun kv => hasJsonFields (variableFields (snd kv))) vt))
      else InCast operationVariablesTypes
  end.

Definition renderOutputBody (b : OutputBody) : string :=
  match b with
  | OutCast field type => field ++ " as " ++ type
  | OutTransform field type es =>
      field ++ " && ({..." ++ field ++ ", " ++ JsString.join (renderEntries es) nl
      ++ " }) as " ++ type
  end.

(** The entries of a variable are printed as the template prints an
    array: joined by commas. *)
Definition renderVariable (v : string * list Entry) : string :=
  fst v ++ ": { " ++ JsString.toString (renderEntries (snd v)) ++ " },".

Definition renderInputBody (b : InputBody) : string :=
  match b with
  | InUndefined => "undefined"
  | InCast type => "variables as " ++ type
  | InTransform type vs =>
      "({...variables, " ++ JsString.join (map renderVariable vs) nl ++ " }) as " ++ type
  end.

(** C10. The text of the output transformer is its header, the rendering
    of the body [outputBodyOf] and a semicolon. *)
Theorem generateOutputTransformer_refines (operationName operationVariablesTypes
  operationResultType : string) (hasRequiredVariables : bool) (outputType : OutputType) :
  generateOutputTransformer operationName operationVariablesTypes operationResultType
    hasRequiredVariables outputType =
  Normal (outputHeader operationName operationResultType outputType
          ++ renderOutputBody (outputBodyOf outputType) ++ ";").
Proof.
  rewrite generateOutputTransformer_eq. unfold outputBodyOf.
  destruct (hasJsonFields (fields outputType)); cbn [renderOutputBody]; [| reflexivity].
  now rewrite renderEntries_root.
Qed.

(** When some variable has a JSON leaf, the body overrides the
    variables that have one. *)
Lemma inputBodyOf_transform (operationVariablesTypes : string) (vt : VariablesType)
  (kv : string * VariableType) (rest : VariablesType) :
  filter (fun kv => hasJsonFields (variableFields (snd kv))) vt = kv :: rest ->
  inputBodyOf operationVariablesTypes vt =
  InTransform operationVariablesTypes (map variableEntriesOf (kv :: rest)).
Proof.
  intros H. unfold inputBodyOf. destruct vt as [|kv0 vt0]; [discriminate H |].
  assert (Hin : In kv (kv :: rest)) by (left; reflexivity).
  rewrite <- H in Hin.
  assert (He : existsb (fun kv => hasJsonFields (variableFields (snd kv))) (kv0 :: vt0) = true).
  { apply existsb_exists. exists kv. now apply filter_In in Hin. }
  now rewrite He, H.
Qed.

Lemma renderVariable_variableEntry (kv : string * VariableType) :
  renderVariable (variableEntriesOf kv) = variableEntry (fst kv) (snd kv).
Proof.
  unfold renderVariable, variableEntriesOf, variableEntry. cbn [fst snd].
  rewrite renderEntries_entriesOf. cbn [renderPath optionalMark].
  now autorewrite with str.
Qed.

(** C34. The text of the input transformer is its comment, its
    declaration and the rendering of the body [inputBodyOf]. *)
Theorem generateInputTransformer_refines (operationName operationVariablesTypes
  operationResultType : string) (hasRequiredVariables : bool) (vt : VariablesType) :
  generateInputTransformer operationName operationVariablesTypes operationResultType
    hasRequiredVariables (Some vt) =
  Normal (nl ++ inputComment operationName operationVariablesTypes
                  (negb (Nat.eqb (List.length vt) 0)) ++ nl
          ++ "export const " ++ operationName ++ "Input = ("
          ++ (if Nat.eqb (List.length vt) 0 then ""
              else generateQueryVariablesSignature hasRequiredVariables operationVariablesTypes)
          ++ ") => " ++ renderInputBody (inputBodyOf operationVariablesTypes vt) ++ ";").
Proof.
  unfold generateInputTransformer, inputBodyOf; cbn [bind toObject].
  destruct vt as [|kv vt]; [reflexivity |].
  cbn [map List.length Nat.ltb Nat.leb Nat.eqb negb].
  destruct (existsb _ (kv :: vt)); cbn [renderInputBody]; [| now autorewrite with str].
  rewrite map_map. erewrite (map_ext (fun x => renderVariable (variableEntriesOf x)));
    [| intros x; apply renderVariable_variableEntry].
  now autorewrite with str.
Qed.
