(* ===== verification/Parse.v ===== *)
(** * Parse: reading the emitted lines back

    [Target] prints a tree of entries as the lines [transformJsonFields]
    returns.  This file reads such lines back: [parseLine] recognises
    the six kinds of lines from the tokens of [Lexer], [parseBlock]
    rebuilds the tree from the lines with a stack of the entries that
    are open, and [parseEntries] composes the two.  The theorems say that
    reading is the inverse of printing on the trees whose names are
    names ([lexicalEntry]), so the lines determine the tree, and that
    the lines the source emits for a shape whose field names are GraphQL
    names are read back as the tree of the shape. *)

From Stdlib Require Import String Ascii List Arith Lia Bool.
From S2P Require Import Prelude JsString Lexer Shape Detector Transform Decode Emitters Target.
Import ListNotations.
Local Open Scope string_scope.

(** ** Lines *)

(** The kinds of lines the builder pushes: the entry of a JSON leaf, the
    opening of a nested object, the opening of a mapped list, the spread
    that follows an opening, and the two closings. *)
Inductive Line : Type :=
| LJson (name : string) (path : Path) (transformer : Transformer)
| LNested (name : string)
| LMapped (name : string) (path : Path) (x : string)
| LSpread (path : Path)
| LCloseNested
| LCloseMapped.

Definition lineText (l : Line) : string :=
  match l with
  | LJson name path t => jsonLine t name (renderPath path)
  | LNested name => name ++ ": {"
  | LMapped name path x => name ++ ": " ++ renderPath path ++ "?.map((" ++ x ++ ") => ({"
  | LSpread path => "..." ++ renderPath path ++ ","
  | LCloseNested => "},"
  | LCloseMapped => "})),"
  end.

Fixpoint entryLines (e : Entry) : list Line :=
  match e with
  | EJson name path t => [LJson name path t]
  | ENested name path es =>
      LNested name :: LSpread path :: flat_map entryLines es ++ [LCloseNested]
  | EMapped name path x es =>
      LMapped name path x :: LSpread (PVar x) :: flat_map entryLines es ++ [LCloseMapped]
  end.

(** ** Paths as a root and its accesses *)

Fixpoint root (p : Path) : string :=
  match p with
  | PVar x => x
  | PMember p' _ _ => root p'
  end.

Fixpoint accesses (p : Path) : list (bool * string) :=
  match p with
  | PVar _ => []
  | PMember p' optional name => accesses p' ++ [(optional, name)]
  end.

Definition access (p : Path) (a : bool * string) : Path := PMember p (fst a) (snd a).

Definition pathOf (p : Path) (accs : list (bool * string)) : Path := fold_left access accs p.

Definition accessTokens (a : bool * string) : list Token :=
  (if fst a then [TSym "?"] else []) ++ [TSym "."; TIdent (snd a)].

Definition pathTokens (p : Path) : list Token :=
  TIdent (root p) :: flat_map accessTokens (accesses p).

Fixpoint pathEqb (p q : Path) : bool :=
  match p, q with
  | PVar x, PVar y => String.eqb x y
  | PMember p' o n, PMember q' o' n' => pathEqb p' q' && Bool.eqb o o' && String.eqb n n'
  | _, _ => false
  end.

(** ** The trees whose names are names *)

Fixpoint lexicalPath (p : Path) : bool :=
  match p with
  | PVar x => identifier x
  | PMember p' _ name => lexicalPath p' && identifier name
  end.

Fixpoint lexicalEntry (e : Entry) : bool :=
  match e with
  | EJson name path _ => identifier name && lexicalPath path
  | ENested name path es => identifier name && lexicalPath path && forallb lexicalEntry es
  | EMapped name path x es =>
      identifier name && lexicalPath path && identifier x && forallb lexicalEntry es
  end.

Definition lexicalLine (l : Line) : bool :=
  match l with
  | LJson name path _ => identifier name && lexicalPath path
  | LNested name => identifier name
  | LMapped name path x => identifier name && lexicalPath path && identifier x
  | LSpread path => lexicalPath path
  | LCloseNested | LCloseMapped => true
  end.

(** ** Reading a line *)

(** The tokens of a text of the builder. *)
Definition lit (s : string) : list Token := lex s.

Definition startsWithParen (ts : list Token) : bool :=
  match ts with
  | TSym c :: _ => Ascii.eqb c "("
  | _ => false
  end.

(** The accesses that follow a path, up to the call of [map]. *)
Fixpoint parsePath (p : Path) (ts : list Token) {struct ts} : Path * list Token :=
  match ts with
  | TSym c :: TIdent name :: ts' =>
      if Ascii.eqb c "." then parsePath (PMember p false name) ts' else (p, ts)
  | TSym c :: TSym d :: TIdent name :: ts' =>
      if Ascii.eqb c "?" && Ascii.eqb d "."
         && negb (String.eqb name "map" && startsWithParen ts')
      then parsePath (PMember p true name) ts' else (p, ts)
  | _ => (p, ts)
  end.

Definition parseRooted (ts : list Token) : option (Path * list Token) :=
  match ts with
  | TIdent x :: r => Some (parsePath (PVar x) r)
  | _ => None
  end.

(** What stands between the two paths of a JSON entry, and after. *)
Definition jsonCall (t : Transformer) : list Token :=
  match t with
  | parse => lit " && JSON.parse("
  | stringify => lit " && JSON.stringify("
  end.

Definition jsonCast (t : Transformer) : list Token :=
  match t with
  | parse => lit " as unknown as string),"
  | stringify => lit " as unknown as Record<string, any>),"
  end.

Definition parseJson (name : string) (p : Path) (t : Transformer) (r : list Token)
  : option Line :=
  match stripTokens (jsonCall t) r with
  | Some r1 =>
      match parseRooted r1 with
      | Some (q, r2) =>
          if pathEqb p q && tokensEqb r2 (jsonCast t) then Some (LJson name p t) else None
      | None => None
      end
  | None => None
  end.

Definition parseMapped (name : string) (p : Path) (r : list Token) : option Line :=
  match stripTokens (lit "?.map((") r with
  | Some (TIdent x :: r1) =>
      if tokensEqb r1 (lit ") => ({") then Some (LMapped name p x) else None
  | _ => None
  end.

Definition orElse {A : Type} (a b : option A) : option A :=
  match a with
  | Some _ => a
  | None => b
  end.

(** What follows the name and the colon of an entry. *)
Definition parseEntryLine (name : string) (r : list Token) : option Line :=
  if tokensEqb r (lit "{") then Some (LNested name)
  else match parseRooted r with
       | Some (p, r1) =>
           orElse (parseJson name p parse r1)
             (orElse (parseJson name p stringify r1) (parseMapped name p r1))
       | None => None
       end.

Definition parseSpread (r : list Token) : option Line :=
  match parseRooted r with
  | Some (p, r1) => if tokensEqb r1 (lit ",") then Some (LSpread p) else None
  | None => None
  end.

Definition parseTokens (ts : list Token) : option Line :=
  if tokensEqb ts (lit "},") then Some LCloseNested
  else if tokensEqb ts (lit "})),") then Some LCloseMapped
  else match ts with
       | TIdent name :: r =>
           match stripTokens (lit ": ") r with
           | Some r1 => parseEntryLine name r1
           | None => None
           end
       | _ =>
           match stripTokens (lit "...") ts with
           | Some r => parseSpread r
           | None => None
           end
       end.

Definition parseLine (s : string) : option Line := parseTokens (lex s).

(** ** Reading a block of lines *)

(** An entry that is open: a nested object or a mapped list, with its
    name and path. *)
Inductive Open : Type :=
| ONested (name : string) (path : Path)
| OMapped (name : string) (path : Path) (x : string).

(** The entries of [ls], after the entries [cur] of the innermost open
    entry (the last one first) and inside the open entries of [stack],
    each with the entries read before it. *)
Fixpoint parseBlock (ls : list Line) (cur : list Entry) (stack : list (Open * list Entry))
  {struct ls} : option (list Entry) :=
  match ls with
  | [] =>
      match stack with
      | [] => Some (rev cur)
      | _ :: _ => None
      end
  | LJson name path t :: ls' => parseBlock ls' (EJson name path t :: cur) stack
  | LNested name :: LSpread path :: ls' => parseBlock ls' [] ((ONested name path, cur) :: stack)
  | LMapped name path x :: LSpread (PVar y) :: ls' =>
      if String.eqb x y then parseBlock ls' [] ((OMapped name path x, cur) :: stack) else None
  | LCloseNested :: ls' =>
      match stack with
      | (ONested name path, before) :: stack' =>
          parseBlock ls' (ENested name path (rev cur) :: before) stack'
      | _ => None
      end
  | LCloseMapped :: ls' =>
      match stack with
      | (OMapped name path x, before) :: stack' =>
          parseBlock ls' (EMapped name path x (rev cur) :: before) stack'
      | _ => None
      end
  | _ => None
  end.

(** The lines, one by one. *)
Fixpoint parseLines (lines : list string) : option (list Line) :=
  match lines with
  | [] => Some []
  | s :: lines' =>
      match parseLine s, parseLines lines' with
      | Some l, Some ls => Some (l :: ls)
      | _, _ => None
      end
  end.

Definition parseEntries (lines : list string) : option (list Entry) :=
  match parseLines lines with
  | Some ls => parseBlock ls [] []
  | None => None
  end.

(** ** The shapes whose names are names *)

(** The name of the field, and of the element when the field is a list
    of objects, are names. *)
Definition lexicalField (field : string) (v : FieldValue) : bool :=
  identifier (fieldNameOf field)
  && (negb (isObject v && isArray field) || identifier (fieldNameSingular (fieldNameOf field))).

Fixpoint lexicalShape (v : FieldValue) : bool :=
  match v with
  | Scalar _ => true
  | Object fs => forallb (fun kv => lexicalField (fst kv) (snd kv) && lexicalShape (snd kv)) fs
  end.

(** ** Printing by lines *)

Lemma renderEntry_lines (e : Entry) : renderEntry e = map lineText (entryLines e).
Proof.
  induction e as [name path t|name path es IH|name path x es IH] using Entry_ind;
    cbn [renderEntry entryLines map lineText renderPath app]; [reflexivity | |];
    rewrite map_app, map_flat_map; do 3 f_equal; now apply flat_map_ext_Forall.
Qed.

Lemma renderEntries_lines (es : list Entry) :
  renderEntries es = map lineText (flat_map entryLines es).
Proof.
  unfold renderEntries. rewrite map_flat_map. apply flat_map_ext_Forall, Forall_forall.
  intros e _. apply renderEntry_lines.
Qed.

(** ** Paths *)

Lemma pathOf_app (p : Path) (accs : list (bool * string)) (a : bool * string) :
  pathOf p (accs ++ [a]) = access (pathOf p accs) a.
Proof. unfold pathOf. now rewrite fold_left_app. Qed.

Lemma pathOf_accesses (p : Path) : pathOf (PVar (root p)) (accesses p) = p.
Proof.
  induction p as [x|p IH o n]; [reflexivity |].
  cbn [root accesses]. now rewrite pathOf_app, IH.
Qed.

Lemma pathEqb_spec (p q : Path) : reflect (p = q) (pathEqb p q).
Proof.
  revert q. induction p as [x|p IH o n]; intros [y|q o' n']; cbn;
    try (constructor; discriminate).
  - destruct (String.eqb_spec x y); constructor; congruence.
  - destruct (IH q); [| constructor; congruence].
    destruct (Bool.eqb_spec o o'); [| constructor; congruence].
    destruct (String.eqb_spec n n'); constructor; congruence.
Qed.

Lemma pathEqb_refl (p : Path) : pathEqb p p = true.
Proof. now destruct (pathEqb_spec p p). Qed.

Lemma pathTokens_member (p : Path) (o : bool) (n : string) :
  pathTokens (PMember p o n) = (pathTokens p ++ accessTokens (o, n))%list.
Proof.
  unfold pathTokens. cbn [root accesses]. rewrite flat_map_app. cbn [flat_map].
  now rewrite app_nil_r.
Qed.

(** The tokens of a printed path. *)
Lemma lex_renderPath (p : Path) : lexicalPath p = true -> lex (renderPath p) = pathTokens p.
Proof.
  induction p as [x|p IH o n]; cbn [lexicalPath renderPath]; intros H.
  - now apply lex_identifier.
  - apply andb_prop in H as [Hp Hn]. rewrite pathTokens_member, <- (IH Hp).
    rewrite lex_app_r by now destruct o.
    f_equal. destruct o; cbn [optionalMark append]; rewrite !lex_sym by reflexivity;
      now rewrite lex_identifier.
Qed.

Lemma lex_renderPath_app (p : Path) (s : string) :
  lexicalPath p = true -> startsSym s = true ->
  lex (renderPath p ++ s) = (pathTokens p ++ lex s)%list.
Proof. intros Hp Hs. now rewrite lex_app_r, lex_renderPath. Qed.

(** The tokens at which the reading of a path stops. *)
Definition stops (ts : list Token) : Prop :=
  (forall p, parsePath p ts = (p, ts)) /\ startsWithParen ts = false.

Lemma startsWithParen_accesses (accs : list (bool * string)) (rest : list Token) :
  startsWithParen rest = false ->
  startsWithParen (flat_map accessTokens accs ++ rest) = false.
Proof. intros H. now destruct accs as [|[[] n] accs]. Qed.

Lemma parsePath_accesses (accs : list (bool * string)) :
  forall p rest, stops rest ->
    parsePath p (flat_map accessTokens accs ++ rest) = (pathOf p accs, rest).
Proof.
  induction accs as [|[o n] accs IH]; intros p rest Hs; [apply Hs |].
  cbn [flat_map]. rewrite <- app_assoc.
  destruct o; cbn [accessTokens fst snd app parsePath].
  - rewrite (startsWithParen_accesses accs rest) by apply Hs.
    rewrite andb_false_r. cbn. now apply IH.
  - cbn. now apply IH.
Qed.

Lemma parseRooted_path (p : Path) (rest : list Token) :
  stops rest -> parseRooted (pathTokens p ++ rest) = Some (p, rest).
Proof.
  intros Hs. unfold pathTokens. cbn [app parseRooted].
  now rewrite parsePath_accesses, pathOf_accesses.
Qed.

(** ** Lines *)

(** The tokens of a line. *)
Definition lineTokens (l : Line) : list Token :=
  match l with
  | LJson name path t =>
      TIdent name :: lit ": " ++ pathTokens path ++ jsonCall t ++ pathTokens path ++ jsonCast t
  | LNested name => TIdent name :: lit ": {"
  | LMapped name path x =>
      TIdent name :: lit ": " ++ pathTokens path ++ lit "?.map((" ++ TIdent x :: lit ") => ({"
  | LSpread path => lit "..." ++ pathTokens path ++ lit ","
  | LCloseNested => lit "},"
  | LCloseMapped => lit "})),"
  end.

Lemma lex_lineText (l : Line) : lexicalLine l = true -> lex (lineText l) = lineTokens l.
Proof.
  destruct l as [name path t|name|name path x|path| |];
    cbn [lexicalLine lineText lineTokens]; unfold jsonCall, jsonCast, jsonLine, lit;
    intros H; destr_bool; try destruct t; lex_parts;
    rewrite ?lex_renderPath, ?lex_identifier by assumption; reflexivity.
Qed.

(** *** Reading the tokens of a line *)

(** Closes a goal on the tokens of the builder's texts by evaluation. *)
Ltac by_tokens := intros; vm_compute; reflexivity.

Lemma stops_jsonCall (t : Transformer) (rest : list Token) : stops (jsonCall t ++ rest).
Proof. destruct t; split; by_tokens. Qed.

Lemma stops_jsonCast (t : Transformer) : stops (jsonCast t).
Proof. destruct t; split; by_tokens. Qed.

Lemma stops_map (rest : list Token) : stops (lit "?.map((" ++ rest).
Proof. split; by_tokens. Qed.

Lemma stops_comma : stops (lit ",").
Proof. split; by_tokens. Qed.

Lemma parseJson_tokens (name : string) (p : Path) (t : Transformer) :
  parseJson name p t (jsonCall t ++ pathTokens p ++ jsonCast t) = Some (LJson name p t).
Proof.
  unfold parseJson. rewrite stripTokens_app, parseRooted_path by apply stops_jsonCast.
  now rewrite pathEqb_refl, tokensEqb_refl.
Qed.

(** The entry of one direction is not read as an entry of the other,
    nor the opening of a mapped list as an entry of either. *)
Lemma parseJson_stringify (name : string) (p : Path) (rest : list Token) :
  parseJson name p parse (jsonCall stringify ++ rest) = None.
Proof. by_tokens. Qed.

Lemma parseJson_map (name : string) (p : Path) (t : Transformer) (rest : list Token) :
  parseJson name p t (lit "?.map((" ++ rest) = None.
Proof. destruct t; by_tokens. Qed.

Lemma parseMapped_tokens (name : string) (p : Path) (x : string) :
  parseMapped name p (lit "?.map((" ++ TIdent x :: lit ") => ({") = Some (LMapped name p x).
Proof. unfold parseMapped. now rewrite stripTokens_app, tokensEqb_refl. Qed.

Lemma parseEntryLine_path (name : string) (p : Path) (rest : list Token) :
  stops rest ->
  parseEntryLine name (pathTokens p ++ rest) =
  orElse (parseJson name p parse rest)
    (orElse (parseJson name p stringify rest) (parseMapped name p rest)).
Proof.
  intros Hs. unfold parseEntryLine, pathTokens. cbn [app tokensEqb lit].
  change (tokensEqb (TIdent (root p) :: flat_map accessTokens (accesses p) ++ rest) (lex "{"))
    with false. cbv iota.
  change (TIdent (root p) :: flat_map accessTokens (accesses p) ++ rest)%list
    with (pathTokens p ++ rest)%list.
  now rewrite parseRooted_path.
Qed.

Lemma parseTokens_entry (name : string) (r : list Token) :
  parseTokens (TIdent name :: lit ": " ++ r) = parseEntryLine name r.
Proof.
  unfold parseTokens.
  change (tokensEqb (TIdent name :: lit ": " ++ r) (lit "},")) with false.
  change (tokensEqb (TIdent name :: lit ": " ++ r) (lit "})),")) with false.
  cbv iota. now rewrite stripTokens_app.
Qed.

Lemma parseTokens_spread (p : Path) :
  parseTokens (lit "..." ++ pathTokens p ++ lit ",") = Some (LSpread p).
Proof.
  unfold parseTokens, parseSpread.
  change (tokensEqb (lit "..." ++ pathTokens p ++ lit ",") (lit "},")) with false.
  change (tokensEqb (lit "..." ++ pathTokens p ++ lit ",") (lit "})),")) with false.
  change (lit "..." ++ pathTokens p ++ lit ",")%list
    with (TSym "." :: lit ".." ++ pathTokens p ++ lit ",")%list at 1.
  cbv iota. rewrite stripTokens_app, parseRooted_path by apply stops_comma.
  now rewrite tokensEqb_refl.
Qed.

Lemma parseTokens_lineTokens (l : Line) : parseTokens (lineTokens l) = Some l.
Proof.
  destruct l as [name path t|name|name path x|path| |]; cbn [lineTokens].
  - rewrite parseTokens_entry, parseEntryLine_path by apply stops_jsonCall.
    destruct t; [| rewrite parseJson_stringify]; now rewrite parseJson_tokens.
  - by_tokens.
  - rewrite parseTokens_entry, parseEntryLine_path by apply stops_map.
    now rewrite !parseJson_map, parseMapped_tokens.
  - apply parseTokens_spread.
  - by_tokens.
  - by_tokens.
Qed.

(** Reading a printed line gives the line back. *)
Lemma parseLine_lineText (l : Line) : lexicalLine l = true -> parseLine (lineText l) = Some l.
Proof. intros H. unfold parseLine. now rewrite lex_lineText, parseTokens_lineTokens. Qed.

(** ** Blocks *)

Lemma lexicalLine_entryLines (e : Entry) :
  lexicalEntry e = true -> forallb lexicalLine (entryLines e) = true.
Proof.
  induction e as [name path t|name path es IH|name path x es IH] using Entry_ind;
    cbn [lexicalEntry entryLines forallb lexicalLine lexicalPath]; intros H; destr_bool;
    rewrite ?forallb_app, ?forallb_flat_map;
    repeat match goal with H : _ = true |- _ => rewrite H end; try reflexivity;
    now rewrite (forallb_impl_Forall lexicalEntry _ es IH).
Qed.

Lemma lexicalLine_lines (es : list Entry) :
  forallb lexicalEntry es = true -> forallb lexicalLine (flat_map entryLines es) = true.
Proof.
  rewrite forallb_flat_map. apply forallb_impl_Forall, Forall_forall.
  intros e _. apply lexicalLine_entryLines.
Qed.

Lemma parseLines_lineText (ls : list Line) :
  forallb lexicalLine ls = true -> parseLines (map lineText ls) = Some ls.
Proof.
  induction ls as [|l ls IH]; [reflexivity |]. cbn [forallb map parseLines]. intros H.
  destr_bool. now rewrite parseLine_lineText, IH.
Qed.

(** The lines of a list of entries are read as the entries, whatever
    follows and whatever is open. *)
Lemma parseBlock_entries (es : list Entry) :
  Forall (fun e => forall ls cur stack,
            parseBlock (entryLines e ++ ls) cur stack = parseBlock ls (e :: cur) stack) es ->
  forall ls cur stack,
    parseBlock (flat_map entryLines es ++ ls) cur stack = parseBlock ls (rev es ++ cur) stack.
Proof.
  induction 1 as [|e es He _ IH]; intros ls cur stack; [reflexivity |].
  cbn [flat_map rev]. now rewrite <- !app_assoc, He, IH.
Qed.

Lemma parseBlock_entry (e : Entry) :
  forall ls cur stack,
    parseBlock (entryLines e ++ ls) cur stack = parseBlock ls (e :: cur) stack.
Proof.
  induction e as [name path t|name path es IH|name path x es IH] using Entry_ind;
    intros ls cur stack; cbn [entryLines app parseBlock]; [reflexivity | |];
    rewrite ?String.eqb_refl, <- app_assoc, (parseBlock_entries es IH);
    cbn [app parseBlock]; now rewrite app_nil_r, rev_involutive.
Qed.

Lemma parseBlock_lines (es : list Entry) :
  parseBlock (flat_map entryLines es) [] [] = Some es.
Proof.
  rewrite <- (app_nil_r (flat_map entryLines es)), parseBlock_entries.
  - cbn [parseBlock]. now rewrite app_nil_r, rev_involutive.
  - apply Forall_forall. intros e _. apply parseBlock_entry.
Qed.

(** ** The tree of a shape whose names are names *)

Lemma entriesOf_charEntries (t : Transformer) (base : Path) (optional : bool) (i : nat)
  (s : string) :
  entriesOf t base optional (charEntries i s) = [].
Proof.
  unfold entriesOf. apply flat_map_nil_iff.
  eapply Forall_impl; [| apply (charEntries_scalar i s)].
  intros [k [ty|fs]] [H1 H2]; cbn in *; [now rewrite H2 | discriminate].
Qed.

Lemma lexicalEntry_entryOf (v : FieldValue) :
  lexicalShape v = true ->
  forall t base optional field,
    lexicalField field v = true -> lexicalPath base = true ->
    forallb lexicalEntry (entryOf t base optional field v) = true.
Proof.
  induction v as [ty|fs IH] using FieldValue_ind; intros Hv t base optional field Hf Hb;
    unfold lexicalField in Hf; apply andb_prop in Hf as [Hn Hx].
  - cbn [entryOf]. destruct (String.eqb ty AWSJSON); [| reflexivity].
    cbn. now rewrite Hn, Hb.
  - assert (Hall : forall b o, lexicalPath b = true ->
      forallb lexicalEntry (flat_map (fun kv => entryOf t b o (fst kv) (snd kv)) fs) = true).
    { intros b o Hb'. rewrite forallb_flat_map. cbn [lexicalShape] in Hv. revert Hv.
      apply forallb_impl_Forall. eapply Forall_impl; [| exact IH].
      intros kv IHkv H. apply andb_prop in H as [H1 H2]. now apply IHkv. }
    cbn [entryOf]. cbn [isObject andb] in Hx.
    destruct (isArray field); cbn [negb orb] in Hx; cbn [forallb lexicalEntry lexicalPath];
      rewrite Hn, Hb, ?Hx, Hall; cbn [lexicalPath]; rewrite ?Hb, ?Hn; auto.
Qed.

(** The names of the fields of the root: a string has no field. *)
Definition lexicalFields (fields : FieldValue) : bool :=
  match fields with
  | Object _ => lexicalShape fields
  | Scalar _ => true
  end.

Lemma lexicalEntry_entriesOf (t : Transformer) (base : Path) (optional : bool)
  (fields : FieldValue) :
  lexicalFields fields = true -> lexicalPath base = true ->
  forallb lexicalEntry (entriesOf t base optional (entries fields)) = true.
Proof.
  destruct fields as [s|fs]; cbn [lexicalFields entries]; intros Hf Hb.
  - now rewrite entriesOf_charEntries.
  - unfold entriesOf. rewrite forallb_flat_map. cbn [lexicalShape] in Hf. revert Hf.
    apply forallb_impl_Forall, Forall_forall. intros kv _ H.
    apply andb_prop in H as [H1 H2]. now apply lexicalEntry_entryOf.
Qed.

(** ** Reading is the inverse of printing *)

Lemma parseEntries_render (es : list Entry) :
  forallb lexicalEntry es = true -> parseEntries (renderEntries es) = Some es.
Proof.
  intros H. unfold parseEntries.
  now rewrite renderEntries_lines, parseLines_lineText, parseBlock_lines
    by now apply lexicalLine_lines.
Qed.

(** The lines the builder returns are read back as the tree of the
    shape: for a shape whose field names are GraphQL names (and whose
    lists of objects have names of two characters at least), read at a
    variable, the reader accepts the lines [transformJsonFields] returns
    and rebuilds the tree of entries of the shape, in both directions. *)
Lemma parseEntries_transformJsonFields (t : Transformer) (x : string) (fields : FieldValue) :
  identifier x = true -> lexicalFields fields = true ->
  parseEntries (transformJsonFields fields x t) =
  Some (entriesOf t (PVar x) false (entries fields)).
Proof.
  intros Hx Hf. rewrite <- renderEntries_root.
  now apply parseEntries_render, lexicalEntry_entriesOf.
Qed.

(** The lines determine the tree: two trees of entries whose names
    are names and that print to the same lines are the same tree. *)
Lemma renderEntries_injective (es es' : list Entry) :
  forallb lexicalEntry es = true -> forallb lexicalEntry es' = true ->
  renderEntries es = renderEntries es' -> es = es'.
Proof.
  intros H H' E. apply (f_equal parseEntries) in E.
  rewrite !parseEntries_render in E by assumption. now injection E.
Qed.

(** ** The reader accepts printed lines only *)

(** What the reading of a path leaves, after the path it has read, is
    the text it was given, after the path it started from. *)
Lemma parsePath_sound (n : nat) :
  forall ts p q r, List.length ts <= n -> parsePath p ts = (q, r) ->
    renderPath q ++ unlex r = renderPath p ++ unlex ts.
Proof.
  induction n as [|n IH]; intros ts p q r Hn H.
  - destruct ts; [now inv H | cbn in Hn; lia].
  - destruct ts as [|[x|c] [|[y|d] ts]]; try (now inv H). cbn [List.length] in Hn.
    + cbn [parsePath] in H. destruct (Ascii.eqb_spec c "."); [subst | now inv H].
      apply IH in H; [| lia]. rewrite H. cbn. now autorewrite with str.
    + destruct ts as [|[y|e] ts]; try (now inv H). cbn [parsePath] in H.
      destruct (Ascii.eqb_spec c "?"), (Ascii.eqb_spec d "."); subst; try (now inv H).
      cbn [andb] in H. destruct (negb _); [| now inv H].
      apply IH in H; [| cbn [List.length] in Hn; lia]. rewrite H. cbn.
      now autorewrite with str.
Qed.

Lemma parseRooted_sound (ts : list Token) (p : Path) (r : list Token) :
  parseRooted ts = Some (p, r) -> unlex ts = renderPath p ++ unlex r.
Proof.
  destruct ts as [|[x|c] ts]; try discriminate. cbn [parseRooted]. intros H. inv H.
  symmetry. exact (parsePath_sound _ ts (PVar x) p r (le_n _) H1).
Qed.

Lemma parseJson_sound (name : string) (p : Path) (t : Transformer) (r : list Token)
  (l : Line) :
  parseJson name p t r = Some l ->
  name ++ ": " ++ renderPath p ++ unlex r = lineText l.
Proof.
  unfold parseJson. destruct t; unfold jsonCall, jsonCast, lit.
  all: match goal with |- context [stripTokens (lex ?s) ?ts] =>
         destruct (stripTokens (lex s) ts) as [r1|] eqn:E1; [| discriminate];
         apply (stripTokens_unlex s) in E1 end.
  all: destruct (parseRooted r1) as [[q r2]|] eqn:E2; [| discriminate];
    apply parseRooted_sound in E2; destruct (pathEqb_spec p q) as [<-|]; [| discriminate].
  all: match goal with |- context [tokensEqb ?ts (lex ?s)] =>
         destruct (tokensEqb ts (lex s)) eqn:E3; [| discriminate];
         apply (tokensEqb_unlex ts s) in E3 end.
  all: cbn [andb]; intros H; inv H; cbn [lineText jsonLine]; now rewrite E1, E2, E3.
Qed.

Lemma parseMapped_sound (name : string) (p : Path) (r : list Token) (l : Line) :
  parseMapped name p r = Some l ->
  name ++ ": " ++ renderPath p ++ unlex r = lineText l.
Proof.
  unfold parseMapped, lit. destruct (stripTokens (lex "?.map((") r) as [[|[x|c] r1]|] eqn:E1;
    try discriminate.
  destruct (tokensEqb r1 (lex ") => ({")) eqn:E2; [| discriminate]. intros H. inv H.
  apply (stripTokens_unlex "?.map((") in E1. apply (tokensEqb_unlex _ ") => ({") in E2.
  cbn [lineText]. rewrite E1. cbn [unlex]. now rewrite E2.
Qed.

Lemma parseEntryLine_sound (name : string) (r : list Token) (l : Line) :
  parseEntryLine name r = Some l -> name ++ ": " ++ unlex r = lineText l.
Proof.
  unfold parseEntryLine, lit. destruct (tokensEqb r (lex "{")) eqn:E.
  - intros H. inv H. apply (tokensEqb_unlex _ "{") in E. now rewrite E.
  - destruct (parseRooted r) as [[p r1]|] eqn:E1; [| discriminate].
    apply parseRooted_sound in E1. rewrite E1. unfold orElse.
    destruct (parseJson name p parse r1) eqn:E2;
      [intros H; inv H; now apply parseJson_sound in E2 |].
    destruct (parseJson name p stringify r1) eqn:E3;
      [intros H; inv H; now apply parseJson_sound in E3 |].
    apply parseMapped_sound.
Qed.

Lemma parseSpread_sound (r : list Token) (l : Line) :
  parseSpread r = Some l -> "..." ++ unlex r = lineText l.
Proof.
  unfold parseSpread. destruct (parseRooted r) as [[p r1]|] eqn:E1; [| discriminate].
  unfold lit. destruct (tokensEqb r1 (lex ",")) eqn:E2; [| discriminate]. intros H. inv H.
  apply parseRooted_sound in E1. apply (tokensEqb_unlex _ ",") in E2. cbn [lineText].
  now rewrite E1, E2.
Qed.

Lemma parseTokens_sound (ts : list Token) (l : Line) :
  parseTokens ts = Some l -> unlex ts = lineText l.
Proof.
  unfold parseTokens, lit.
  destruct (tokensEqb ts (lex "},")) eqn:E1;
    [intros H; inv H; now apply (tokensEqb_unlex _ "},") in E1 |].
  destruct (tokensEqb ts (lex "})),")) eqn:E2;
    [intros H; inv H; now apply (tokensEqb_unlex _ "})),") in E2 |].
  assert (Hs : match stripTokens (lex "...") ts with
               | Some r => parseSpread r
               | None => None
               end = Some l -> unlex ts = lineText l).
  { destruct (stripTokens (lex "...") ts) as [r|] eqn:E; [| discriminate].
    apply (stripTokens_unlex "...") in E. rewrite E. apply parseSpread_sound. }
  destruct ts as [|[name|c] r]; try exact Hs.
  destruct (stripTokens (lex ": ") r) as [r1|] eqn:E; [| discriminate].
  apply (stripTokens_unlex ": ") in E. cbn [unlex]. rewrite E. apply parseEntryLine_sound.
Qed.

(** A text that is read as a line is the text of the line. *)
Lemma parseLine_sound (s : string) (l : Line) : parseLine s = Some l -> lineText l = s.
Proof. intros H. apply parseTokens_sound in H. now rewrite unlex_lex in H. Qed.

Lemma parseLines_sound (lines : list string) :
  forall ls, parseLines lines = Some ls -> map lineText ls = lines.
Proof.
  induction lines as [|s lines IH]; intros ls H; [now inv H |]. cbn [parseLines] in H.
  destruct (parseLine s) as [l|] eqn:E; [| discriminate].
  destruct (parseLines lines) as [ls'|]; [| discriminate]. inv H.
  cbn [map]. now rewrite (parseLine_sound _ _ E), IH.
Qed.

(** The lines of an opening. *)
Definition openLines (o : Open) : list Line :=
  match o with
  | ONested name path => [LNested name; LSpread path]
  | OMapped name path x => [LMapped name path x; LSpread (PVar x)]
  end.

(** The lines that were read when the reader is inside the open entries
    of [stack], after the entries [cur]. *)
Fixpoint linesRead (stack : list (Open * list Entry)) (cur : list Entry) : list Line :=
  match stack with
  | [] => flat_map entryLines (rev cur)
  | (o, before) :: stack' =>
      (linesRead stack' before ++ openLines o ++ flat_map entryLines (rev cur))%list
  end.

Lemma linesRead_cons (stack : list (Open * list Entry)) (e : Entry) (cur : list Entry) :
  linesRead stack (e :: cur) = (linesRead stack cur ++ entryLines e)%list.
Proof.
  destruct stack as [|[o before] stack]; cbn [linesRead rev]; rewrite flat_map_app;
    cbn [flat_map]; now rewrite app_nil_r, <- ?app_assoc.
Qed.

(** What the reader returns prints to the lines it has read and the
    lines it is given. *)
Lemma parseBlock_sound (n : nat) :
  forall ls cur stack es, List.length ls <= n -> parseBlock ls cur stack = Some es ->
    flat_map entryLines es = (linesRead stack cur ++ ls)%list.
Proof.
  induction n as [|n IH]; intros ls cur stack es Hn H.
  - destruct ls; [| cbn in Hn; lia]. destruct stack; inv H. cbn. now rewrite app_nil_r.
  - destruct ls as [|[name path t|name|name path x|path| |] ls]; cbn [List.length] in Hn.
    + destruct stack; inv H. cbn. now rewrite app_nil_r.
    + cbn [parseBlock] in H. apply IH in H; [| lia]. now rewrite H, linesRead_cons, <- app_assoc.
    + destruct ls as [|[| | |path| |] ls]; try discriminate H. cbn [parseBlock] in H.
      apply IH in H; [| cbn in Hn; lia]. rewrite H. cbn. now rewrite <- !app_assoc.
    + destruct ls as [|[| | |[y|]| |] ls]; try discriminate H. cbn [parseBlock] in H.
      destruct (String.eqb_spec x y) as [<-|]; [| discriminate H].
      apply IH in H; [| cbn in Hn; lia]. rewrite H. cbn. now rewrite <- !app_assoc.
    + discriminate H.
    + cbn [parseBlock] in H. destruct stack as [|[[name path|] before] stack]; try discriminate H.
      apply IH in H; [| lia]. rewrite H, linesRead_cons. cbn [linesRead entryLines openLines].
      now repeat (rewrite <- app_assoc; cbn [app]).
    + cbn [parseBlock] in H. destruct stack as [|[[|name path x] before] stack]; try discriminate H.
      apply IH in H; [| lia]. rewrite H, linesRead_cons. cbn [linesRead entryLines openLines].
      now repeat (rewrite <- app_assoc; cbn [app]).
Qed.

Lemma parseEntries_sound (lines : list string) (es : list Entry) :
  parseEntries lines = Some es -> renderEntries es = lines.
Proof.
  unfold parseEntries. destruct (parseLines lines) as [ls|] eqn:E; [| discriminate].
  intros H. apply (parseBlock_sound _ ls [] [] es (le_n _)) in H.
  rewrite renderEntries_lines, H. now apply parseLines_sound.
Qed.

(** C24. The reader and the printer are inverse of each other: lines are
    read as a tree of entries whose names are names exactly when they
    are the lines the tree prints to.  The reader accepts nothing but
    printed trees, and rebuilds every printed tree. *)
Theorem parseEntries_iff (lines : list string) (es : list Entry) :
  forallb lexicalEntry es = true ->
  parseEntries lines = Some es <-> renderEntries es = lines.
Proof.
  intros H. split; [apply parseEntries_sound | intros <-; now apply parseEntries_render].
Qed.

(** ** Examples and witnesses *)

Definition listLines : list string :=
  ["items: list.items?.map((item) => ({";
   "...item,";
   "meta: item?.meta && JSON.parse(item?.meta as unknown as string),";
   "})),"].

Definition listEntries : list Entry :=
  [EMapped "items" (PMember (PVar "list") false "items") "item"
     [EJson "meta" (PMember (PVar "item") true "meta") parse]].

Example parseEntries_list : parseEntries listLines = Some listEntries.
Proof. vm_compute. reflexivity. Qed.

(** A block that is not closed, and a closing without an opening. *)
Example parseEntries_unclosed : parseEntries (removelast listLines) = None.
Proof. vm_compute. reflexivity. Qed.

Example parseEntries_unopened : parseEntries ["},"] = None.
Proof. vm_compute. reflexivity. Qed.

(** Two lines joined by a comma, as the input transformer joins the
    lines of a variable, are not a line. *)
Example parseLine_joined :
  parseLine ("payload: {" ++ "," ++ "...variables.input.payload,") = None.
Proof. vm_compute. reflexivity. Qed.

(** A field named [map] is read as a field. *)
Example parseLine_field_map :
  parseLine "...data?.map?.map," =
  Some (LSpread (PMember (PMember (PVar "data") true "map") true "map")).
Proof. vm_compute. reflexivity. Qed.

Example parseEntries_transformJsonFields_list :
  parseEntries
    (transformJsonFields (Object [("items[]", Object [("meta", Scalar AWSJSON)])]) "list" parse)
  = Some listEntries.
Proof. now apply parseEntries_transformJsonFields. Qed.

(** A list whose name has one character has an element without a name:
    its lines are not read back. *)
Example parseEntries_unnamed_element :
  parseEntries
    (transformJsonFields (Object [("x[]", Object [("meta", Scalar AWSJSON)])]) "list" parse)
  = None.
Proof. vm_compute. reflexivity. Qed.

Lemma parseEntries_iff_witness :
  parseEntries listLines = Some listEntries <-> renderEntries listEntries = listLines.
Proof. apply (parseEntries_iff listLines listEntries). reflexivity. Defined.
