(* ===== verification/Balance.v ===== *)
(** * Balance: the brackets of the emitted text

    A necessary condition for the emitted text to be an expression: its
    parentheses and braces are properly nested.  [scan] reads a text with
    a stack of the brackets that are open; a text is well bracketed when
    [scan] ends with the stack it started with.  The theorems: the lines
    of a record, joined by any separator without brackets, are well
    bracketed at every depth, and so are the texts of the two
    transformers, whenever the names that occur in them have no bracket.
    The lines of the input transformer, which are joined by commas, are
    well bracketed as well: what makes them invalid is not their
    brackets. *)

From Stdlib Require Import String Ascii List ZArith Lia Bool.
From S2P Require Import Prelude JsString Shape Detector Transform Emitters Target.
Import ListNotations.
Local Open Scope string_scope.

(** ** The scanner *)

Definition isBracket (c : ascii) : bool :=
  Ascii.eqb c "(" || Ascii.eqb c ")" || Ascii.eqb c "{" || Ascii.eqb c "}".

(** Reads [s] with the open brackets [stack], the innermost first;
    [None] when a bracket closes another one than the innermost. *)
Fixpoint scan (s : string) (stack : list ascii) : option (list ascii) :=
  match s with
  | EmptyString => Some stack
  | String c s' =>
      if Ascii.eqb c "(" || Ascii.eqb c "{" then scan s' (c :: stack)
      else if Ascii.eqb c ")" then
        match stack with
        | o :: stack' => if Ascii.eqb o "(" then scan s' stack' else None
        | [] => None
        end
      else if Ascii.eqb c "}" then
        match stack with
        | o :: stack' => if Ascii.eqb o "{" then scan s' stack' else None
        | [] => None
        end
      else scan s' stack
  end.

(** The lines of a list, read one after the other. *)
Fixpoint scanLines (lines : list string) (stack : list ascii) : option (list ascii) :=
  match lines with
  | [] => Some stack
  | line :: lines' =>
      match scan line stack with
      | Some stack' => scanLines lines' stack'
      | None => None
      end
  end.

(** A text that leaves every stack as it finds it. *)
Definition wellBracketed (s : string) : Prop := forall stack, scan s stack = Some stack.

(** A text without brackets. *)
Definition plain (s : string) : bool :=
  forallb (fun c => negb (isBracket c)) (JsString.chars s).

(** ** What the names of a tree must be *)

Fixpoint plainPath (p : Path) : bool :=
  match p with
  | PVar x => plain x
  | PMember p' _ name => plainPath p' && plain name
  end.

#[warnings="-register-all"]
Inductive plainEntry : Entry -> Prop :=
| plainEntry_json name path t :
    plain name = true -> plainPath path = true -> plainEntry (EJson name path t)
| plainEntry_nested name path es :
    plain name = true -> plainPath path = true -> Forall plainEntry es ->
    plainEntry (ENested name path es)
| plainEntry_mapped name path x es :
    plain name = true -> plainPath path = true -> plain x = true ->
    Forall plainEntry es -> plainEntry (EMapped name path x es).

(** The names the builder reads from the keys of a tree have no bracket. *)
#[warnings="-register-all"]
Inductive plainShape : FieldValue -> Prop :=
| plainShape_Scalar typeName : plainShape (Scalar typeName)
| plainShape_Object fields :
    Forall (fun kv => plain (fieldNameOf (fst kv)) = true /\ plainShape (snd kv)) fields ->
    plainShape (Object fields).

(** ** The scanner on concatenations *)

Lemma scan_append (a b : string) (stack : list ascii) :
  scan (a ++ b) stack =
  match scan a stack with
  | Some stack' => scan b stack'
  | None => None
  end.
Proof.
  revert stack; induction a as [|c a IH]; intros stack; [reflexivity |].
  cbn [append scan].
  destruct (Ascii.eqb c "(" || Ascii.eqb c "{"); [apply IH |].
  destruct (Ascii.eqb c ")"); [destruct stack as [|o st]; [| destruct (Ascii.eqb o "(")]; auto |].
  destruct (Ascii.eqb c "}"); [destruct stack as [|o st]; [| destruct (Ascii.eqb o "{")]; auto |].
  apply IH.
Qed.

Lemma scan_plain (s : string) (stack : list ascii) : plain s = true -> scan s stack = Some stack.
Proof.
  unfold plain, JsString.chars. induction s as [|c s IH]; [reflexivity |].
  cbn [list_ascii_of_string forallb scan]. unfold isBracket.
  destruct (Ascii.eqb c "("), (Ascii.eqb c ")"), (Ascii.eqb c "{"), (Ascii.eqb c "}");
    simpl; try discriminate; exact IH.
Qed.

Lemma plain_append (a b : string) : plain (a ++ b) = plain a && plain b.
Proof. unfold plain. now rewrite JsString.chars_append, forallb_app. Qed.

Lemma scanLines_app (l1 l2 : list string) (stack : list ascii) :
  scanLines (l1 ++ l2) stack =
  match scanLines l1 stack with
  | Some stack' => scanLines l2 stack'
  | None => None
  end.
Proof.
  revert stack; induction l1 as [|a l1 IH]; intros stack; [reflexivity |].
  cbn [app scanLines]. destruct (scan a stack); [apply IH | reflexivity].
Qed.

(** Joining lines by a separator without brackets does not change what
    the scanner makes of them. *)
Lemma scan_join (lines : list string) (sep : string) (stack : list ascii) :
  plain sep = true -> scan (JsString.join lines sep) stack = scanLines lines stack.
Proof.
  intros Hsep. revert stack; induction lines as [|a [|b l] IH]; intros stack.
  - reflexivity.
  - cbn [scanLines]. rewrite JsString.join_singleton. now destruct (scan a stack).
  - change (scanLines (a :: b :: l) stack)
      with (match scan a stack with Some st => scanLines (b :: l) st | None => None end).
    rewrite JsString.join_cons, scan_append.
    destruct (scan a stack) as [st|]; [| reflexivity].
    rewrite scan_append, (scan_plain sep st Hsep). apply IH.
Qed.

(** A prefix of a text without brackets has none. *)
Lemma plain_substring (s : string) (n : nat) : plain s = true -> plain (String.substring 0 n s) = true.
Proof.
  unfold plain, JsString.chars. revert n; induction s as [|c s IH]; intros [|n] H;
    try reflexivity.
  cbn in *. apply andb_true_iff in H as [Hc Hs]. now rewrite Hc, IH.
Qed.

Lemma plain_fieldNameSingular (name : string) :
  plain name = true -> plain (fieldNameSingular name) = true.
Proof.
  intros H. unfold fieldNameSingular, JsString.substring.
  set (a := JsString.clamp _ 0). set (b := JsString.clamp _ _).
  assert (Ha : a = 0%Z) by (unfold a, JsString.clamp, JsString.length; lia).
  rewrite Ha. replace (Z.min 0 b) with 0%Z by (unfold b, JsString.clamp, JsString.length; lia).
  now apply plain_substring.
Qed.

(** ** The lines of a tree of entries *)

Lemma plain_optionalMark (optional : bool) : plain (optionalMark optional) = true.
Proof. now destruct optional. Qed.

Lemma plainPath_renderPath (p : Path) : plainPath p = true -> plain (renderPath p) = true.
Proof.
  induction p as [x|p IH optional name]; cbn [plainPath renderPath]; [trivial |].
  intros H. apply andb_true_iff in H as [Hp Hn].
  now rewrite !plain_append, (IH Hp), plain_optionalMark, Hn.
Qed.

#[export] Hint Resolve plain_optionalMark plainPath_renderPath plain_fieldNameSingular : jsgen.

(** Rewrites the scanner over a concatenation of names without brackets
    and of literal texts, which it reads by computation. *)
Ltac scan_text :=
  repeat first
    [ rewrite scan_append
    | rewrite scanLines_app
    | rewrite scan_plain by auto with jsgen
    | progress cbn [scan scanLines Ascii.eqb Bool.eqb orb andb] ].

Lemma scan_jsonLine (t : Transformer) (name path : string) :
  plain name = true -> plain path = true -> wellBracketed (jsonLine t name path).
Proof. intros Hn Hp stack. unfold jsonLine. destruct t; scan_text; reflexivity. Qed.

Lemma scanLines_flat_map (es : list Entry) :
  Forall (fun e => forall stack, scanLines (renderEntry e) stack = Some stack) es ->
  forall stack, scanLines (flat_map renderEntry es) stack = Some stack.
Proof.
  induction 1 as [|e es He _ IH]; intros stack; [reflexivity |].
  cbn [flat_map]. now rewrite scanLines_app, He.
Qed.

Lemma scanLines_renderEntry (e : Entry) :
  plainEntry e -> forall stack, scanLines (renderEntry e) stack = Some stack.
Proof.
  induction e as [name path t|name path es IH|name path x es IH] using Entry_ind;
    intros Hp stack; inversion Hp; subst; cbn [renderEntry].
  - cbn [scanLines]. now rewrite scan_jsonLine by auto with jsgen.
  - assert (Hes : forall st, scanLines (flat_map renderEntry es) st = Some st).
    { apply scanLines_flat_map. rewrite Forall_forall in *. auto. }
    scan_text. rewrite Hes. scan_text. reflexivity.
  - assert (Hes : forall st, scanLines (flat_map renderEntry es) st = Some st).
    { apply scanLines_flat_map. rewrite Forall_forall in *. auto. }
    scan_text. rewrite Hes. scan_text. reflexivity.
Qed.

Lemma scanLines_renderEntries (es : list Entry) :
  Forall plainEntry es -> forall stack, scanLines (renderEntries es) stack = Some stack.
Proof.
  intros H. apply scanLines_flat_map. eapply Forall_impl; [| exact H].
  intros e; apply scanLines_renderEntry.
Qed.

(** ** The tree of a record whose names have no bracket *)

Lemma plainShape_Object_inv (fs : Fields) :
  plainShape (Object fs) ->
  Forall (fun kv => plain (fieldNameOf (fst kv)) = true /\ plainShape (snd kv)) fs.
Proof. intros H; inversion H; assumption. Qed.

Lemma entryOf_plain (v : FieldValue) :
  plainShape v ->
  forall t base optional field,
    plainPath base = true -> plain (fieldNameOf field) = true ->
    Forall plainEntry (entryOf t base optional field v).
Proof.
  induction v as [ty|fs IH] using FieldValue_ind; intros Hv t base optional field Hb Hf.
  - cbn [entryOf]. destruct (String.eqb ty AWSJSON); repeat constructor; cbn [plainPath];
      now rewrite ?Hb, ?Hf.
  - apply plainShape_Object_inv in Hv.
    assert (Hall : forall b o, plainPath b = true ->
              Forall plainEntry (flat_map (fun kv => entryOf t b o (fst kv) (snd kv)) fs)).
    { intros b o Hpb. apply Forall_flat_map. rewrite Forall_forall in *.
      intros kv Hin. destruct (Hv kv Hin). now apply IH. }
    cbn [entryOf]. destruct (isArray field); repeat constructor; cbn [plainPath];
      rewrite ?Hb, ?Hf; auto with jsgen; apply Hall; cbn [plainPath];
      rewrite ?Hb, ?Hf; auto with jsgen.
Qed.

Lemma entriesOf_plain (t : Transformer) (base : Path) (optional : bool) (fs : Fields) :
  plainShape (Object fs) -> plainPath base = true ->
  Forall plainEntry (entriesOf t base optional fs).
Proof.
  intros Hv Hb. apply plainShape_Object_inv in Hv.
  unfold entriesOf. apply Forall_flat_map. rewrite Forall_forall in *.
  intros kv Hin. destruct (Hv kv Hin). now apply entryOf_plain.
Qed.

Lemma scan_transformJsonFields (fields : FieldValue) (path sep : string) (t : Transformer) :
  plainShape fields -> plain path = true -> plain sep = true ->
  wellBracketed (JsString.join (transformJsonFields fields path t) sep).
Proof.
  intros Hv Hp Hsep stack. rewrite scan_join by exact Hsep.
  destruct fields as [ty|fs]; [now rewrite transformJsonFields_Scalar |].
  rewrite <- renderEntries_root. apply scanLines_renderEntries.
  now apply entriesOf_plain.
Qed.

(** The lines the builder returns for a tree whose names have no
    bracket, read at a path without brackets and joined by a separator
    without brackets, are well bracketed: every parenthesis and brace a
    line opens is closed by a later line, innermost first. *)
Theorem transformJsonFields_bracketed (fields : FieldValue) (path sep : string)
  (t : Transformer) :
  plainShape fields -> plain path = true -> plain sep = true ->
  forall stack,
    scan (JsString.join (transformJsonFields fields path t) sep) stack = Some stack.
Proof. intros Hv Hp Hsep. now apply scan_transformJsonFields. Qed.

(** ** The texts of the two transformers *)

Lemma plain_nl : plain nl = true.
Proof. reflexivity. Qed.

#[export] Hint Resolve plain_nl : jsgen.

Section Texts.

Variables operationName operationVariablesTypes operationResultType : string.
Variable hasRequiredVariables : bool.
Hypothesis plain_operationName : plain operationName = true.
Hypothesis plain_operationVariablesTypes : plain operationVariablesTypes = true.
Hypothesis plain_operationResultType : plain operationResultType = true.

Lemma scan_outputHeader (outputType : OutputType) :
  plain (fieldName outputType) = true -> plain (typeName outputType) = true ->
  wellBracketed (outputHeader operationName operationResultType outputType).
Proof.
  intros Hf Ht stack. unfold outputHeader, outputComment. scan_text. reflexivity.
Qed.

Lemma scan_inputComment (hasVariables : bool) :
  wellBracketed (inputComment operationName operationVariablesTypes hasVariables).
Proof.
  intros stack. unfold inputComment. destruct hasVariables; scan_text; reflexivity.
Qed.

Lemma scan_signature :
  wellBracketed (generateQueryVariablesSignature hasRequiredVariables operationVariablesTypes).
Proof.
  intros stack. unfold generateQueryVariablesSignature.
  destruct hasRequiredVariables; scan_text; reflexivity.
Qed.

Lemma scan_variableEntry (field : string) (variable : VariableType) :
  plain field = true -> plainShape (orEmpty (variableFields variable)) ->
  wellBracketed (variableEntry field variable).
Proof.
  intros Hf Hv stack. unfold variableEntry, JsString.toString. scan_text.
  rewrite scan_transformJsonFields; [scan_text; reflexivity | exact Hv | | reflexivity].
  now rewrite plain_append, Hf.
Qed.

(** C32. The text of the output transformer is well bracketed when the
    names that occur in it have no bracket. *)
Theorem generateOutputTransformer_bracketed (outputType : OutputType) :
  plain (fieldName outputType) = true -> plain (typeName outputType) = true ->
  plainShape (orEmpty (fields outputType)) ->
  exists text,
    generateOutputTransformer operationName operationVariablesTypes operationResultType
      hasRequiredVariables outputType = Normal text /\
    forall stack, scan text stack = Some stack.
Proof.
  intros Hf Ht Hv. rewrite generateOutputTransformer_eq.
  eexists; split; [reflexivity |]. intros stack.
  rewrite scan_append, scan_outputHeader by assumption.
  destruct (hasJsonFields (fields outputType)); scan_text; [| reflexivity].
  rewrite scan_transformJsonFields by auto with jsgen. scan_text. reflexivity.
Qed.

(** C33. The text of the input transformer is well bracketed when the
    names that occur in it have no bracket, also when its lines are
    joined by commas. *)
Theorem generateInputTransformer_bracketed (vt : VariablesType) :
  Forall (fun kv => plain (fst kv) = true /\
                    plainShape (orEmpty (variableFields (snd kv)))) vt ->
  exists text,
    generateInputTransformer operationName operationVariablesTypes operationResultType
      hasRequiredVariables (Some vt) = Normal text /\
    forall stack, scan text stack = Some stack.
Proof.
  intros Hvt. unfold generateInputTransformer; cbn [toObject bind].
  eexists; split; [reflexivity |]. intros stack.
  assert (Hc := scan_inputComment). assert (Hsig := scan_signature).
  unfold wellBracketed in Hc, Hsig.
  scan_text. rewrite Hc. scan_text.
  destruct (0 <? List.length (map fst vt))%nat; scan_text; [| reflexivity].
  rewrite Hsig. scan_text.
  destruct (existsb _ vt); scan_text; [| reflexivity].
  rewrite scan_join by reflexivity.
  assert (Hall : forall st,
    scanLines (map (fun kv => variableEntry (fst kv) (snd kv))
                 (filter (fun kv => hasJsonFields (variableFields (snd kv))) vt)) st = Some st).
  { induction Hvt as [|kv vt' [Hk Hs] _ IH]; intros st; [reflexivity |].
    cbn [filter]. destruct (hasJsonFields (variableFields (snd kv))); [| apply IH].
    cbn [map scanLines]. now rewrite scan_variableEntry. }
  rewrite Hall. scan_text. reflexivity.
Qed.

End Texts.

(** ** Examples *)

(** A brace closed as a parenthesis is refused. *)
Example scan_mismatch : scan "({ a: 1 )}" [] = None.
Proof. reflexivity. Qed.

Lemma transformJsonFields_bracketed_witness :
  scan (JsString.join
          (transformJsonFields (Object [("items[]", Object [("meta", Scalar AWSJSON)])])
             "list" parse) nl) [] = Some [].
Proof.
  apply transformJsonFields_bracketed; [| reflexivity | reflexivity].
  repeat constructor.
Defined.

Lemma generateOutputTransformer_bracketed_witness :
  exists text,
    generateOutputTransformer "GetNodeQuery" "GetNodeQueryVariables" "GetNodeQuery" true
      getNodeType = Normal text /\
    forall stack, scan text stack = Some stack.
Proof.
  apply generateOutputTransformer_bracketed; try reflexivity.
  repeat constructor.
Defined.

Lemma generateInputTransformer_bracketed_witness :
  exists text,
    generateInputTransformer "SaveMutation" "SaveMutationVariables" "SaveMutation" true
      (Some [("input", mkVariableType
                         (Some (Object [("id!", Scalar "ID"); ("payload", Scalar AWSJSON);
                                        ("meta", Scalar AWSJSON)])))]) = Normal text /\
    forall stack, scan text stack = Some stack.
Proof.
  apply generateInputTransformer_bracketed; try reflexivity.
  repeat constructor.
Defined.
