(* ===== verification/JsValue.v ===== *)
(** * JsValue: the values the emitted code computes on

    The values of JavaScript that occur in the data of an operation:
    [undefined], [null], booleans, numbers, strings, arrays and objects.
    An object is a finite map from property names to values; the order of
    its properties, which no transformer observes, is not kept.  The
    operations are the ones the emitted expressions perform: truthiness,
    member access (optional or not), the spread of a value into an object
    literal and the definition of a property.  [JSON.parse] and
    [JSON.stringify] are the two fields of the class [JsonCodec]. *)

From stdpp Require Import base strings gmap list.
From Stdlib Require Import ZArith.
From S2P Require Import Prelude Shape.

(** ** Values *)

Unset Elimination Schemes.
Inductive Value : Type :=
| VUndefined
| VNull
| VBool (b : bool)
| VNumber (n : Z)
| VString (s : string)
| VArray (elements : list Value)
| VObject (properties : gmap string Value).
Set Elimination Schemes.

(** [!!v] *)
Definition truthyValue (v : Value) : bool :=
  match v with
  | VUndefined | VNull => false
  | VBool b => b
  | VNumber n => negb (Z.eqb n 0)
  | VString s => negb (String.eqb s "")
  | VArray _ | VObject _ => true
  end.

(** [v === undefined || v === null] *)
Definition nullish (v : Value) : bool :=
  match v with
  | VUndefined | VNull => true
  | _ => false
  end.

(** The value of the property [name] of an object: [undefined] when it
    has none. *)
Definition getProperty (ps : gmap string Value) (name : string) : Value :=
  default VUndefined (ps !! name).

(** [v.name] and [v?.name].  On [undefined] and [null] the plain access
    throws and the optional access is [undefined].  The properties of
    strings, numbers, booleans and arrays (their length, their methods)
    are not modelled: the access is [undefined]. *)
Definition member (v : Value) (optional : bool) (name : string) : completion Value :=
  match v with
  | VUndefined | VNull =>
      if optional then Normal VUndefined
      else Throw (TypeError "Cannot read properties of undefined")
  | VObject ps => Normal (getProperty ps name)
  | _ => Normal VUndefined
  end.

(** The properties a spread [...v] copies into an object literal: the
    properties of an object, the elements of an array and the characters
    of a string by index, nothing for other values. *)
Definition ownProperties (v : Value) : gmap string Value :=
  match v with
  | VObject ps => ps
  | VArray es => list_to_map (imap (fun i e => (indexKey i, e)) es)
  | VString s =>
      list_to_map (imap (fun i c => (indexKey i, VString (String c EmptyString)))
                     (String.list_ascii_of_string s))
  | _ => ∅
  end.

(** ** JSON *)

(** [JSON.stringify] and [JSON.parse], as the runtime provides them. *)
Class JsonCodec : Type := {
  jsonStringify : Value -> Value;
  jsonParse : Value -> completion Value
}.

(** The value [v] is sent as a nonempty text that parses back to it. *)
Definition codecRoundTrip `{JsonCodec} (v : Value) : Prop :=
  exists s, jsonStringify v = VString s /\ s <> EmptyString /\ jsonParse (VString s) = Normal v.

(** ** Lemmas *)

Lemma nullish_not_truthy (v : Value) : nullish v = true -> truthyValue v = false.
Proof. by destruct v. Qed.

Lemma member_optional (v : Value) (name : string) :
  exists r, member v true name = Normal r.
Proof. destruct v; simpl; eauto. Qed.

Lemma getProperty_insert (ps : gmap string Value) (name : string) (v : Value) :
  getProperty (<[name := v]> ps) name = v.
Proof. unfold getProperty. by rewrite lookup_insert_eq. Qed.

#[export] Hint Rewrite getProperty_insert : str.
#[export] Hint Resolve nullish_not_truthy member_optional : jsgen.
