(* ===== verification/Semantics.v ===== *)
(** * Semantics: what the emitted transformers compute

    An evaluator for the trees of [Target] on the values of [JsValue]:
    paths, entries, and the bodies of the two transformers.  It follows
    the evaluation of the emitted expressions by JavaScript: a member
    access on [undefined] or [null] throws unless it is optional, [a && b]
    is [a] when [a] is falsy, an object literal copies the properties of
    its spread and then defines its entries from left to right, [?.map]
    on [undefined] or [null] is [undefined], and a type assertion is the
    identity.

    The theorems: the evaluation of the tree of a record is the
    transformation of values the record denotes, and so for the bodies of
    the two transformers; the output transformer returns normally on
    every data whose JSON leaves parse and whose lists are arrays,
    whatever is [null] in it; what a [null] nested object or list
    becomes; the input transformer throws when a variable with a JSON
    leaf is absent, and keeps of such a variable only the fields it
    overrides; encoding an object and decoding the result restores it. *)

From stdpp Require Import base strings gmap list.
From Stdlib Require Import ZArith.
From S2P Require Import Prelude Shape Detector Transform Emitters Target JsValue.

Local Open Scope js_scope.

Section Semantics.

Context `{Codec : JsonCodec}.

(** ** The evaluator *)

(** The variables in scope are a finite map [env] from names to values. *)

Definition evalVar (env : gmap string Value) (x : string) : completion Value :=
  match env !! x with
  | Some v => Normal v
  | None => Throw (ReferenceError x)
  end.

Fixpoint evalPath (env : gmap string Value) (p : Path) : completion Value :=
  match p with
  | PVar x => evalVar env x
  | PMember p' optional name => v <- evalPath env p' ;; member v optional name
  end.

(** [JSON.parse(v)] and [JSON.stringify(v)] *)
Definition applyTransformer (t : Transformer) (v : Value) : completion Value :=
  match t with
  | parse => jsonParse v
  | stringify => Normal (jsonStringify v)
  end.

(** [path && JSON.parse(path)] *)
Definition evalJson (t : Transformer) (v : Value) : completion Value :=
  if truthyValue v then applyTransformer t v else Normal v.

(** The name and the value of an entry. *)
Fixpoint evalEntry (env : gmap string Value) (e : Entry) {struct e} : completion (string * Value) :=
  let evalAll :=
    fix evalAll (es : list Entry) (env : gmap string Value) (ps : gmap string Value)
      : completion (gmap string Value) :=
      match es with
      | [] => Normal ps
      | e' :: es' => kv <- evalEntry env e' ;; evalAll es' env (<[kv.1 := kv.2]> ps)
      end in
  match e with
  | EJson name path t =>
      v <- evalPath env path ;; r <- evalJson t v ;; Normal (name, r)
  | ENested name path es =>
      v <- evalPath env path ;;
      ps <- evalAll es env (ownProperties v) ;;
      Normal (name, VObject ps)
  | EMapped name path x es =>
      v <- evalPath env path ;;
      match v with
      | VUndefined | VNull => Normal (name, VUndefined)
      | VArray els =>
          els' <- mapM (fun el => ps <- evalAll es (<[x := el]> env) (ownProperties el) ;;
                                  Normal (VObject ps)) els ;;
          Normal (name, VArray els')
      | _ => Throw (TypeError "map is not a function")
      end
  end.

(** The object literal [{ ...spread, entries }], the properties of the
    spread being [ps]. *)
Definition evalEntries (env : gmap string Value) (es : list Entry) (ps : gmap string Value)
  : completion (gmap string Value) :=
  foldM (fun ps e => kv <- evalEntry env e ;; Normal (<[kv.1 := kv.2]> ps)) es ps.

(** The element of a mapped list: [(x) => ({ ...x, entries })]. *)
Definition evalElement (env : gmap string Value) (x : string) (es : list Entry) (el : Value)
  : completion Value :=
  ps <- evalEntries (<[x := el]> env) es (ownProperties el) ;; Normal (VObject ps).

(** The value of [v?.name]. *)
Definition peek (v : Value) (name : string) : Value :=
  match v with
  | VObject ps => getProperty ps name
  | _ => VUndefined
  end.

(** The output transformer applied to [data]: the root field is taken
    out of [data] by destructuring. *)
Definition evalOutputBody (b : OutputBody) (data : Value) : completion Value :=
  match b with
  | OutCast field _ => member data false field
  | OutTransform field _ es =>
      v <- member data false field ;;
      if truthyValue v
      then ps <- evalEntries {[field := v]} es (ownProperties v) ;; Normal (VObject ps)
      else Normal v
  end.

(** The input transformer applied to [variables]. *)
Definition evalInputBody (b : InputBody) (variables : Value) : completion Value :=
  match b with
  | InUndefined => Normal VUndefined
  | InCast _ => Normal variables
  | InTransform _ vars =>
      ps <- foldM (fun ps (v : string * list Entry) =>
                     inner <- evalEntries {["variables" := variables]} v.2 ∅ ;;
                     Normal (<[v.1 := VObject inner]> ps))
                  vars (ownProperties variables) ;;
      Normal (VObject ps)
  end.

(** ** Unfolding *)

Lemma evalEntry_evalAll (env : gmap string Value) (es : list Entry) (ps : gmap string Value) :
  (fix evalAll (es : list Entry) (env : gmap string Value) (ps : gmap string Value)
     : completion (gmap string Value) :=
     match es with
     | [] => Normal ps
     | e' :: es' => kv <- evalEntry env e' ;; evalAll es' env (<[kv.1 := kv.2]> ps)
     end) es env ps = evalEntries env es ps.
Proof.
  revert ps; induction es as [|e es IH]; intros ps; [reflexivity |].
  unfold evalEntries; cbn [foldM]. destruct (evalEntry env e) as [kv|err]; simpl; [| reflexivity].
  apply IH.
Qed.

Lemma evalEntry_nested (env : gmap string Value) (name : string) (path : Path) (es : list Entry) :
  evalEntry env (ENested name path es) =
  (v <- evalPath env path ;;
   ps <- evalEntries env es (ownProperties v) ;; Normal (name, VObject ps)).
Proof.
  cbn [evalEntry]. destruct (evalPath env path); simpl; [| reflexivity].
  by rewrite evalEntry_evalAll.
Qed.

Lemma evalEntry_mapped (env : gmap string Value) (name : string) (path : Path) (x : string)
  (es : list Entry) :
  evalEntry env (EMapped name path x es) =
  (v <- evalPath env path ;;
   match v with
   | VUndefined | VNull => Normal (name, VUndefined)
   | VArray els => els' <- mapM (evalElement env x es) els ;; Normal (name, VArray els')
   | _ => Throw (TypeError "map is not a function")
   end).
Proof.
  cbn [evalEntry]. destruct (evalPath env path) as [[]|]; simpl; try reflexivity.
  erewrite mapM_ext_Forall; [reflexivity |].
  apply Forall_forall; intros el _. unfold evalElement. by rewrite evalEntry_evalAll.
Qed.

Lemma evalEntries_app (env : gmap string Value) (es1 es2 : list Entry) (ps : gmap string Value) :
  evalEntries env (es1 ++ es2) ps =
  (ps' <- evalEntries env es1 ps ;; evalEntries env es2 ps').
Proof.
  revert ps; induction es1 as [|e es1 IH]; intros ps; [reflexivity |].
  unfold evalEntries in *; cbn [foldM app].
  destruct (evalEntry env e) as [kv|err]; simpl; [apply IH | reflexivity].
Qed.

Lemma member_peek (v : Value) (optional : bool) (name : string) :
  optional = true \/ nullish v = false ->
  member v optional name = Normal (peek v name).
Proof. intros [->|H]; destruct v; simpl in *; try reflexivity; discriminate H. Qed.

(** ** The transformation of values a record denotes

    What the entries of a record compute, stated on values: the value of
    the entry of a field, read in the object [o] that holds the field,
    and the properties of the object rebuilt from [o]. *)

Definition defineEntry (name : string) (r : option Value) (ps : gmap string Value)
  : gmap string Value :=
  match r with
  | Some v => <[name := v]> ps
  | None => ps
  end.

Fixpoint transformEntryValue (t : Transformer) (field : string) (shape : FieldValue)
  (o : Value) {struct shape} : completion (option Value) :=
  let x := peek o (fieldNameOf field) in
  match shape with
  | Scalar typeName =>
      if String.eqb typeName AWSJSON then r <- evalJson t x ;; Normal (Some r)
      else Normal None
  | Object fs =>
      let object := fun (o' : Value) =>
        ps <- (fix go (fs : list (string * FieldValue)) (ps : gmap string Value)
                 : completion (gmap string Value) :=
                 match fs with
                 | [] => Normal ps
                 | kv :: fs' =>
                     r <- transformEntryValue t kv.1 kv.2 o' ;;
                     go fs' (defineEntry (fieldNameOf kv.1) r ps)
                 end) fs (ownProperties o') ;;
        Normal (VObject ps) in
      if isArray field then
        match x with
        | VUndefined | VNull => Normal (Some VUndefined)
        | VArray els => els' <- mapM object els ;; Normal (Some (VArray els'))
        | _ => Throw (TypeError "map is not a function")
        end
      else r <- object x ;; Normal (Some r)
  end.

Definition transformProperties (t : Transformer) (fs : list (string * FieldValue)) (o : Value)
  (ps : gmap string Value) : completion (gmap string Value) :=
  foldM (fun ps kv => r <- transformEntryValue t kv.1 kv.2 o ;;
                      Normal (defineEntry (fieldNameOf kv.1) r ps)) fs ps.

(** [{ ...o, entries }] for the record [fs]. *)
Definition transformObject (t : Transformer) (fs : list (string * FieldValue)) (o : Value) : completion Value :=
  ps <- transformProperties t fs o (ownProperties o) ;; Normal (VObject ps).

(** What the input transformer makes of one variable with a JSON leaf:
    the object of its overridden fields, read in the variable; reading
    them throws when the variable is [undefined] or [null]. *)
Definition transformVariable (variables : Value) (ps : gmap string Value)
  (kv : string * VariableType) : completion (gmap string Value) :=
  let v := peek variables kv.1 in
  if nullish v then Throw (TypeError "Cannot read properties of undefined")
  else inner <- transformProperties stringify (entries (orEmpty (variableFields kv.2))) v ∅ ;;
       Normal (<[kv.1 := VObject inner]> ps).

(** What the input transformer computes for a variables mapping. *)
Definition transformVariables (vt : VariablesType) (variables : Value) : completion Value :=
  match vt with
  | [] => Normal VUndefined
  | _ :: _ =>
      if existsb (fun kv => hasJsonFields (variableFields kv.2)) vt then
        ps <- foldM (transformVariable variables)
                (List.filter (fun kv => hasJsonFields (variableFields kv.2)) vt)
                (ownProperties variables) ;;
        Normal (VObject ps)
      else Normal variables
  end.

Lemma transformEntryValue_go (t : Transformer) (fs : list (string * FieldValue)) (o : Value)
  (ps : gmap string Value) :
  (fix go (fs : list (string * FieldValue)) (ps : gmap string Value) : completion (gmap string Value) :=
     match fs with
     | [] => Normal ps
     | kv :: fs' =>
         r <- transformEntryValue t kv.1 kv.2 o ;;
         go fs' (defineEntry (fieldNameOf kv.1) r ps)
     end) fs ps = transformProperties t fs o ps.
Proof.
  revert ps; induction fs as [|kv fs IH]; intros ps; [reflexivity |].
  unfold transformProperties; cbn [foldM].
  destruct (transformEntryValue t kv.1 kv.2 o) as [r|err]; simpl; [apply IH | reflexivity].
Qed.

Lemma transformEntryValue_Scalar (t : Transformer) (field typeName : string) (o : Value) :
  transformEntryValue t field (Scalar typeName) o =
  if String.eqb typeName AWSJSON
  then r <- evalJson t (peek o (fieldNameOf field)) ;; Normal (Some r)
  else Normal None.
Proof. reflexivity. Qed.

Lemma transformEntryValue_Object (t : Transformer) (field : string) (fs : list (string * FieldValue)) (o : Value) :
  transformEntryValue t field (Object fs) o =
  if isArray field then
    match peek o (fieldNameOf field) with
    | VUndefined | VNull => Normal (Some VUndefined)
    | VArray els => els' <- mapM (transformObject t fs) els ;; Normal (Some (VArray els'))
    | _ => Throw (TypeError "map is not a function")
    end
  else r <- transformObject t fs (peek o (fieldNameOf field)) ;; Normal (Some r).
Proof.
  cbn [transformEntryValue]. unfold transformObject.
  destruct (isArray field).
  - destruct (peek o (fieldNameOf field)); try reflexivity.
    erewrite mapM_ext_Forall; [reflexivity |].
    apply Forall_forall; intros el _. by rewrite transformEntryValue_go.
  - by rewrite transformEntryValue_go.
Qed.

(** ** The evaluation of the tree is the transformation of values *)

Lemma evalPath_member (env : gmap string Value) (base : Path) (optional : bool) (name : string) (o : Value) :
  evalPath env base = Normal o ->
  optional = true \/ nullish o = false ->
  evalPath env (PMember base optional name) = Normal (peek o name).
Proof. intros Hb Hok. cbn [evalPath]. rewrite Hb; simpl. by apply member_peek. Qed.

Lemma evalEntries_singleton (env : gmap string Value) (e : Entry) (ps : gmap string Value) :
  evalEntries env [e] ps = (kv <- evalEntry env e ;; Normal (<[kv.1 := kv.2]> ps)).
Proof.
  unfold evalEntries; cbn [foldM]. by destruct (evalEntry env e).
Qed.

(** The entries of a list of fields, given what the entry of each field
    computes. *)
Lemma evalEntries_fields (t : Transformer) (fs : list (string * FieldValue)) (env : gmap string Value) (base : Path)
  (optional : bool) (o : Value) :
  Forall (fun kv => forall ps,
            evalEntries env (entryOf t base optional kv.1 kv.2) ps =
            (r <- transformEntryValue t kv.1 kv.2 o ;;
             Normal (defineEntry (fieldNameOf kv.1) r ps))) fs ->
  forall ps, evalEntries env (entriesOf t base optional fs) ps = transformProperties t fs o ps.
Proof.
  unfold entriesOf, transformProperties.
  induction 1 as [|kv fs Hkv _ IH]; intros ps; [reflexivity |].
  cbn [flat_map foldM]. rewrite evalEntries_app, Hkv.
  destruct (transformEntryValue t kv.1 kv.2 o) as [r|err]; simpl; [apply IH | reflexivity].
Qed.

Lemma evalEntries_entryOf (t : Transformer) (shape : FieldValue) :
  forall env base optional field o ps,
    evalPath env base = Normal o ->
    optional = true \/ nullish o = false ->
    evalEntries env (entryOf t base optional field shape) ps =
    (r <- transformEntryValue t field shape o ;;
     Normal (defineEntry (fieldNameOf field) r ps)).
Proof.
  induction shape as [ty|fs IH] using FieldValue_ind; intros env base optional field o ps Hb Hok.
  - cbn [entryOf]. rewrite transformEntryValue_Scalar.
    destruct (String.eqb ty AWSJSON); [| reflexivity].
    rewrite evalEntries_singleton. cbn [evalEntry].
    rewrite (evalPath_member _ _ _ _ _ Hb Hok); simpl.
    by destruct (evalJson t (peek o (fieldNameOf field))).
  - assert (Hfs : forall env' base' o', evalPath env' base' = Normal o' ->
              forall ps', evalEntries env' (entriesOf t base' true fs) ps' =
                          transformProperties t fs o' ps').
    { intros env' base' o' Hb'. apply evalEntries_fields.
      eapply Forall_impl; [exact IH |]. intros kv H ps'. apply H; auto. }
    pose proof (evalPath_member _ _ _ (fieldNameOf field) _ Hb Hok) as Hp.
    cbn [entryOf]. rewrite transformEntryValue_Object.
    destruct (isArray field); rewrite evalEntries_singleton.
    + rewrite evalEntry_mapped, Hp; simpl.
      destruct (peek o (fieldNameOf field)); try reflexivity.
      erewrite (mapM_ext_Forall (evalElement _ _ _) (transformObject t fs)).
      * by destruct (mapM (transformObject t fs) elements).
      * apply Forall_forall; intros el _. unfold evalElement, transformObject.
        fold (entriesOf t (PVar (fieldNameSingular (fieldNameOf field))) true fs).
        rewrite (Hfs _ _ el); [reflexivity |].
        cbn [evalPath]. unfold evalVar. by rewrite lookup_insert_eq.
    + rewrite evalEntry_nested, Hp; simpl.
      fold (entriesOf t (PMember base optional (fieldNameOf field)) true fs).
      rewrite (Hfs _ _ _ Hp). unfold transformObject.
      by destruct (transformProperties t fs _ _).
Qed.

(** Evaluating the entries of a record at a path whose value is [o]
    computes the transformation of values the record denotes on [o]:
    every entry reads its field in [o], whatever else is in scope. *)
Lemma evalEntries_entriesOf (t : Transformer) (fs : list (string * FieldValue)) (env : gmap string Value) (base : Path)
  (optional : bool) (o : Value) (ps : gmap string Value) :
  evalPath env base = Normal o ->
  optional = true \/ nullish o = false ->
  evalEntries env (entriesOf t base optional fs) ps = transformProperties t fs o ps.
Proof.
  intros Hb Hok. apply evalEntries_fields, Forall_forall.
  intros kv _ ps'. by apply evalEntries_entryOf.
Qed.

(** ** The output transformer *)

Lemma truthy_not_nullish (v : Value) : truthyValue v = true -> nullish v = false.
Proof. by destruct v. Qed.

(** On a root field with a JSON leaf, the output transformer takes the
    root field out of the data and, when it is truthy, transforms it. *)
Lemma evalOutputBody_transform (outputType : OutputType) (fs : list (string * FieldValue)) (data : Value) :
  fields outputType = Some (Object fs) ->
  hasJsonFields (Some (Object fs)) = true ->
  evalOutputBody (outputBodyOf outputType) data =
  (v <- member data false (fieldName outputType) ;;
   if truthyValue v then transformObject parse fs v else Normal v).
Proof.
  intros E H. unfold outputBodyOf. rewrite E, H. cbn [evalOutputBody orEmpty truthy entries].
  destruct (member data false (fieldName outputType)) as [v|err]; simpl; [| reflexivity].
  destruct (truthyValue v) eqn:Hv; [| reflexivity].
  unfold transformObject. rewrite (evalEntries_entriesOf _ _ _ _ _ v); [reflexivity | |].
  - cbn [evalPath]. unfold evalVar. by rewrite lookup_singleton_eq.
  - right. by apply truthy_not_nullish.
Qed.

(** C8. What the output transformer computes, on every root field and
    all data: it takes the root field out of the data and, when
    [hasJsonFields] answers [true] and the root field is truthy, returns
    the transformation of values its shape denotes; otherwise it returns
    the root field as it is. *)
Theorem evalOutputBody_refines (outputType : OutputType) (data : Value) :
  evalOutputBody (outputBodyOf outputType) data =
  (v <- member data false (fieldName outputType) ;;
   if hasJsonFields (fields outputType) && truthyValue v
   then transformObject parse (entries (orEmpty (fields outputType))) v
   else Normal v).
Proof.
  destruct (hasJsonFields (fields outputType)) eqn:H.
  - destruct (hasJsonFields_true_Object _ H) as [fs E].
    rewrite E in H. by rewrite (evalOutputBody_transform _ _ _ E H), E.
  - unfold outputBodyOf. rewrite H. cbn [evalOutputBody].
    by destruct (member data false (fieldName outputType)).
Qed.

(** Data that can be decoded along a shape: every JSON leaf that is
    truthy parses, every list of objects is an array or is [undefined] or
    [null], and so for the fields of every object and of every element.
    Nothing is asked of the other values: any of them may be [null]. *)
#[warnings="-register-all"]
Inductive Decodable : bool -> FieldValue -> Value -> Prop :=
| Decodable_scalar isArr typeName x :
    (typeName = AWSJSON -> truthyValue x = true -> exists r, jsonParse x = Normal r) ->
    Decodable isArr (Scalar typeName) x
| Decodable_object fs o :
    Forall (fun kv => Decodable (isArray kv.1) kv.2 (peek o (fieldNameOf kv.1))) fs ->
    Decodable false (Object fs) o
| Decodable_absent fs x :
    nullish x = true -> Decodable true (Object fs) x
| Decodable_array fs els :
    Forall (Decodable false (Object fs)) els -> Decodable true (Object fs) (VArray els).

Lemma transformProperties_normal (t : Transformer) (fs : list (string * FieldValue)) (o : Value) :
  Forall (fun kv => exists r, transformEntryValue t kv.1 kv.2 o = Normal r) fs ->
  forall ps, exists ps', transformProperties t fs o ps = Normal ps'.
Proof.
  unfold transformProperties.
  induction 1 as [|kv fs [r Hr] _ IH]; intros ps; cbn [foldM]; [eauto |].
  rewrite Hr; simpl. apply IH.
Qed.

Lemma transformObject_normal (t : Transformer) (fs : list (string * FieldValue)) (o : Value) :
  Forall (fun kv => exists r, transformEntryValue t kv.1 kv.2 o = Normal r) fs ->
  exists r, transformObject t fs o = Normal r.
Proof.
  intros H. unfold transformObject.
  destruct (transformProperties_normal t fs o H (ownProperties o)) as [ps' ->]; simpl; eauto.
Qed.

Lemma Decodable_scalar_inv (isArr : bool) (x : Value) :
  Decodable isArr (Scalar AWSJSON) x -> truthyValue x = true ->
  exists r, jsonParse x = Normal r.
Proof. inversion 1; subst; auto. Qed.

Lemma Decodable_object_inv (fs : list (string * FieldValue)) (o : Value) :
  Decodable false (Object fs) o ->
  Forall (fun kv => Decodable (isArray kv.1) kv.2 (peek o (fieldNameOf kv.1))) fs.
Proof. inversion 1; subst; auto. Qed.

Lemma Decodable_array_inv (fs : list (string * FieldValue)) (x : Value) :
  Decodable true (Object fs) x ->
  nullish x = true \/ exists els, x = VArray els /\ Forall (Decodable false (Object fs)) els.
Proof. inversion 1; subst; eauto. Qed.

Lemma transformEntryValue_decodable (shape : FieldValue) :
  forall field o,
    Decodable (isArray field) shape (peek o (fieldNameOf field)) ->
    exists r, transformEntryValue parse field shape o = Normal r.
Proof.
  induction shape as [ty|fs IH] using FieldValue_ind; intros field o H.
  - rewrite transformEntryValue_Scalar.
    destruct (String.eqb_spec ty AWSJSON) as [->|Hne]; [| eauto].
    unfold evalJson. destruct (truthyValue _) eqn:Hx; simpl; [| eauto].
    destruct (Decodable_scalar_inv _ _ H Hx) as [r ->]; simpl; eauto.
  - assert (Hobj : forall o', Decodable false (Object fs) o' ->
                     exists r, transformObject parse fs o' = Normal r).
    { intros o' Ho'. apply Decodable_object_inv in Ho'. apply transformObject_normal.
      rewrite Forall_forall in *. intros kv Hin. apply (IH kv Hin), Ho', Hin. }
    rewrite transformEntryValue_Object. destruct (isArray field).
    + apply Decodable_array_inv in H as [Hn|(els & -> & Hels)].
      * destruct (peek o (fieldNameOf field)); try discriminate; eauto.
      * destruct (mapM_normal (transformObject parse fs) els) as [els' ->]; simpl; [| eauto].
        eapply Forall_impl; [eassumption | exact Hobj].
    + destruct (Hobj _ H) as [r ->]; simpl; eauto.
Qed.

(** C4. The output transformer is null-safe: on data that is not
    [undefined] or [null] and whose root field can be decoded along the
    shape of the root field, it returns normally, whichever objects,
    lists and leaves of the data are [undefined] or [null]. *)
Theorem evalOutputBody_safe (outputType : OutputType) (fs : list (string * FieldValue)) (data : Value) :
  fields outputType = Some (Object fs) ->
  nullish data = false ->
  Decodable false (Object fs) (peek data (fieldName outputType)) ->
  exists r, evalOutputBody (outputBodyOf outputType) data = Normal r.
Proof.
  intros E Hd H.
  destruct (hasJsonFields (Some (Object fs))) eqn:Hj.
  - rewrite (evalOutputBody_transform _ _ _ E Hj), member_peek by auto; simpl.
    destruct (truthyValue _); [| eauto].
    apply Decodable_object_inv in H. apply transformObject_normal.
    eapply Forall_impl; [eassumption |].
    intros kv; apply transformEntryValue_decodable.
  - unfold outputBodyOf. rewrite E, Hj. cbn [evalOutputBody].
    rewrite member_peek by auto. eauto.
Qed.

(** ** Which properties the entries define *)

(** The names of the fields of a record that have an entry: the JSON
    leaves and the objects. *)
Definition overridden (fs : list (string * FieldValue)) : list string :=
  (fun kv => fieldNameOf kv.1) <$> filter (fun kv => isObject kv.2 || isJsonScalar kv.2) fs.

Lemma transformEntryValue_None (t : Transformer) (field : string) (shape : FieldValue)
  (o : Value) :
  isObject shape || isJsonScalar shape = false ->
  transformEntryValue t field shape o = Normal None.
Proof.
  destruct shape as [ty|fs]; cbn [isObject isJsonScalar orb]; [| discriminate].
  intros H. rewrite transformEntryValue_Scalar. by rewrite H.
Qed.

(** A property that is not the name of an entry is left as the spread
    defined it. *)
Lemma transformProperties_lookup_other (t : Transformer) (fs : list (string * FieldValue)) (o : Value)
  (k : string) :
  k ∉ overridden fs ->
  forall ps ps', transformProperties t fs o ps = Normal ps' -> ps' !! k = ps !! k.
Proof.
  unfold transformProperties, overridden.
  induction fs as [|kv fs IH]; intros Hk ps ps' H; cbn [foldM] in H; [by inversion H |].
  destruct (transformEntryValue t kv.1 kv.2 o) as [r|err] eqn:Hr; simpl in H; [| discriminate].
  rewrite filter_cons in Hk. destruct (decide _) as [Ho|Ho] in Hk; simpl in Ho.
  - rewrite fmap_cons, not_elem_of_cons in Hk.
    destruct Hk as [Hne Hk]. rewrite (IH Hk _ _ H).
    destruct r as [v|]; simpl; [by rewrite lookup_insert_ne | done].
  - rewrite (IH Hk _ _ H).
    rewrite transformEntryValue_None in Hr; [by inversion Hr |].
    by destruct (isObject kv.2 || isJsonScalar kv.2); [elim Ho |].
Qed.

(** When the names of the fields differ from one another, the property
    named after a field is what the entry of that field defines, or what
    the spread defined when the field has no entry. *)
Lemma transformProperties_lookup (t : Transformer) (fs : list (string * FieldValue)) (o : Value) :
  NoDup ((fun kv => fieldNameOf kv.1) <$> fs) ->
  forall ps ps', transformProperties t fs o ps = Normal ps' ->
  Forall (fun kv => exists r, transformEntryValue t kv.1 kv.2 o = Normal r /\
                      ps' !! fieldNameOf kv.1 = from_option Some (ps !! fieldNameOf kv.1) r) fs.
Proof.
  unfold transformProperties.
  induction fs as [|kv fs IH]; intros Hnd ps ps' H; [constructor |].
  rewrite fmap_cons in Hnd. apply NoDup_cons in Hnd as [Hnotin Hnd].
  cbn [foldM] in H.
  destruct (transformEntryValue t kv.1 kv.2 o) as [r|err] eqn:Hr; simpl in H; [| discriminate].
  pose proof (IH Hnd _ _ H) as Htail. constructor.
  - exists r; split; [done |].
    assert (Hsame : ps' !! fieldNameOf kv.1 = defineEntry (fieldNameOf kv.1) r ps !! fieldNameOf kv.1).
    { apply (transformProperties_lookup_other t fs o); [| exact H].
      unfold overridden. intros Hin. apply Hnotin.
      apply list_elem_of_fmap in Hin as (kv' & -> & Hin).
      apply list_elem_of_fmap. exists kv'. split; [done |].
      by apply list_elem_of_filter in Hin as [_ Hin]. }
    rewrite Hsame. destruct r; simpl; [by rewrite lookup_insert_eq | done].
  - rewrite Forall_forall in *. intros kv' Hin.
    destruct (Htail kv' Hin) as (r' & Hr' & Hl). exists r'; split; [done |].
    rewrite Hl. destruct r'; simpl; [done |].
    destruct r; simpl; [| done]. rewrite lookup_insert_ne; [done |].
    intros Heq. apply Hnotin. rewrite Heq. apply list_elem_of_fmap. by exists kv'.
Qed.

(** ** What [undefined] and [null] become *)

Lemma peek_nullish (o : Value) (name : string) : nullish o = true -> peek o name = VUndefined.
Proof. by destruct o. Qed.

Lemma transformEntryValue_nullish (t : Transformer) (shape : FieldValue) :
  forall field o,
    nullish (peek o (fieldNameOf field)) = true ->
    exists r, transformEntryValue t field shape o = Normal r.
Proof.
  induction shape as [ty|fs IH] using FieldValue_ind; intros field o H.
  - rewrite transformEntryValue_Scalar. destruct (String.eqb ty AWSJSON); [| eauto].
    unfold evalJson. rewrite nullish_not_truthy by done. simpl; eauto.
  - rewrite transformEntryValue_Object. destruct (isArray field).
    + destruct (peek o (fieldNameOf field)); try discriminate; eauto.
    + destruct (transformObject_normal t fs (peek o (fieldNameOf field))) as [r ->];
        simpl; [| eauto].
      eapply Forall_impl; [exact IH |]. intros kv Hkv. apply Hkv.
      by rewrite peek_nullish.
Qed.

(** C30. A nested object that is [undefined] or [null] in the data is
    replaced by an object: its entry defines an object whose only
    properties are the ones named after the JSON leaves and the objects of
    its shape.  The absence of the object is not propagated. *)
Theorem evalEntries_null_object (t : Transformer) (fs : list (string * FieldValue))
  (env : gmap string Value) (base : Path) (optional : bool) (field : string) (o : Value)
  (ps : gmap string Value) :
  evalPath env base = Normal o ->
  optional = true \/ nullish o = false ->
  isArray field = false ->
  nullish (peek o (fieldNameOf field)) = true ->
  exists ps',
    evalEntries env (entryOf t base optional field (Object fs)) ps =
      Normal (<[fieldNameOf field := VObject ps']> ps) /\
    forall k, k ∉ overridden fs -> ps' !! k = None.
Proof.
  intros Hb Hok Harr Hnull.
  rewrite (evalEntries_entryOf _ _ _ _ _ _ o) by done.
  rewrite transformEntryValue_Object, Harr. unfold transformObject.
  destruct (transformProperties_normal t fs (peek o (fieldNameOf field)))
    with (ps := ownProperties (peek o (fieldNameOf field))) as [ps' Hps'].
  { eapply Forall_forall. intros kv _. apply transformEntryValue_nullish.
    by rewrite peek_nullish. }
  rewrite Hps'. simpl. exists ps'. split; [done |].
  intros k Hk. rewrite (transformProperties_lookup_other _ _ _ _ Hk _ _ Hps').
  by destruct (peek o (fieldNameOf field)).
Qed.

(** ** The input transformer *)

(** The entries of a variable read their fields by a plain access: on a
    variable that is [undefined] or [null] each of them throws. *)
Lemma evalPath_variable_throws (variables : Value) (field name : string) :
  nullish (peek variables field) = true ->
  evalPath {["variables" := variables]}
    (PMember (PMember (PVar "variables") false field) false name) =
  Throw (TypeError "Cannot read properties of undefined").
Proof.
  intros H. cbn [evalPath]. unfold evalVar. rewrite lookup_singleton_eq; simpl.
  destruct (nullish variables) eqn:Hv.
  - by destruct variables.
  - rewrite member_peek by auto. simpl. by destruct (peek variables field).
Qed.

Lemma evalEntry_entryOf_throws (t : Transformer) (env : gmap string Value) (base : Path)
  (field : string) (shape : FieldValue) (err : JsError) :
  (forall name, evalPath env (PMember base false name) = Throw err) ->
  Forall (fun e => evalEntry env e = Throw err) (entryOf t base false field shape).
Proof.
  intros H. destruct shape as [ty|fs]; cbn [entryOf].
  - destruct (String.eqb ty AWSJSON); repeat constructor. cbn [evalEntry]. by rewrite H.
  - destruct (isArray field); repeat constructor.
    + rewrite evalEntry_mapped. by rewrite H.
    + rewrite evalEntry_nested. by rewrite H.
Qed.

Lemma evalEntries_throws (env : gmap string Value) (es : list Entry) (err : JsError)
  (ps : gmap string Value) :
  es <> [] -> Forall (fun e => evalEntry env e = Throw err) es ->
  evalEntries env es ps = Throw err.
Proof.
  destruct es as [|e es]; [done |]. intros _ H. apply Forall_cons in H as [He _].
  unfold evalEntries; cbn [foldM]. by rewrite He.
Qed.

(** A record with a JSON leaf has an entry. *)
Lemma entriesOf_nonempty (t : Transformer) (base : Path) (optional : bool)
  (fs : list (string * FieldValue)) :
  hasJsonFields (Some (Object fs)) = true -> entriesOf t base optional fs <> [].
Proof.
  rewrite hasJsonFields_Object. intros H Hnil.
  apply existsb_exists in H as (kv & Hin & Hkv).
  unfold entriesOf in Hnil. apply flat_map_nil_iff in Hnil.
  rewrite List.Forall_forall in Hnil. specialize (Hnil kv Hin).
  destruct kv as [k [ty|fs']]; cbn [entryOf fst snd] in Hnil; simpl in Hkv.
  - by rewrite Hkv in Hnil.
  - by destruct (isArray k).
Qed.

(** The override of one variable with a JSON leaf. *)
Lemma evalVariable (variables : Value) (kv : string * VariableType)
  (ps : gmap string Value) :
  hasJsonFields (variableFields kv.2) = true ->
  (inner <- evalEntries {["variables" := variables]}
              (entriesOf stringify (PMember (PVar "variables") false kv.1) false
                 (entries (orEmpty (variableFields kv.2)))) ∅ ;;
   Normal (<[kv.1 := VObject inner]> ps)) = transformVariable variables ps kv.
Proof.
  intros Hj. destruct (hasJsonFields_true_Object _ Hj) as [fs Hfs].
  unfold transformVariable. rewrite Hfs in *. cbn [orEmpty truthy entries].
  destruct (nullish (peek variables kv.1)) eqn:Hn.
  - rewrite (evalEntries_throws _ _ (TypeError "Cannot read properties of undefined"));
      [done | by apply entriesOf_nonempty |].
    unfold entriesOf. apply List.Forall_flat_map, List.Forall_forall. intros e _.
    apply evalEntry_entryOf_throws. intros name. by apply evalPath_variable_throws.
  - rewrite (evalEntries_entriesOf _ _ _ _ _ (peek variables kv.1)); [done | | by right].
    apply evalPath_member; [by cbn [evalPath]; unfold evalVar; rewrite lookup_singleton_eq |].
    right. destruct (nullish variables) eqn:E; [| done]. by rewrite peek_nullish in Hn.
Qed.

Lemma evalInputBody_transform (operationVariablesTypes : string)
  (vars : VariablesType) (variables : Value) :
  Forall (fun kv => hasJsonFields (variableFields kv.2) = true) vars ->
  evalInputBody (InTransform operationVariablesTypes (variableEntriesOf <$> vars)) variables =
  (ps <- foldM (transformVariable variables) vars (ownProperties variables) ;;
   Normal (VObject ps)).
Proof.
  intros H. cbn [evalInputBody]. rewrite foldM_map.
  erewrite foldM_ext_Forall; [done |].
  eapply List.Forall_impl; [| exact H]. intros kv Hj ps. by apply evalVariable.
Qed.

Lemma filter_hasJsonFields (vt : VariablesType) :
  Forall (fun kv => hasJsonFields (variableFields kv.2) = true)
    (List.filter (fun kv => hasJsonFields (variableFields kv.2)) vt).
Proof. apply List.Forall_forall. intros kv Hin. by apply List.filter_In in Hin as [_ H]. Qed.

(** C9. What the input transformer computes, on every variables mapping
    and all variables: [undefined] without variables, the variables as
    they are when none has a JSON leaf, and otherwise the object that
    spreads the variables and replaces every variable with a JSON leaf by
    the object of its overridden fields. *)
Theorem evalInputBody_refines (operationVariablesTypes : string) (vt : VariablesType)
  (variables : Value) :
  evalInputBody (inputBodyOf operationVariablesTypes vt) variables =
  transformVariables vt variables.
Proof.
  unfold inputBodyOf, transformVariables. destruct vt as [|kv0 vt0]; [done |].
  destruct (existsb _ (kv0 :: vt0)); [| done].
  apply evalInputBody_transform, filter_hasJsonFields.
Qed.

(** C6. The input transformer is not null-safe: when the first variable
    with a JSON leaf is [undefined] or [null] in the variables, or the
    variables themselves are, it throws a [TypeError]. *)
Theorem evalInputBody_absent_variable (operationVariablesTypes : string)
  (vt : VariablesType) (field : string) (variable : VariableType)
  (rest : VariablesType) (variables : Value) :
  List.filter (fun kv => hasJsonFields (variableFields kv.2)) vt = (field, variable) :: rest ->
  nullish (peek variables field) = true ->
  evalInputBody (inputBodyOf operationVariablesTypes vt) variables =
  Throw (TypeError "Cannot read properties of undefined").
Proof.
  intros Hf Hnull. rewrite (inputBodyOf_transform _ _ _ _ Hf).
  rewrite evalInputBody_transform by (rewrite <- Hf; apply filter_hasJsonFields).
  cbn [foldM]. unfold transformVariable at 1. cbn [fst]. by rewrite Hnull.
Qed.

(** C7. Of a variable with a JSON leaf the input transformer keeps the
    overridden fields only: the object that replaces the variable has no
    property but the ones named after the JSON leaves and the objects of
    its shape, as its literal does not spread the variable. *)
Theorem evalInputBody_drops (operationVariablesTypes : string) (vt : VariablesType)
  (field : string) (variable : VariableType) (fs : list (string * FieldValue))
  (variables r : Value) :
  List.filter (fun kv => hasJsonFields (variableFields kv.2)) vt = [(field, variable)] ->
  variableFields variable = Some (Object fs) ->
  nullish (peek variables field) = false ->
  evalInputBody (inputBodyOf operationVariablesTypes vt) variables = Normal r ->
  exists inner,
    r = VObject (<[field := VObject inner]> (ownProperties variables)) /\
    forall k, k ∉ overridden fs -> inner !! k = None.
Proof.
  intros Hf Hfs Hnull. rewrite (inputBodyOf_transform _ _ _ _ Hf).
  rewrite evalInputBody_transform by (rewrite <- Hf; apply filter_hasJsonFields).
  cbn [foldM]. unfold transformVariable. cbn [fst snd]. rewrite Hnull, Hfs.
  cbn [orEmpty truthy entries].
  destruct (transformProperties stringify fs _ ∅) as [inner|err] eqn:Hi; simpl;
    intros E; inversion E; subst.
  exists inner. split; [done |]. intros k Hk.
  by rewrite (transformProperties_lookup_other _ _ _ _ Hk _ _ Hi).
Qed.

(** ** Encoding, then decoding *)

(** A value that can be encoded along a shape and decoded back: every
    JSON leaf that is truthy is sent as a nonempty text that parses back
    to it, every object field is an object and every list of objects an
    array of objects, the names of the fields of a record differ, and the
    fields that have an entry are present. *)
#[warnings="-register-all"]
Inductive Encodable : bool -> FieldValue -> Value -> Prop :=
| Encodable_scalar isArr typeName x :
    (typeName = AWSJSON -> truthyValue x = true -> codecRoundTrip x) ->
    Encodable isArr (Scalar typeName) x
| Encodable_object fs ps :
    NoDup ((fun kv => fieldNameOf kv.1) <$> fs) ->
    Forall (fun kv =>
              (isObject kv.2 || isJsonScalar kv.2 = true -> is_Some (ps !! fieldNameOf kv.1)) /\
              Encodable (isArray kv.1) kv.2 (getProperty ps (fieldNameOf kv.1))) fs ->
    Encodable false (Object fs) (VObject ps)
| Encodable_array fs els :
    Forall (Encodable false (Object fs)) els -> Encodable true (Object fs) (VArray els).

Lemma Encodable_scalar_inv (isArr : bool) (x : Value) :
  Encodable isArr (Scalar AWSJSON) x -> truthyValue x = true -> codecRoundTrip x.
Proof. inversion 1; subst; auto. Qed.

Lemma Encodable_object_inv (fs : list (string * FieldValue)) (o : Value) :
  Encodable false (Object fs) o ->
  exists ps, o = VObject ps /\
    NoDup ((fun kv => fieldNameOf kv.1) <$> fs) /\
    Forall (fun kv =>
              (isObject kv.2 || isJsonScalar kv.2 = true -> is_Some (ps !! fieldNameOf kv.1)) /\
              Encodable (isArray kv.1) kv.2 (getProperty ps (fieldNameOf kv.1))) fs.
Proof. inversion 1; subst; eauto. Qed.

Lemma Encodable_array_inv (fs : list (string * FieldValue)) (x : Value) :
  Encodable true (Object fs) x ->
  exists els, x = VArray els /\ Forall (Encodable false (Object fs)) els.
Proof. inversion 1; subst; eauto. Qed.

(** The round trip of a JSON leaf. *)
Lemma evalJson_roundtrip (x : Value) :
  (truthyValue x = true -> codecRoundTrip x) ->
  exists y, evalJson stringify x = Normal y /\ evalJson parse y = Normal x.
Proof.
  intros H. unfold evalJson. destruct (truthyValue x) eqn:Hx; simpl.
  - destruct (H eq_refl) as (s & Hs & Hne & Hp). exists (VString s).
    rewrite Hs. split; [done |]. simpl.
    apply String.eqb_neq in Hne. by rewrite Hne.
  - exists x. by rewrite Hx.
Qed.

Lemma overridden_names (fs : list (string * FieldValue)) (k : string) :
  k ∈ overridden fs -> k ∈ (fun kv => fieldNameOf kv.1) <$> fs.
Proof.
  unfold overridden. intros Hin. apply list_elem_of_fmap in Hin as (kv & -> & Hin).
  apply list_elem_of_fmap. exists kv. split; [done |].
  by apply list_elem_of_filter in Hin as [_ Hin].
Qed.

(** The round trip of an object, given the round trip of each of its
    fields: the encoded object holds, under the name of each field, what
    the field was encoded to, and decoding it restores the properties. *)
Lemma transformProperties_roundtrip (fs : list (string * FieldValue))
  (ps : gmap string Value) :
  NoDup ((fun kv => fieldNameOf kv.1) <$> fs) ->
  Forall (fun kv =>
    (isObject kv.2 || isJsonScalar kv.2 = true -> is_Some (ps !! fieldNameOf kv.1)) /\
    exists r1, transformEntryValue stringify kv.1 kv.2 (VObject ps) = Normal r1 /\
      forall o1, peek o1 (fieldNameOf kv.1) = default (getProperty ps (fieldNameOf kv.1)) r1 ->
        transformEntryValue parse kv.1 kv.2 o1 =
        Normal ((fun _ => getProperty ps (fieldNameOf kv.1)) <$> r1)) fs ->
  exists ps1, transformProperties stringify fs (VObject ps) ps = Normal ps1 /\
              transformProperties parse fs (VObject ps1) ps1 = Normal ps.
Proof.
  intros Hnd H.
  destruct (transformProperties_normal stringify fs (VObject ps)) with (ps := ps) as [ps1 H1].
  { eapply Forall_impl; [exact H |]. intros kv (_ & r1 & Hr1 & _); eauto. }
  exists ps1. split; [done |].
  pose proof (transformProperties_lookup stringify fs _ Hnd _ _ H1) as L1.
  assert (Hdec : Forall (fun kv => exists r1,
            transformEntryValue stringify kv.1 kv.2 (VObject ps) = Normal r1 /\
            transformEntryValue parse kv.1 kv.2 (VObject ps1) =
              Normal ((fun _ => getProperty ps (fieldNameOf kv.1)) <$> r1) /\
            ps1 !! fieldNameOf kv.1 = from_option Some (ps !! fieldNameOf kv.1) r1) fs).
  { rewrite Forall_forall in *. intros kv Hin.
    destruct (H kv Hin) as (_ & r1 & Henc & Hd). destruct (L1 kv Hin) as (r1' & Henc' & Hl).
    rewrite Henc in Henc'. injection Henc' as <-.
    exists r1. split; [done |]. split; [| done]. apply Hd.
    cbn [peek]. unfold getProperty. rewrite Hl. by destruct r1. }
  destruct (transformProperties_normal parse fs (VObject ps1)) with (ps := ps1) as [ps2 H2].
  { eapply Forall_impl; [exact Hdec |]. intros kv (r1 & _ & Hr & _); eauto. }
  rewrite H2. f_equal. apply map_eq. intros k.
  pose proof (transformProperties_lookup parse fs _ Hnd _ _ H2) as L2.
  destruct (decide (k ∈ (fun kv => fieldNameOf kv.1) <$> fs)) as [Hin|Hnotin].
  - apply list_elem_of_fmap in Hin as (kv & -> & Hin). rewrite Forall_forall in *.
    destruct (Hdec kv Hin) as (r1 & Henc & Hd & Hl1). destruct (L2 kv Hin) as (r2 & Hd' & Hl2).
    rewrite Hd in Hd'. injection Hd' as <-. rewrite Hl2.
    destruct r1 as [v|]; simpl; [| done].
    destruct (H kv Hin) as (Hpres & _).
    destruct (isObject kv.2 || isJsonScalar kv.2) eqn:Ho.
    + destruct (Hpres eq_refl) as [y Hy]. unfold getProperty. by rewrite Hy.
    + by rewrite transformEntryValue_None in Henc.
  - assert (Hk : k ∉ overridden fs) by (intros Hk; apply Hnotin, overridden_names, Hk).
    rewrite (transformProperties_lookup_other parse fs (VObject ps1) k Hk ps1 ps2 H2).
    apply (transformProperties_lookup_other stringify fs (VObject ps) k Hk ps ps1 H1).
Qed.

Lemma transformEntryValue_roundtrip (shape : FieldValue) :
  forall field o,
    Encodable (isArray field) shape (peek o (fieldNameOf field)) ->
    exists r1, transformEntryValue stringify field shape o = Normal r1 /\
      forall o1, peek o1 (fieldNameOf field) = default (peek o (fieldNameOf field)) r1 ->
        transformEntryValue parse field shape o1 =
        Normal ((fun _ => peek o (fieldNameOf field)) <$> r1).
Proof.
  induction shape as [ty|fs IH] using FieldValue_ind; intros field o H.
  - rewrite transformEntryValue_Scalar.
    destruct (String.eqb_spec ty AWSJSON) as [->|Hne].
    + destruct (evalJson_roundtrip _ (Encodable_scalar_inv _ _ H)) as (y & Hy & Hx).
      exists (Some y). rewrite Hy. split; [done |]. intros o1 Ho1.
      rewrite transformEntryValue_Scalar, String.eqb_refl, Ho1. simpl. by rewrite Hx.
    + exists None. split; [done |]. intros o1 _.
      rewrite transformEntryValue_Scalar. apply String.eqb_neq in Hne. by rewrite Hne.
  - assert (Hobj : forall o', Encodable false (Object fs) o' ->
              exists o1', transformObject stringify fs o' = Normal o1' /\
                          transformObject parse fs o1' = Normal o').
    { intros o' Ho'. apply Encodable_object_inv in Ho' as (ps & -> & Hnd & Hall).
      destruct (transformProperties_roundtrip fs ps Hnd) as (ps1 & H1 & H2).
      { rewrite Forall_forall in *. intros kv Hin. destruct (Hall kv Hin) as [Hp He].
        split; [done |]. apply (IH kv Hin kv.1 (VObject ps)), He. }
      exists (VObject ps1). unfold transformObject. cbn [ownProperties].
      rewrite H1. simpl. by rewrite H2. }
    rewrite transformEntryValue_Object. destruct (isArray field) eqn:Harr.
    + apply Encodable_array_inv in H as (els & Hx & Hels). rewrite Hx.
      destruct (mapM_roundtrip (transformObject stringify fs) (transformObject parse fs) els)
        as (els1 & H1 & H2).
      { eapply Forall_impl; [exact Hels | exact Hobj]. }
      exists (Some (VArray els1)). rewrite H1. split; [done |]. intros o1 Ho1.
      rewrite transformEntryValue_Object, Harr, Ho1. simpl. by rewrite H2.
    + destruct (Hobj _ H) as (o1' & H1 & H2).
      exists (Some o1'). rewrite H1. split; [done |]. intros o1 Ho1.
      rewrite transformEntryValue_Object, Harr, Ho1. simpl. by rewrite H2.
Qed.

(** C3. Encoding then decoding restores the object: for a value that can
    be encoded along a record, the object literal of the encode direction
    evaluates to an object on which the object literal of the decode
    direction evaluates to the properties of the value. *)
Theorem evalEntries_roundtrip (fs : list (string * FieldValue)) (x : string)
  (ps : gmap string Value) :
  Encodable false (Object fs) (VObject ps) ->
  exists ps1,
    evalEntries {[x := VObject ps]} (entriesOf stringify (PVar x) false fs) ps = Normal ps1 /\
    evalEntries {[x := VObject ps1]} (entriesOf parse (PVar x) false fs) ps1 = Normal ps.
Proof.
  intros H. apply Encodable_object_inv in H as (ps' & E & Hnd & Hall).
  injection E as <-.
  destruct (transformProperties_roundtrip fs ps Hnd) as (ps1 & H1 & H2).
  { rewrite Forall_forall in *. intros kv Hin. destruct (Hall kv Hin) as [Hp He].
    split; [done |]. apply (transformEntryValue_roundtrip kv.2 kv.1 (VObject ps)), He. }
  exists ps1.
  rewrite (evalEntries_entriesOf _ _ _ _ _ (VObject ps)), H1;
    [| by cbn [evalPath]; unfold evalVar; rewrite lookup_singleton_eq | by right].
  split; [done |].
  rewrite (evalEntries_entriesOf _ _ _ _ _ (VObject ps1)), H2;
    [done | by cbn [evalPath]; unfold evalVar; rewrite lookup_singleton_eq | by right].
Qed.

End Semantics.

(** ** A codec and data for the examples *)

(** A codec for [null], the booleans and the natural numbers. *)
Definition sampleStringify (v : Value) : Value :=
  match v with
  | VNull => VString "null"
  | VBool true => VString "true"
  | VBool false => VString "false"
  | VNumber n => VString (DecimalString.NilEmpty.string_of_uint (N.to_uint (Z.to_N n)))
  | _ => VUndefined
  end.

Definition sampleParse (v : Value) : completion Value :=
  match v with
  | VString s =>
      if String.eqb s "null" then Normal VNull
      else if String.eqb s "true" then Normal (VBool true)
      else if String.eqb s "false" then Normal (VBool false)
      else match DecimalString.NilEmpty.uint_of_string s with
           | Some u => Normal (VNumber (Z.of_N (N.of_uint u)))
           | None => Throw (SyntaxError s)
           end
  | _ => Throw (SyntaxError "not a string")
  end.

#[export] Instance sampleCodec : JsonCodec := {|
  jsonStringify := sampleStringify;
  jsonParse := sampleParse
|}.

Definition nodeFields : list (string * FieldValue) :=
  [("id!", Scalar "ID"); ("payload", Scalar AWSJSON)].

Definition nodeWire : gmap string Value :=
  {[ "id" := VString "n1"; "payload" := VString "42" ]}.

Definition nodeDecoded : gmap string Value :=
  {[ "id" := VString "n1"; "payload" := VNumber 42 ]}.

Example evalOutputBody_example :
  evalOutputBody (outputBodyOf getNodeType) (VObject {[ "getNode" := VObject nodeWire ]}) =
  Normal (VObject nodeDecoded).
Proof. vm_compute. reflexivity. Qed.

Example evalEntries_entriesOf_example :
  evalEntries {[ "getNode" := VObject nodeWire ]} (entriesOf parse (PVar "getNode") false nodeFields)
    nodeWire =
  transformProperties parse nodeFields (VObject nodeWire) nodeWire.
Proof.
  apply (evalEntries_entriesOf parse nodeFields {[ "getNode" := VObject nodeWire ]}
           (PVar "getNode") false (VObject nodeWire) nodeWire).
  - reflexivity.
  - right; reflexivity.
Qed.

Lemma evalOutputBody_safe_witness :
  exists r, evalOutputBody (outputBodyOf getNodeType)
              (VObject {[ "getNode" := VObject {[ "id" := VString "n1"; "payload" := VNull ]} ]})
            = Normal r.
Proof.
  apply (evalOutputBody_safe getNodeType nodeFields).
  - reflexivity.
  - reflexivity.
  - apply Decodable_object. repeat constructor; intros; discriminate.
Defined.

Lemma evalEntries_null_object_witness :
  exists ps',
    evalEntries {[ "getNode" := VObject {[ "data" := VNull ]} ]}
      (entryOf parse (PVar "getNode") false "data" (Object [("payload", Scalar AWSJSON)])) ∅ =
      Normal (<[fieldNameOf "data" := VObject ps']> ∅) /\
    forall k, k ∉ overridden [("payload", Scalar AWSJSON)] -> ps' !! k = None.
Proof.
  apply (evalEntries_null_object parse [("payload", Scalar AWSJSON)]
           {[ "getNode" := VObject {[ "data" := VNull ]} ]} (PVar "getNode") false "data"
           (VObject {[ "data" := VNull ]}) ∅).
  - reflexivity.
  - right; reflexivity.
  - reflexivity.
  - reflexivity.
Defined.

Definition inputVariables : VariablesType :=
  [("id", mkVariableType None);
   ("input", mkVariableType (Some (Object nodeFields)))].

Lemma evalInputBody_absent_variable_witness :
  evalInputBody (inputBodyOf "Vars" inputVariables) (VObject {[ "id" := VString "n1" ]}) =
  Throw (TypeError "Cannot read properties of undefined").
Proof.
  apply (evalInputBody_absent_variable "Vars" inputVariables "input"
           (mkVariableType (Some (Object nodeFields))) []).
  - reflexivity.
  - reflexivity.
Defined.

Lemma evalInputBody_drops_witness :
  exists inner,
    VObject {[ "input" := VObject {[ "payload" := VString "42" ]} ]} =
    VObject (<["input" := VObject inner]>
               (ownProperties (VObject {[ "input" := VObject nodeDecoded ]}))) /\
    forall k, k ∉ overridden nodeFields -> inner !! k = None.
Proof.
  apply (evalInputBody_drops "Vars" inputVariables "input"
           (mkVariableType (Some (Object nodeFields))) nodeFields
           (VObject {[ "input" := VObject nodeDecoded ]})).
  - reflexivity.
  - reflexivity.
  - reflexivity.
  - vm_compute. reflexivity.
Defined.

Lemma nodeDecoded_encodable : Encodable false (Object nodeFields) (VObject nodeDecoded).
Proof.
  apply Encodable_object.
  - apply (bool_decide_unpack _). vm_compute. reflexivity.
  - repeat constructor; try (intros; discriminate).
    + intros _. vm_compute. eauto.
    + intros _ _. exists "42"%string. repeat split; vm_compute; congruence.
Qed.

Lemma evalEntries_roundtrip_witness :
  exists ps1,
    evalEntries {[ "x" := VObject nodeDecoded ]} (entriesOf stringify (PVar "x") false nodeFields)
      nodeDecoded = Normal ps1 /\
    evalEntries {[ "x" := VObject ps1 ]} (entriesOf parse (PVar "x") false nodeFields) ps1
      = Normal nodeDecoded.
Proof.
  apply (evalEntries_roundtrip nodeFields "x" nodeDecoded), nodeDecoded_encodable.
Defined.
