(* ===== verification/TextSemantics.v ===== *)
(** * TextSemantics: what the emitted lines compute

    [Semantics] evaluates trees of entries; the source returns lines.
    Here the lines themselves are given a meaning: [evalLines] reads
    them with the reader of [Parse] and evaluates the tree they are read
    as, a text that is not read being a syntax error.  The theorems take
    the properties of [Semantics] to the text: the lines
    [transformJsonFields] returns for a shape whose names are GraphQL
    names evaluate to the transformation of values the shape denotes,
    and lines that no tree prints to do not evaluate. *)

From stdpp Require Import base strings gmap list.
From Stdlib Require Import ZArith.
From S2P Require Import Prelude JsString Lexer Shape Detector Transform Emitters Target Parse JsValue Semantics.

Local Open Scope js_scope.

Section TextSemantics.

Context `{Codec : JsonCodec}.

(** The object literal [{ ...spread, lines }], the properties of the
    spread being [ps]. *)
Definition evalLines (env : gmap string Value) (lines : list string) (ps : gmap string Value)
  : completion (gmap string Value) :=
  match parseEntries lines with
  | Some es => evalEntries env es ps
  | None => Throw (SyntaxError "Unexpected token")
  end.

(** The lines a tree prints to evaluate as the tree. *)
Lemma evalLines_render (env : gmap string Value) (es : list Entry) (ps : gmap string Value) :
  forallb lexicalEntry es = true ->
  evalLines env (renderEntries es) ps = evalEntries env es ps.
Proof. intros H. unfold evalLines. by rewrite parseEntries_render. Qed.

(** C23. The lines the builder returns compute the transformation of
    values the shape denotes: for a record whose field names are GraphQL
    names, read at a variable that holds an object [o], the lines of
    [transformJsonFields], read back and evaluated as the entries of an
    object literal, define the properties [transformProperties] defines
    from [o], in both directions. *)
Theorem evalLines_transformJsonFields (t : Transformer) (x : string)
  (fs : list (string * FieldValue)) (env : gmap string Value) (o : Value)
  (ps : gmap string Value) :
  identifier x = true -> lexicalShape (Object fs) = true ->
  env !! x = Some o -> nullish o = false ->
  evalLines env (transformJsonFields (Object fs) x t) ps = transformProperties t fs o ps.
Proof.
  intros Hx Hfs Henv Ho. unfold evalLines.
  rewrite parseEntries_transformJsonFields by done. cbn [entries].
  apply evalEntries_entriesOf; [| by right]. cbn [evalPath]. unfold evalVar. by rewrite Henv.
Qed.

(** Lines that no tree of entries prints to are a syntax error: the
    emitted lines have a meaning only as the lines of a tree. *)
Lemma evalLines_unreadable (env : gmap string Value) (lines : list string)
  (ps : gmap string Value) :
  (forall es, renderEntries es <> lines) ->
  evalLines env lines ps = Throw (SyntaxError "Unexpected token").
Proof.
  intros H. unfold evalLines. destruct (parseEntries lines) as [es|] eqn:E; [| done].
  apply parseEntries_sound in E. by destruct (H es).
Qed.

End TextSemantics.

(** ** Witnesses *)

Lemma evalLines_transformJsonFields_witness :
  evalLines {[ "getNode" := VObject nodeWire ]}
    (transformJsonFields (Object nodeFields) "getNode" parse) nodeWire =
  transformProperties parse nodeFields (VObject nodeWire) nodeWire.
Proof.
  apply (evalLines_transformJsonFields parse "getNode" nodeFields
           {[ "getNode" := VObject nodeWire ]} (VObject nodeWire) nodeWire); reflexivity.
Defined.

(** The lines of the sample node, read and evaluated on the wire data. *)
Example evalLines_node :
  evalLines {[ "getNode" := VObject nodeWire ]}
    ["payload: getNode.payload && JSON.parse(getNode.payload as unknown as string),"] nodeWire =
  Normal nodeDecoded.
Proof. vm_compute. reflexivity. Qed.

(** An empty line is the line of no entry. *)
Example evalLines_empty_line :
  evalLines ∅ [""] ∅ = Throw (SyntaxError "Unexpected token").
Proof.
  apply (evalLines_unreadable ∅ [""] ∅).
  intros [|[n p t|n p es'|n p x es'] es] E; cbn in E; try discriminate E.
  injection E as E _. destruct t, n; discriminate E.
Qed.
