(* ===== verification/Faults.v ===== *)
(** * Faults: what the emitted transformers can throw

    [Semantics] gives conditions under which the emitted transformers
    return; this file gives the converse: when one throws, the exception
    is one of a few.  For the output transformer the data itself is
    [undefined] or [null] (the destructuring of the parameter), a field
    that is a list in the shape holds a value that is not an array
    ([map] is not a function), or [JSON.parse] threw on a leaf.  For the
    input transformer a list holds a value that is not an array, or a
    variable with a JSON leaf is [undefined] or [null]: [JSON.stringify]
    does not throw in the model of [JsValue]. *)

From stdpp Require Import base strings gmap list.
From S2P Require Import Prelude Shape Detector Transform Emitters Target JsValue Semantics.

Section Faults.

Context `{Codec : JsonCodec}.

(** The exceptions of the transformation of values in the direction
    [t]: a list that is not an array, or the exception of the call of
    [JSON]. *)
Definition faultOf (t : Transformer) (e : JsError) : Prop :=
  e = TypeError "map is not a function" \/ exists x, applyTransformer t x = Throw e.

(** The exceptions of the decoding. *)
Definition fault (e : JsError) : Prop :=
  e = TypeError "map is not a function" \/ exists x, jsonParse x = Throw e.

(** Some variable with a JSON leaf is [undefined] or [null] in the
    variables. *)
Definition absentVariable (vt : VariablesType) (variables : Value) : bool :=
  existsb (fun kv => hasJsonFields (variableFields kv.2) && nullish (peek variables kv.1)) vt.

Lemma faultOf_parse (e : JsError) : faultOf parse e <-> fault e.
Proof. done. Qed.

Lemma faultOf_stringify (e : JsError) :
  faultOf stringify e <-> e = TypeError "map is not a function".
Proof. split; [intros [H|[x H]]; [done | discriminate H] | by left]. Qed.

Lemma mapM_Throw_inv {A B : Type} (f : A -> completion B) (l : list A) (e : JsError) :
  mapM f l = Throw e -> Exists (fun x => f x = Throw e) l.
Proof.
  induction l as [|x l IH]; simpl; [discriminate |].
  destruct (f x) as [y|e'] eqn:Hx; simpl; [| intros E; left; congruence].
  destruct (mapM f l); simpl; [discriminate |]. intros E; right. by apply IH.
Qed.

Lemma foldM_Throw_inv {A B : Type} (f : B -> A -> completion B) (l : list A) (e : JsError) :
  forall b, foldM f l b = Throw e -> Exists (fun x => exists b', f b' x = Throw e) l.
Proof.
  induction l as [|x l IH]; intros b; simpl; [discriminate |].
  destruct (f b x) as [b'|e'] eqn:Hx; simpl; [| intros E; left; exists b; congruence].
  intros E; right. by apply (IH b').
Qed.

(** The entries of a record throw what one of them throws. *)
Lemma transformProperties_fault (t : Transformer) (fs : list (string * FieldValue)) (o : Value)
  (ps : gmap string Value) (e : JsError) :
  Forall (fun kv => forall field o e,
            transformEntryValue t field kv.2 o = Throw e -> faultOf t e) fs ->
  transformProperties t fs o ps = Throw e -> faultOf t e.
Proof.
  intros IH Hf. unfold transformProperties in Hf. apply foldM_Throw_inv in Hf.
  rewrite Exists_exists in Hf. destruct Hf as (kv & Hin & ps' & Hkv).
  rewrite Forall_forall in IH.
  destruct (transformEntryValue t kv.1 kv.2 o) as [r|e'] eqn:Hr; simpl in Hkv;
    [discriminate |].
  injection Hkv as ->. by apply (IH kv Hin kv.1 o).
Qed.

Lemma transformObject_fault (t : Transformer) (fs : list (string * FieldValue)) (o : Value)
  (e : JsError) :
  Forall (fun kv => forall field o e,
            transformEntryValue t field kv.2 o = Throw e -> faultOf t e) fs ->
  transformObject t fs o = Throw e -> faultOf t e.
Proof.
  intros IH. unfold transformObject.
  destruct (transformProperties t fs o _) as [ps|e'] eqn:Hf; simpl; [discriminate |].
  intros E; injection E as ->. by apply (transformProperties_fault t fs o _ _ IH Hf).
Qed.

Lemma transformEntryValue_fault (t : Transformer) (shape : FieldValue) :
  forall field o e, transformEntryValue t field shape o = Throw e -> faultOf t e.
Proof.
  induction shape as [typeName|fs IH] using FieldValue_ind; intros field o e.
  - rewrite transformEntryValue_Scalar. destruct (String.eqb typeName AWSJSON); [| discriminate].
    unfold evalJson. destruct (truthyValue _); [| discriminate].
    destruct (applyTransformer t _) as [r|e'] eqn:Hp; simpl; [discriminate |].
    intros E; injection E as ->. right. eauto.
  - rewrite transformEntryValue_Object. destruct (isArray field).
    + destruct (peek o (fieldNameOf field)) as [| | | | |els|];
        try discriminate; try (intros E; injection E as <-; by left).
      destruct (mapM _ els) as [els'|e'] eqn:Hm; simpl; [discriminate |].
      intros E; injection E as ->. apply mapM_Throw_inv in Hm.
      rewrite Exists_exists in Hm. destruct Hm as (el & _ & Hel).
      by apply (transformObject_fault t fs el).
    + destruct (transformObject t fs _) as [r|e'] eqn:Ho; simpl; [discriminate |].
      intros E; injection E as ->. by apply (transformObject_fault t fs _ _ IH Ho).
Qed.

(** Every record throws the exceptions of its direction only. *)
Lemma transformProperties_faultOf (t : Transformer) (fs : list (string * FieldValue)) (o : Value)
  (ps : gmap string Value) (e : JsError) :
  transformProperties t fs o ps = Throw e -> faultOf t e.
Proof.
  apply transformProperties_fault, Forall_forall. intros kv _. apply transformEntryValue_fault.
Qed.

(** The override of a variable throws on a variable that is absent, or
    what the encoding of its fields throws. *)
Lemma transformVariable_fault (variables : Value) (ps : gmap string Value)
  (kv : string * VariableType) (e : JsError) :
  transformVariable variables ps kv = Throw e ->
  e = TypeError "map is not a function" \/
  (nullish (peek variables kv.1) = true /\ e = TypeError "Cannot read properties of undefined").
Proof.
  unfold transformVariable. destruct (nullish (peek variables kv.1)).
  - intros E; injection E as <-. by right.
  - destruct (transformProperties stringify _ _ ∅) as [inner|e'] eqn:Hi; simpl; [discriminate |].
    intros E; injection E as ->. left.
    by apply faultOf_stringify, (transformProperties_faultOf _ _ _ _ _ Hi).
Qed.

(** C29. The exceptions of the output transformer: when the emitted
    function throws, either the data is [undefined] or [null] and the
    exception is the [TypeError] of the destructuring of its parameter,
    or a field that is a list in the shape holds a value that is not an
    array, or [JSON.parse] threw the exception on a leaf.  The emitted
    code raises no other exception of its own: in particular it reads
    no unbound variable. *)
Theorem evalOutputBody_fault (outputType : OutputType) (data : Value) (e : JsError) :
  evalOutputBody (outputBodyOf outputType) data = Throw e ->
  (nullish data = true /\ e = TypeError "Cannot read properties of undefined") \/ fault e.
Proof.
  assert (Hm : member data false (fieldName outputType) = Throw e ->
               nullish data = true /\ e = TypeError "Cannot read properties of undefined").
  { destruct data; try discriminate; intros E; injection E as <-; done. }
  destruct (hasJsonFields (fields outputType)) eqn:Hj.
  - destruct (hasJsonFields_true_Object _ Hj) as [fs E]. rewrite E in Hj.
    rewrite (evalOutputBody_transform _ _ _ E Hj).
    destruct (member data false (fieldName outputType)) as [v|e'] eqn:Hv; simpl;
      [| intros E'; injection E' as ->; left; by apply Hm].
    destruct (truthyValue v); [| discriminate]. intros Ho. right.
    apply faultOf_parse, (transformObject_fault parse fs v e); [| exact Ho].
    apply Forall_forall. intros kv _. apply transformEntryValue_fault.
  - unfold outputBodyOf. rewrite Hj. cbn [evalOutputBody]. intros H. left. by apply Hm.
Qed.

Lemma absentVariable_In (vt : VariablesType) (variables : Value) (kv : string * VariableType) :
  In kv vt -> hasJsonFields (variableFields kv.2) = true ->
  nullish (peek variables kv.1) = true -> absentVariable vt variables = true.
Proof. intros Hin Hj Hn. apply existsb_exists. exists kv. by rewrite Hj, Hn. Qed.

(** C28. The exceptions of the input transformer: when the emitted
    function throws, either a field that is a list in the shape of a
    variable holds a value that is not an array, or a variable with a
    JSON leaf is [undefined] or [null] in the variables and the
    exception is the [TypeError] of the access to its fields.  The
    variables without a JSON leaf are never read. *)
Theorem evalInputBody_fault (operationVariablesTypes : string) (vt : VariablesType)
  (variables : Value) (e : JsError) :
  evalInputBody (inputBodyOf operationVariablesTypes vt) variables = Throw e ->
  e = TypeError "map is not a function" \/
  (e = TypeError "Cannot read properties of undefined" /\
   absentVariable vt variables = true).
Proof.
  unfold inputBodyOf. destruct vt as [|kv0 vt0]; [discriminate |].
  destruct (existsb _ (kv0 :: vt0)); [| discriminate].
  rewrite evalInputBody_transform by apply filter_hasJsonFields.
  destruct (foldM _ _ _) as [ps|e'] eqn:Hf; simpl; [discriminate |].
  intros E; injection E as ->. apply foldM_Throw_inv in Hf.
  rewrite Exists_exists in Hf. destruct Hf as (kv & Hin & ps & Hkv).
  apply list_elem_of_In, List.filter_In in Hin as [Hin Hj].
  destruct (transformVariable_fault _ _ _ _ Hkv) as [->|[Hn ->]]; [by left |].
  right. split; [done |]. exact (absentVariable_In (kv0 :: vt0) variables kv Hin Hj Hn).
Qed.

End Faults.

(** ** Examples *)

Lemma evalOutputBody_fault_witness :
  (nullish VNull = true /\
   TypeError "Cannot read properties of undefined" =
   TypeError "Cannot read properties of undefined") \/
  fault (TypeError "Cannot read properties of undefined").
Proof. apply (evalOutputBody_fault getNodeType VNull). reflexivity. Defined.

(** A list field that holds a string, and a JSON field that does not
    parse. *)
Example evalOutputBody_not_array :
  evalOutputBody
    (outputBodyOf (mkOutputType "list" "List"
                     (Some (Object [("items[]", Object [("meta", Scalar AWSJSON)])]))))
    (VObject {[ "list" := VObject {[ "items" := VString "none" ]} ]}) =
  Throw (TypeError "map is not a function").
Proof. vm_compute. reflexivity. Qed.

Example evalOutputBody_not_json :
  evalOutputBody (outputBodyOf getNodeType)
    (VObject {[ "getNode" := VObject {[ "payload" := VString "{" ]} ]}) =
  Throw (SyntaxError "{").
Proof. vm_compute. reflexivity. Qed.

Lemma evalInputBody_fault_witness :
  TypeError "Cannot read properties of undefined" = TypeError "map is not a function" \/
  (TypeError "Cannot read properties of undefined" =
   TypeError "Cannot read properties of undefined" /\
   absentVariable inputVariables (VObject {[ "id" := VString "n1" ]}) = true).
Proof.
  apply (evalInputBody_fault "Vars" inputVariables (VObject {[ "id" := VString "n1" ]})).
  vm_compute. reflexivity.
Defined.

(** A list of a variable that holds a text, and a variable without a
    JSON leaf that is absent. *)
Example evalInputBody_not_array :
  evalInputBody
    (inputBodyOf "Vars"
       [("input", mkVariableType (Some (Object [("items[]", Object [("meta", Scalar AWSJSON)])])))])
    (VObject {[ "input" := VObject {[ "items" := VString "none" ]} ]}) =
  Throw (TypeError "map is not a function").
Proof. vm_compute. reflexivity. Qed.

Example evalInputBody_absent_plain :
  evalInputBody (inputBodyOf "Vars" inputVariables)
    (VObject {[ "input" := VObject {[ "payload" := VNull ]} ]}) =
  Normal (VObject {[ "input" := VObject {[ "payload" := VNull ]} ]}).
Proof. vm_compute. reflexivity. Qed.
