(* ===== verification/Typing.v ===== *)
(** * Typing: the data of an operation against its shape

    The emitted transformers end in a cast: the output transformer
    returns its object [as unknown as] the result type of the operation.
    This file says when the cast is right.  [Typed leaf] is the typing of
    a value against a shape tree, the annotated keys giving the list and
    mandatory flags, with the values of the JSON leaves left to [leaf]:
    a JSON text on the wire, what such a text parses to once decoded.
    The transformation of values of [Semantics] takes data typed with one
    kind of leaf to data typed with the other, whenever the direction of
    the transformation takes one kind of leaf to the other; for [parse]
    the emitted output transformer does so on every root field.

    Two kinds of field are typed in part only.  A list of JSON scalars
    has a type only when it is absent: the builder emits the line of a
    scalar for it, which parses the list as one text.  A nested object
    that is not a list has a type only when it is present: the entry of
    an absent object defines an object, so absence is not preserved (see
    [Semantics]). *)

From stdpp Require Import base strings gmap list.
From Stdlib Require Import ZArith.
From S2P Require Import Prelude JsString Shape Detector Transform Decode Emitters Target JsValue Semantics.

Section Typing.

Context `{Codec : JsonCodec}.

(** ** The typing of values *)

(** [Typed leaf isArr mandatory shape x]: the value [x] of a field of
    type [shape], a list when [isArr], which may be absent unless
    [mandatory]. *)
#[warnings="-register-all"]
Inductive Typed (leaf : Value -> Prop) : bool -> bool -> FieldValue -> Value -> Prop :=
| Typed_absent isArr shape x :
    nullish x = true -> (isObject shape = true -> isArr = true) ->
    Typed leaf isArr false shape x
| Typed_json mandatory x :
    leaf x -> Typed leaf false mandatory (Scalar AWSJSON) x
| Typed_scalar isArr mandatory typeName x :
    typeName <> AWSJSON -> nullish x = false ->
    Typed leaf isArr mandatory (Scalar typeName) x
| Typed_object mandatory fs ps :
    Forall (fun kv => Typed leaf (isArray kv.1) (isMandatory kv.1) kv.2
                        (getProperty ps (fieldNameOf kv.1))) fs ->
    Typed leaf false mandatory (Object fs) (VObject ps)
| Typed_array mandatory fs els :
    Forall (Typed leaf false true (Object fs)) els ->
    Typed leaf true mandatory (Object fs) (VArray els).

(** The fields of a record, read in the object [ps]. *)
Definition TypedFields (leaf : Value -> Prop) (fs : list (string * FieldValue))
  (ps : gmap string Value) : Prop :=
  Forall (fun kv => Typed leaf (isArray kv.1) (isMandatory kv.1) kv.2
                      (getProperty ps (fieldNameOf kv.1))) fs.

(** A JSON text: a nonempty string that parses. *)
Definition jsonText (x : Value) : Prop :=
  exists s r, x = VString s /\ s <> EmptyString /\ jsonParse (VString s) = Normal r.

(** A JSON value: what a JSON text parses to. *)
Definition jsonValue (x : Value) : Prop :=
  exists s, s <> EmptyString /\ jsonParse (VString s) = Normal x.

(** ** Inversion *)

Lemma Typed_object_inv (leaf : Value -> Prop) (mandatory : bool)
  (fs : list (string * FieldValue)) (x : Value) :
  Typed leaf false mandatory (Object fs) x -> exists ps, x = VObject ps /\ TypedFields leaf fs ps.
Proof.
  inversion 1 as [? ? ? _ Hobj| | |? ? ps Hfs|]; subst; [| by eauto].
  by specialize (Hobj eq_refl).
Qed.

Lemma Typed_array_inv (leaf : Value -> Prop) (mandatory : bool)
  (fs : list (string * FieldValue)) (x : Value) :
  Typed leaf true mandatory (Object fs) x ->
  (mandatory = false /\ nullish x = true) \/
  exists els, x = VArray els /\ Forall (Typed leaf false true (Object fs)) els.
Proof. inversion 1; subst; eauto. Qed.

Lemma Typed_json_inv (leaf : Value -> Prop) (isArr mandatory : bool) (x : Value) :
  Typed leaf isArr mandatory (Scalar AWSJSON) x ->
  (mandatory = false /\ nullish x = true) \/ (isArr = false /\ leaf x).
Proof. inversion 1; subst; eauto. congruence. Qed.

(** The typing of a scalar other than [AWSJSON] does not look at the
    leaves. *)
Lemma Typed_scalar_leaf (leaf leaf' : Value -> Prop) (isArr mandatory : bool)
  (typeName : string) (x : Value) :
  typeName <> AWSJSON ->
  Typed leaf isArr mandatory (Scalar typeName) x ->
  Typed leaf' isArr mandatory (Scalar typeName) x.
Proof. intros Hne. inversion 1; subst; try congruence; by constructor. Qed.

(** ** The transformation preserves the typing *)

Section Preservation.

Variables (src dst : Value -> Prop) (t : Transformer).

(** The direction [t] takes a leaf of the source to a leaf of the
    target, and the guard of the line lets it through. *)
Hypothesis leaf_transformed :
  forall x, src x -> truthyValue x = true /\ exists r, applyTransformer t x = Normal r /\ dst r.

(** What a field holds after the transformation: what its entry
    defined, or what it held when it has no entry. *)
Definition entryTyped (field : string) (shape : FieldValue) (o : Value) : Prop :=
  Typed src (isArray field) (isMandatory field) shape (peek o (fieldNameOf field)) ->
  exists r, transformEntryValue t field shape o = Normal r /\
            Typed dst (isArray field) (isMandatory field) shape
              (default (peek o (fieldNameOf field)) r).

Lemma entryTyped_scalar (field typeName : string) (o : Value) :
  entryTyped field (Scalar typeName) o.
Proof.
  intros H. rewrite transformEntryValue_Scalar.
  destruct (String.eqb_spec typeName AWSJSON) as [->|Hne];
    [| eexists; split; [done | by apply (Typed_scalar_leaf src)]].
  unfold evalJson. apply Typed_json_inv in H as [[Hm Hx]|[Ha Hx]].
  - rewrite (nullish_not_truthy _ Hx). eexists; split; [done |]. simpl.
    rewrite Hm. by constructor.
  - destruct (leaf_transformed _ Hx) as (-> & r & -> & Hr). eexists; split; [done |].
    simpl. rewrite Ha. by constructor.
Qed.

(** A record, given the typing of each of its fields. *)
Lemma transformObject_fields (fs : list (string * FieldValue)) (ps : gmap string Value) :
  NoDup ((fun kv => fieldNameOf kv.1) <$> fs) ->
  Forall (fun kv => entryTyped kv.1 kv.2 (VObject ps)) fs ->
  TypedFields src fs ps ->
  exists ps', transformObject t fs (VObject ps) = Normal (VObject ps') /\ TypedFields dst fs ps'.
Proof.
  intros Hnd IH Hty. unfold transformObject, TypedFields in *. cbn [ownProperties].
  assert (Hall : Forall (fun kv => exists r, transformEntryValue t kv.1 kv.2 (VObject ps) = Normal r /\
             Typed dst (isArray kv.1) (isMandatory kv.1) kv.2
               (default (getProperty ps (fieldNameOf kv.1)) r)) fs).
  { rewrite Forall_forall in *. intros kv Hin. by apply (IH kv Hin), Hty. }
  destruct (transformProperties_normal t fs (VObject ps)) with (ps := ps) as [ps' Hps'].
  { eapply Forall_impl; [exact Hall |]. intros kv (r & Hr & _). eauto. }
  rewrite Hps'. exists ps'. split; [done |].
  pose proof (transformProperties_lookup t fs (VObject ps) Hnd ps ps' Hps') as Hl.
  rewrite Forall_forall in *. intros kv Hin.
  destruct (Hall kv Hin) as (r & Hr & Htyped). destruct (Hl kv Hin) as (r' & Hr' & Hlook).
  rewrite Hr in Hr'. injection Hr' as <-.
  replace (getProperty ps' (fieldNameOf kv.1))
    with (default (getProperty ps (fieldNameOf kv.1)) r); [exact Htyped |].
  unfold getProperty. rewrite Hlook. by destruct r.
Qed.

Lemma entryTyped_object (field : string) (fs : list (string * FieldValue)) (o : Value) :
  NoDup ((fun kv => fieldNameOf kv.1) <$> fs) ->
  (forall o', Forall (fun kv => entryTyped kv.1 kv.2 o') fs) ->
  entryTyped field (Object fs) o.
Proof.
  intros Hnd IH H. rewrite transformEntryValue_Object.
  destruct (isArray field) eqn:Ha.
  - apply Typed_array_inv in H as [[Hm Hx]|(els & Hx & Hels)].
    + rewrite Hm. destruct (peek o (fieldNameOf field)); try discriminate Hx;
        (eexists; split; [done |]); by constructor.
    + rewrite Hx. destruct (mapM_Forall (transformObject t fs)
                              (Typed dst false true (Object fs)) els) as (els' & -> & Hels').
      { eapply Forall_impl; [exact Hels |]. intros el Hel.
        apply Typed_object_inv in Hel as (ps & -> & Hps).
        destruct (transformObject_fields fs ps Hnd (IH _) Hps) as (ps' & -> & Hps').
        eexists; split; [done |]. by constructor. }
      eexists; split; [done |]. by constructor.
  - apply Typed_object_inv in H as (ps & -> & Hps).
    destruct (transformObject_fields fs ps Hnd (IH _) Hps) as (ps' & -> & Hps').
    eexists; split; [done |]. by constructor.
Qed.

(** The names of the fields of a well-formed record differ. *)
Lemma wf_NoDup (fs : list (string * FieldValue)) :
  wf (Object fs) -> NoDup ((fun kv => fieldNameOf kv.1) <$> fs).
Proof. intros Hwf. apply NoDup_ListNoDup. exact (wf_fieldNames fs Hwf). Qed.

(** Every entry of a well-formed tree preserves the typing. *)
Lemma transformEntryValue_typed (shape : FieldValue) :
  wf shape -> forall field o, entryTyped field shape o.
Proof.
  induction shape as [typeName|fs IH] using FieldValue_ind; intros Hwf field o;
    [apply entryTyped_scalar |].
  apply entryTyped_object; [by apply wf_NoDup |].
  intros o'. pose proof (wf_children fs Hwf) as Hc.
  rewrite !Forall_forall in *. intros kv Hin. by apply (IH kv Hin), (Hc kv).
Qed.

(** The object of a well-formed record, transformed. *)
Lemma transformObject_TypedFields (fs : list (string * FieldValue)) (ps : gmap string Value) :
  wf (Object fs) -> TypedFields src fs ps ->
  exists ps', transformObject t fs (VObject ps) = Normal (VObject ps') /\ TypedFields dst fs ps'.
Proof.
  intros Hwf. apply transformObject_fields; [by apply wf_NoDup |].
  pose proof (wf_children fs Hwf) as Hc. rewrite !Forall_forall in *.
  intros kv Hin. by apply transformEntryValue_typed, (Hc kv).
Qed.

(** C26. The object literal of a record preserves the typing, in both
    directions: when the direction takes the JSON leaves of the source
    to leaves of the target, the literal [{ ...x, entries }] of a
    well-formed record, evaluated on an object whose fields are typed
    with the leaves of the source, returns an object whose fields are
    typed with the leaves of the target. *)
Theorem evalEntries_typed (fs : list (string * FieldValue)) (x : string)
  (ps : gmap string Value) :
  wf (Object fs) -> TypedFields src fs ps ->
  exists ps', evalEntries {[x := VObject ps]} (entriesOf t (PVar x) false fs) ps = Normal ps' /\
              TypedFields dst fs ps'.
Proof.
  intros Hwf Hps. destruct (transformObject_TypedFields fs ps Hwf Hps) as (ps' & H & Hps').
  exists ps'. split; [| done].
  rewrite (evalEntries_entriesOf _ _ _ _ _ (VObject ps));
    [| by cbn [evalPath]; unfold evalVar; rewrite lookup_singleton_eq | by right].
  unfold transformObject in H. cbn [ownProperties] in H.
  destruct (transformProperties t fs (VObject ps) ps); simpl in H; congruence.
Qed.

End Preservation.

(** ** The output transformer *)

(** [JSON.parse] takes a JSON text to a JSON value. *)
Lemma jsonText_parsed (x : Value) :
  jsonText x -> truthyValue x = true /\ exists r, applyTransformer parse x = Normal r /\ jsonValue r.
Proof.
  intros (s & r & -> & Hne & Hr). split.
  - simpl. by destruct (String.eqb_spec s EmptyString).
  - exists r. split; [done |]. by exists s.
Qed.

(** The typing of a tree without JSON leaf does not look at the
    leaves. *)
Lemma Typed_no_leaf (leaf leaf' : Value -> Prop) (shape : FieldValue) :
  hasJsonFields_entry shape = false ->
  forall isArr mandatory x,
    Typed leaf isArr mandatory shape x -> Typed leaf' isArr mandatory shape x.
Proof.
  induction shape as [typeName|fs IH] using FieldValue_ind; intros Hno isArr mandatory x H.
  - apply (Typed_scalar_leaf leaf); [| done]. by intros ->.
  - rewrite hasJsonFields_entry_unfold in Hno. cbn [isObject] in Hno.
    apply hasJsonFields_false_iff in Hno.
    assert (Hfields : forall ps, TypedFields leaf fs ps -> TypedFields leaf' fs ps).
    { unfold TypedFields. intros ps Hps. rewrite !Forall_forall in *.
      intros kv Hin. by apply (IH kv Hin (Hno kv Hin)), Hps. }
    inversion H as [| | |? ? ps Hps|? ? els Hels]; subst; [by constructor | |].
    + constructor. by apply Hfields.
    + constructor. eapply Forall_impl; [exact Hels |]. intros el Hel.
      apply Typed_object_inv in Hel as (ps & -> & Hps). constructor. by apply Hfields.
Qed.

(** C25. The cast of the output transformer is right: on data whose root
    field is absent or is typed against the well-formed shape of the
    operation with JSON texts at its JSON leaves, the emitted function
    returns a value that is absent or is typed against the same shape
    with JSON values at its JSON leaves. *)
Theorem evalOutputBody_typed (outputType : OutputType) (fs : list (string * FieldValue))
  (data : gmap string Value) :
  fields outputType = Some (Object fs) -> wf (Object fs) ->
  nullish (getProperty data (fieldName outputType)) = true \/
    Typed jsonText false true (Object fs) (getProperty data (fieldName outputType)) ->
  exists r, evalOutputBody (outputBodyOf outputType) (VObject data) = Normal r /\
            (nullish r = true \/ Typed jsonValue false true (Object fs) r).
Proof.
  intros E Hwf H. destruct (hasJsonFields (Some (Object fs))) eqn:Hj.
  - rewrite (evalOutputBody_transform _ _ _ E Hj). cbn [member bind].
    destruct H as [Hn|Hty]; [rewrite (nullish_not_truthy _ Hn); by eauto |].
    apply Typed_object_inv in Hty as (ps & -> & Hps). cbn [truthyValue].
    destruct (transformObject_TypedFields jsonText jsonValue parse jsonText_parsed fs ps Hwf Hps)
      as (ps' & -> & Hps').
    eexists; split; [done |]. right. by constructor.
  - unfold outputBodyOf. rewrite E, Hj. cbn [evalOutputBody member].
    eexists; split; [done |]. destruct H as [Hn|Hty]; [by left | right].
    by apply (Typed_no_leaf jsonText).
Qed.

End Typing.

(** ** Examples *)

Lemma nodeFields_wf : wf (Object nodeFields).
Proof. apply wfb_spec. reflexivity. Qed.

Lemma nodeWire_typed : Typed jsonText false true (Object nodeFields) (VObject nodeWire).
Proof.
  constructor. constructor; [by apply Typed_scalar | constructor; [| constructor]].
  apply Typed_json. exists "42"%string, (VNumber 42).
  split_and!; [done | discriminate | by vm_compute].
Qed.

Lemma evalOutputBody_typed_witness :
  exists r, evalOutputBody (outputBodyOf getNodeType)
              (VObject {[ "getNode" := VObject nodeWire ]}) = Normal r /\
            (nullish r = true \/ Typed jsonValue false true (Object nodeFields) r).
Proof.
  apply (evalOutputBody_typed getNodeType nodeFields {[ "getNode" := VObject nodeWire ]}
           eq_refl nodeFields_wf).
  right. exact nodeWire_typed.
Defined.

(** The value of the JSON field of the example. *)
Definition fortyTwo (x : Value) : Prop := x = VNumber 42.

Lemma fortyTwo_stringified (x : Value) :
  fortyTwo x ->
  truthyValue x = true /\ exists r, applyTransformer stringify x = Normal r /\ jsonText r.
Proof.
  intros ->. split; [done |]. exists (VString "42"). split; [done |].
  exists "42"%string, (VNumber 42). split_and!; [done | discriminate | by vm_compute].
Qed.

Lemma nodeDecoded_typed : TypedFields fortyTwo nodeFields nodeDecoded.
Proof.
  constructor; [by apply Typed_scalar | constructor; [| constructor]].
  by apply Typed_json.
Qed.

Lemma evalEntries_typed_witness :
  exists ps',
    evalEntries {[ "x" := VObject nodeDecoded ]} (entriesOf stringify (PVar "x") false nodeFields)
      nodeDecoded = Normal ps' /\
    TypedFields jsonText nodeFields ps'.
Proof.
  exact (evalEntries_typed fortyTwo jsonText stringify fortyTwo_stringified nodeFields "x"
           nodeDecoded nodeFields_wf nodeDecoded_typed).
Defined.

(** A JSON value that is falsy is sent as it is: the guard of the line
    keeps [JSON.stringify] from it, so what is sent for the number zero
    is not a JSON text. *)
Example evalEntries_falsy_json :
  evalEntries {[ "x" := VObject {[ "payload" := VNumber 0 ]} ]}
    (entriesOf stringify (PVar "x") false [("payload", Scalar AWSJSON)])
    {[ "payload" := VNumber 0 ]} =
  Normal {[ "payload" := VNumber 0 ]}.
Proof. vm_compute. reflexivity. Qed.

(** Why an absent nested object has no type: its entry defines an
    object, in which a mandatory JSON field is [undefined]. *)
Definition metaFields : list (string * FieldValue) :=
  [("meta", Object [("payload!", Scalar AWSJSON)])].

Example absent_object_transformed :
  transformObject parse metaFields (VObject {[ "meta" := VNull ]}) =
  Normal (VObject {[ "meta" := VObject {[ "payload" := VUndefined ]} ]}).
Proof. vm_compute. reflexivity. Qed.

Lemma sampleParse_defined (s : string) : sampleParse (VString s) <> Normal VUndefined.
Proof.
  unfold sampleParse. repeat case_match; discriminate.
Qed.

Example absent_object_untyped :
  ~ TypedFields jsonValue metaFields {[ "meta" := VObject {[ "payload" := VUndefined ]} ]}.
Proof.
  intros H. apply Forall_inv in H.
  change (Typed jsonValue false false (Object [("payload!", Scalar AWSJSON)])
            (VObject {[ "payload" := VUndefined ]})) in H.
  apply Typed_object_inv in H as (ps & E & H). injection E as <-.
  apply Forall_inv in H.
  change (Typed jsonValue false true (Scalar AWSJSON) VUndefined) in H.
  apply Typed_json_inv in H as [[H _]|[_ (s & _ & H)]]; [discriminate H |].
  by apply sampleParse_defined in H.
Qed.

(** A root field that is a list has no type either: the output
    transformer spreads the list into an object, whose properties are
    the indices of the list and the overridden fields, read in the list
    itself. *)
Example evalOutputBody_list_root :
  evalOutputBody (outputBodyOf getNodeType)
    (VObject {[ "getNode" := VArray [VObject nodeWire] ]}) =
  Normal (VObject {[ "0" := VObject nodeWire; "payload" := VUndefined ]}).
Proof. vm_compute. reflexivity. Qed.
