(* ===== verification/Codec.v ===== *)
(** * Codec: what the transformers ask of JSON.parse and JSON.stringify

    The theorems of [Semantics] and [Typing] are stated for every codec
    and put their demands on the leaves of the data: a leaf is sent as
    a nonempty text that parses back to it.  [CodecLaws] states the same
    demands of the codec, on a set of values it represents, so that a
    codec is checked once and the theorems then hold of all the data
    made of these values.  The codec of the examples meets the laws on
    [null], the booleans and the natural numbers. *)

From stdpp Require Import base strings gmap list.
From Stdlib Require Import ZArith DecimalString DecimalN DecimalPos.
From S2P Require Import Prelude Shape Transform JsValue Semantics Typing.

(** ** The laws *)

Class CodecLaws `{Codec : JsonCodec} (representable : Value -> Prop) : Prop := {
  stringify_text (v : Value) :
    representable v -> exists s, jsonStringify v = VString s /\ s <> EmptyString;
  parse_stringify (v : Value) :
    representable v -> jsonParse (jsonStringify v) = Normal v
}.

Section Laws.

Context `{Laws : CodecLaws representable}.

(** A value the codec represents makes the round trip of a leaf. *)
Lemma representable_roundtrip (v : Value) : representable v -> codecRoundTrip v.
Proof.
  intros Hv. destruct (stringify_text v Hv) as (s & Hs & Hne).
  exists s. split_and!; [done | done |]. rewrite <- Hs. by apply parse_stringify.
Qed.

(** A truthy value the codec represents is sent as a JSON text. *)
Lemma representable_stringified (v : Value) :
  truthyValue v = true /\ representable v ->
  truthyValue v = true /\ exists r, applyTransformer stringify v = Normal r /\ jsonText r.
Proof.
  intros [Ht Hv]. split; [done |]. eexists; split; [done |].
  destruct (stringify_text v Hv) as (s & Hs & Hne). exists s, v.
  split_and!; [done | done |]. rewrite <- Hs. by apply parse_stringify.
Qed.

(** The object literal of the encode direction, on an object whose JSON
    fields are truthy values the codec represents, returns an object
    whose JSON fields are JSON texts. *)
Lemma transformObject_stringified (fs : list (string * FieldValue)) (ps : gmap string Value) :
  wf (Object fs) ->
  TypedFields (fun v => truthyValue v = true /\ representable v) fs ps ->
  exists ps', transformObject stringify fs (VObject ps) = Normal (VObject ps') /\
              TypedFields jsonText fs ps'.
Proof. apply transformObject_TypedFields, representable_stringified. Qed.

End Laws.

(** ** The codec of the examples *)

(** What the codec of the examples represents. *)
Definition sampleRepresentable (v : Value) : Prop :=
  match v with
  | VNull | VBool _ => True
  | VNumber n => (0 <= n)%Z
  | _ => False
  end.

Lemma string_of_uint_nonempty (n : N) :
  NilEmpty.string_of_uint (N.to_uint n) <> EmptyString.
Proof.
  destruct n as [|p]; [discriminate |]. cbn [N.to_uint].
  pose proof (DecimalPos.Unsigned.to_uint_nonnil p) as Hnil.
  by destruct (Pos.to_uint p).
Qed.

(** The text of a number is none of the three words the parser reads
    first: it starts with a digit. *)
Lemma sampleParse_number (u : Decimal.uint) :
  NilEmpty.string_of_uint u <> EmptyString ->
  sampleParse (VString (NilEmpty.string_of_uint u)) = Normal (VNumber (Z.of_N (N.of_uint u))).
Proof.
  intros Hne. unfold sampleParse.
  assert (Hw : forall w, In w ["null"; "true"; "false"]%string ->
                         String.eqb (NilEmpty.string_of_uint u) w = false).
  { intros w Hw. destruct u; [done | ..]; simpl in Hw;
      destruct Hw as [<-|[<-|[<-|[]]]]; reflexivity. }
  rewrite !Hw by (simpl; auto). by rewrite NilEmpty.usu.
Qed.

#[export] Instance sampleCodecLaws : CodecLaws sampleRepresentable.
Proof.
  split.
  - intros [| | [|] |n| | |] Hv; try done; simpl; try (eexists; split; [done | discriminate]).
    eexists; split; [done | apply string_of_uint_nonempty].
  - intros [| | [|] |n| | |] Hv; try done. cbn [jsonStringify sampleCodec sampleStringify jsonParse].
    rewrite sampleParse_number by apply string_of_uint_nonempty.
    by rewrite DecimalN.Unsigned.of_to, Z2N.id.
Qed.

(** The round trip of a leaf, for every natural number. *)
Example number_roundtrip (n : Z) : (0 <= n)%Z -> codecRoundTrip (VNumber n).
Proof. intros Hn. by apply representable_roundtrip. Qed.
